(** * ECLI metadata dashboard: the statistics and query engine

    A shallow embedding of [src/dashboard/dashboard.py]: the functions
    [get_corpus_stats], [get_recent_documents], [search_documents] and the
    route [get_document], over an explicit model of the relational store
    they read (the tables created by [src/scripts/init_database.py]).
    The second part of the definitions adds the aggregation queries
    ([get_documents_by_court], [get_documents_by_year],
    [get_document_metrics]), the routes [search] and [submit_feedback],
    and [generate_corpus_stats] of the initialisation script.

    Scope of the model.
    - Python values are [pyval]; dictionaries are finite maps with string
      keys.  The one dictionary that can get a key of another type, the
      detail of a document after the metadata blob was merged into it,
      carries a flag that says so.
    - Stored columns are typed as the schema declares them: TEXT columns
      hold NULL or a string, INTEGER columns NULL or an integer.  The REAL
      and BLOB storage classes do not occur.  Stored integers are
      unbounded ([Z]); the 64-bit bound of the store is modelled where
      Python hands an integer to the store (parameter binding).
    - Strings are sequences of characters below 256; floating-point
      numbers do not occur, neither in Python nor in the store.
    - The builtins are parameters of the development: [int] on a string
      (it returns an integer or raises [ValueError]), [json.loads] (it
      returns a value or raises: [JSONDecodeError], or another exception
      such as [RecursionError] on deep nesting or [ValueError] on an
      integer of more than 4300 digits), [json.dumps], and the order in
      which a mapping yields its keys.  The theorems hold for every
      instance; the concrete runs use the readers [int_of_str] and
      [Json.loads] on texts where they agree with Python.
    - The tables exist: a statement fails only through its parameters,
      its text or an integer overflow, never because the store is
      unavailable.
    - A pandas table is its column names and its rows; [jsonify] is left
      out of the routes that return a list. *)

From Stdlib Require Import ZArith Ascii List Lia.
From stdpp Require Import base option list gmap strings fin_maps pretty sorting.

Local Open Scope Z_scope.
Local Set Warnings "-register-all".

(* ===================================================================== *)
(** ** Python values *)
(* ===================================================================== *)

Inductive pyval : Type :=
| PyNone
| PyBool (b : bool)
| PyInt (n : Z)
| PyStr (s : string)
| PyList (l : list pyval)
| PyDict (m : gmap string pyval).

Abbreviation pydict := (gmap string pyval).

(** Python's exceptions that the modelled code can meet. *)
Inductive exn : Type :=
| ValueError
| JSONDecodeError      (* a subclass of ValueError; caught by name only *)
| TypeError
| OverflowError
| RecursionError
| ProgrammingError
| OperationalError.

Inductive outcome (A : Type) : Type :=
| Return (a : A)
| Raise (e : exn).
Arguments Return {A} a.
Arguments Raise {A} e.

#[global] Instance outcome_ret : MRet outcome := fun A a => Return a.
#[global] Instance outcome_bind : MBind outcome := fun A B f m =>
  match m with
  | Return a => f a
  | Raise e => Raise e
  end.

(** Truth value of an object, as tested by [if x:] and [x or y]. *)
Definition truthy (v : pyval) : bool :=
  match v with
  | PyNone => false
  | PyBool b => b
  | PyInt n => negb (n =? 0)
  | PyStr s => negb (String.eqb s EmptyString)
  | PyList l => match l with [] => false | _ :: _ => true end
  | PyDict m => negb (Nat.eqb (size m) 0)
  end.

(** [x or d]. *)
Definition py_or (v d : pyval) : pyval := if truthy v then v else d.

(** *** Decimal text

    The blanks that [int] and the store strip from ASCII text: tab, line
    feed, vertical tab, form feed, carriage return and the space. *)

Definition is_space (c : ascii) : bool :=
  let n := nat_of_ascii c in
  ((9 <=? n)%nat && (n <=? 13)%nat) || (n =? 32)%nat.

Definition digit_of (c : ascii) : option Z :=
  let n := nat_of_ascii c in
  if ((48 <=? n)%nat && (n <=? 57)%nat)%bool then Some (Z.of_nat (n - 48)) else None.

Fixpoint lstrip (l : list ascii) : list ascii :=
  match l with
  | c :: r => if is_space c then lstrip r else l
  | [] => []
  end.

Definition strip (l : list ascii) : list ascii :=
  reverse (lstrip (reverse (lstrip l))).

(** Digits after the first one; a single underscore may separate two
    digits. *)
Fixpoint int_digits (acc : Z) (l : list ascii) : option Z :=
  match l with
  | [] => Some acc
  | c :: r =>
      if Ascii.eqb c "_"%char then
        match r with
        | d :: r' =>
            match digit_of d with
            | Some v => int_digits (acc * 10 + v) r'
            | None => None
            end
        | [] => None
        end
      else
        match digit_of c with
        | Some v => int_digits (acc * 10 + v) r
        | None => None
        end
  end.

Definition int_unsigned (l : list ascii) : option Z :=
  match l with
  | d :: r =>
      match digit_of d with
      | Some v => int_digits v r
      | None => None
      end
  | [] => None
  end.

(** The most digits [int] converts (the default of Python 3.11). *)
Definition max_str_digits : nat := 4300.

(** A reader of ASCII decimal text, in the way of [int(s)]: blanks around
    the number, a sign, digits with single underscores between them, at
    most [max_str_digits] digits; [None] stands for [ValueError].  It is
    the instance of [int] in the concrete runs; digits and blanks outside
    ASCII are not read. *)
Definition int_of_str (s : string) : option Z :=
  let l := strip (String.list_ascii_of_string s) in
  if (max_str_digits <? length (filter (fun c => is_Some (digit_of c)) l))%nat then None
  else
    match l with
    | c :: r =>
        if Ascii.eqb c "-"%char then Z.opp <$> int_unsigned r
        else if Ascii.eqb c "+"%char then int_unsigned r
        else int_unsigned (c :: r)
    | [] => None
    end.

(** *** [int(x)] *)

Section Int.

(** [int] on a string; [None] stands for [ValueError]. *)
Variable int_str : string -> option Z.

Definition py_int (v : pyval) : outcome Z :=
  match v with
  | PyInt n => Return n
  | PyBool b => Return (if b then 1 else 0)
  | PyStr s =>
      match int_str s with
      | Some n => Return n
      | None => Raise ValueError
      end
  | PyNone | PyList _ | PyDict _ => Raise TypeError
  end.

End Int.

(** *** [dict.update(other)]

    [other] is a mapping, or an iterable of key/value pairs.  The pairs
    are stored one by one, so an element that is not a pair stops the
    update with an exception and keeps what was stored before it; the
    caller below swallows that exception, so only the dictionary is
    returned.

    A pair is any element that yields two items: a list of two values, a
    string of two characters, a mapping with two keys (it yields its
    keys).  The key of a pair can be any hashable value, so the updated
    dictionary can hold a key that is not a string (the integer, boolean
    or null of a decoded blob).  The finite map keeps the string keys; the
    flag beside it tells that a key of another type was stored. *)

Inductive pair : Type :=
| StrPair (k : string) (x : pyval)     (* a string key and its value *)
| ForeignPair                          (* a key that is not a string *)
| NotAPair.                            (* TypeError or ValueError *)

Abbreviation pyobject := (pydict * bool)%type.

Section Update.

(** The keys of a mapping in the order in which iteration yields them
    (for a decoded mapping, the order of the keys in the text). *)
Variable key_order : pydict -> list string.

Definition pair_of (v : pyval) : pair :=
  match v with
  | PyList [k; x] =>
      match k with
      | PyStr s => StrPair s x
      | PyNone | PyBool _ | PyInt _ => ForeignPair
      | PyList _ | PyDict _ => NotAPair        (* unhashable *)
      end
  | PyStr (String a (String b EmptyString)) =>
      StrPair (String a EmptyString) (PyStr (String b EmptyString))
  | PyDict m =>
      match key_order m with
      | [k1; k2] => StrPair k1 (PyStr k2)
      | _ => NotAPair
      end
  | _ => NotAPair
  end.

Fixpoint update_pairs (doc : pyobject) (l : list pyval) : pyobject :=
  match l with
  | [] => doc
  | e :: r =>
      match pair_of e with
      | StrPair k x => update_pairs (<[k := x]> doc.1, doc.2) r
      | ForeignPair => update_pairs (doc.1, true) r
      | NotAPair => doc
      end
  end.

Definition dict_update (doc : pydict) (other : pyval) : pyobject :=
  match other with
  | PyDict m => (m ∪ doc, false)
  | PyList l => update_pairs (doc, false) l
  | PyNone | PyBool _ | PyInt _ | PyStr _ => (doc, false)
  end.

End Update.

(* ===================================================================== *)
(** ** The store *)
(* ===================================================================== *)

(** Table [documents]. *)
Record Document : Type := {
  d_id : Z;
  d_ecli_id : option string;
  d_court : option string;
  d_year : option string;
  d_case_number : option string;
  d_file_path : option string;
  d_added_date : option string;
  d_last_updated : option string
}.

(** Table [document_metrics]. *)
Record DocumentMetrics : Type := {
  m_id : Z;
  m_document_id : option Z;
  m_page_count : option Z;
  m_file_size : option Z;
  m_document_date : option string;
  m_language : option string;
  m_judge : option string;
  m_pdf_metadata : option string
}.

(** Table [corpus_stats]. *)
Record CorpusStatsRow : Type := {
  s_id : Z;
  s_total_documents : option Z;
  s_total_pages : option Z;
  s_total_size_bytes : option Z;
  s_courts : option string;
  s_years : option string;
  s_generated_at : option string
}.

(** The tables, each in scan (rowid) order. *)
Record Store : Type := {
  documents : list Document;
  document_metrics : list DocumentMetrics;
  corpus_stats : list CorpusStatsRow
}.

(** A row of [documents d LEFT JOIN document_metrics m ON d.id = m.document_id]. *)
Abbreviation joined := (Document * option DocumentMetrics)%type.

Definition metrics_of (ms : list DocumentMetrics) (d : Document) : list DocumentMetrics :=
  filter (fun m => m_document_id m = Some (d_id d)) ms.

Definition join_document (ms : list DocumentMetrics) (d : Document) : list joined :=
  match metrics_of ms d with
  | [] => [(d, None)]
  | found => (fun m => (d, Some m)) <$> found
  end.

Definition left_join (st : Store) : list joined :=
  documents st ≫= join_document (document_metrics st).

(** *** Values crossing the boundary *)

Inductive sqlval : Type :=
| SqlNull
| SqlInt (n : Z)
| SqlText (s : string).

Definition sql_text (o : option string) : sqlval :=
  match o with Some s => SqlText s | None => SqlNull end.
Definition sql_int (o : option Z) : sqlval :=
  match o with Some n => SqlInt n | None => SqlNull end.

(** A column value as Python reads it from a row. *)
Definition py_text (o : option string) : pyval :=
  match o with Some s => PyStr s | None => PyNone end.
Definition py_integer (o : option Z) : pyval :=
  match o with Some n => PyInt n | None => PyNone end.

Definition fits_int64 (n : Z) : bool := (- 2 ^ 63 <=? n) && (n <? 2 ^ 63).

(** Binding one Python value to a [?] placeholder. *)
Definition bind_param (v : pyval) : outcome sqlval :=
  match v with
  | PyNone => Return SqlNull
  | PyBool b => Return (SqlInt (if b then 1 else 0))
  | PyInt n => if fits_int64 n then Return (SqlInt n) else Raise OverflowError
  | PyStr s => Return (SqlText s)
  | PyList _ | PyDict _ => Raise ProgrammingError
  end.

Fixpoint bind_params (l : list pyval) : outcome (list sqlval) :=
  match l with
  | [] => Return []
  | v :: r =>
      match bind_param v with
      | Return x =>
          match bind_params r with
          | Return xs => Return (x :: xs)
          | Raise e => Raise e
          end
      | Raise e => Raise e
      end
  end.

(* ===================================================================== *)
(** ** The statements the program issues *)
(* ===================================================================== *)

(** *** Comparison in the store

    NULL compares to nothing; integers sort before text; text is compared
    byte by byte (the BINARY collation). *)
Definition sql_compare (a b : sqlval) : option comparison :=
  match a, b with
  | SqlNull, _ | _, SqlNull => None
  | SqlInt x, SqlInt y => Some (x ?= y)
  | SqlInt _, SqlText _ => Some Lt
  | SqlText _, SqlInt _ => Some Gt
  | SqlText x, SqlText y => Some (String.compare x y)
  end.

Inductive column : Type := ColCourt | ColYear | ColPageCount.
Inductive operator : Type := OpEq | OpGe | OpLe.

Definition column_value (c : column) (r : joined) : sqlval :=
  match c with
  | ColCourt => sql_text (d_court r.1)
  | ColYear => sql_text (d_year r.1)
  | ColPageCount => sql_int (r.2 ≫= m_page_count)
  end.

(** An integer written as text, as the store reads it when it applies
    numeric affinity.  (Text that looks like a real number with an
    integer value is converted by the store as well; no theorem below
    hands the store such a text for an INTEGER column.) *)
Definition sql_integer_text (s : string) : option Z :=
  match strip (String.list_ascii_of_string s) with
  | c :: r =>
      let digits l := if forallb (fun d => bool_decide (is_Some (digit_of d))) l
                      then int_unsigned l else None in
      if Ascii.eqb c "-"%char then Z.opp <$> digits r
      else if Ascii.eqb c "+"%char then digits r
      else digits (c :: r)
  | [] => None
  end.

Inductive affinity : Type := TextAffinity | IntegerAffinity.

Definition column_affinity (c : column) : affinity :=
  match c with
  | ColCourt | ColYear => TextAffinity
  | ColPageCount => IntegerAffinity
  end.

(** The affinity of the column is applied to the other operand before
    the comparison: a TEXT column turns an integer into its decimal text,
    an INTEGER column turns integer-looking text into the integer. *)
Definition apply_affinity (a : affinity) (v : sqlval) : sqlval :=
  match a, v with
  | TextAffinity, SqlInt n => SqlText (pretty n)
  | IntegerAffinity, SqlText s =>
      match sql_integer_text s with
      | Some n => SqlInt n
      | None => v
      end
  | _, _ => v
  end.

Definition holds (op : operator) (c : comparison) : bool :=
  match op, c with
  | OpEq, Eq => true
  | OpGe, (Eq | Gt) => true
  | OpLe, (Eq | Lt) => true
  | _, _ => false
  end.

(** One conjunct [<column> <operator> ?] with its bound value; [None] is
    SQL's NULL (unknown). *)
Definition eval_predicate (p : column * operator) (v : sqlval) (r : joined) : option bool :=
  holds p.2 <$> sql_compare (column_value p.1 r) (apply_affinity (column_affinity p.1) v).

(** [WHERE 1=1 AND p1 AND ... AND pn] keeps a row when every conjunct is
    true (neither false nor NULL). *)
Definition where_all (ps : list ((column * operator) * sqlval)) (r : joined) : bool :=
  forallb (fun pv => bool_decide (eval_predicate pv.1 pv.2 r = Some true)) ps.

(** *** [ORDER BY d.added_date DESC]

    NULL is the smallest value, so it comes last in descending order.
    Rows with equal keys keep the order in which the scan produced them. *)
Definition date_ge (a b : option string) : bool :=
  match a, b with
  | _, None => true
  | None, Some _ => false
  | Some x, Some y => String.leb y x
  end.

Definition added_date (r : joined) : option string := d_added_date r.1.

Fixpoint insert_desc {A} (key : A -> option string) (r : A) (l : list A) : list A :=
  match l with
  | [] => [r]
  | x :: l' =>
      if date_ge (key r) (key x) then r :: x :: l' else x :: insert_desc key r l'
  end.

Definition order_by_desc {A} (key : A -> option string) (l : list A) : list A :=
  foldr (insert_desc key) [] l.

(** [ORDER BY d.id DESC], the same way on the integer key. *)
Fixpoint insert_id_desc (r : joined) (l : list joined) : list joined :=
  match l with
  | [] => [r]
  | x :: l' =>
      if d_id x.1 <=? d_id r.1 then r :: x :: l' else x :: insert_id_desc r l'
  end.

Definition order_by_id_desc (l : list joined) : list joined :=
  foldr insert_id_desc [] l.

(** [LIMIT n]: a negative limit is no limit. *)
Definition sql_limit {A} (n : Z) (l : list A) : list A :=
  if n <? 0 then l else take (Z.to_nat n) l.

(** *** The text of the search statement *)

Definition search_select : string :=
"
    SELECT d.ecli_id, d.court, d.year, d.added_date, m.page_count, m.file_size
    FROM documents d
    LEFT JOIN document_metrics m ON d.id = m.document_id
    WHERE 1=1
    ".

Definition search_order_by : string := " ORDER BY d.added_date DESC".

Fixpoint strip_prefix (p s : string) : option string :=
  match p, s with
  | EmptyString, _ => Some s
  | String a p', String b s' => if Ascii.eqb a b then strip_prefix p' s' else None
  | String _ _, EmptyString => None
  end.

Definition parse_column (s : string) : option (column * string) :=
  match strip_prefix "d.court" s, strip_prefix "d.year" s, strip_prefix "m.page_count" s with
  | Some r, _, _ => Some (ColCourt, r)
  | _, Some r, _ => Some (ColYear, r)
  | _, _, Some r => Some (ColPageCount, r)
  | None, None, None => None
  end.

Definition parse_operator (s : string) : option (operator * string) :=
  match strip_prefix ">=" s, strip_prefix "<=" s, strip_prefix "=" s with
  | Some r, _, _ => Some (OpGe, r)
  | _, Some r, _ => Some (OpLe, r)
  | _, _, Some r => Some (OpEq, r)
  | None, None, None => None
  end.

(** The conjuncts after [WHERE 1=1], up to the ORDER BY clause. *)
Fixpoint parse_where (fuel : nat) (s : string) : option (list (column * operator)) :=
  if String.eqb s search_order_by then Some []
  else
    match fuel with
    | O => None
    | S fuel' =>
        s1 ← strip_prefix " AND " s;
        '(c, s2) ← parse_column s1;
        s3 ← strip_prefix " " s2;
        '(op, s4) ← parse_operator s3;
        s5 ← strip_prefix " ?" s4;
        ps ← parse_where fuel' s5;
        Some ((c, op) :: ps)
    end.

(** The statements of the family that [search_documents] writes: the
    fixed SELECT, any number of conjuncts with a placeholder each, and
    the ORDER BY clause. *)
Definition parse_search (sql : string) : option (list (column * operator)) :=
  s ← strip_prefix search_select sql;
  parse_where (String.length s) s.

(** Compiling a search statement and binding its parameters: a text
    outside the family is a syntax error, then the parameters are counted
    and bound in order. *)
Definition prepare_search (sql : string) (params : list pyval)
    : outcome (list (column * operator) * list sqlval) :=
  match parse_search sql with
  | None => Raise OperationalError
  | Some ps =>
      if negb (Nat.eqb (length ps) (length params)) then Raise ProgrammingError
      else vs ← bind_params params; Return (ps, vs)
  end.

(** The rows of a compiled search statement.  The statement leaves the
    order of rows with equal dates open; the model keeps them in the
    order of the join, and no theorem on a search depends on it. *)
Definition search_rows (st : Store) (ps : list (column * operator)) (vs : list sqlval)
    : list joined :=
  order_by_desc added_date (filter (fun r => where_all (zip ps vs) r) (left_join st)).

(** *** The fixed statements *)

Inductive statement : Type :=
| LatestStats          (* SELECT * FROM corpus_stats ORDER BY id DESC LIMIT 1 *)
| CountDocuments       (* SELECT COUNT( * ) FROM documents *)
| SumPageCount         (* SELECT SUM(page_count) FROM document_metrics *)
| SumFileSize          (* SELECT SUM(file_size) FROM document_metrics *)
| CourtCounts          (* SELECT court, COUNT( * ) as count FROM documents GROUP BY court *)
| YearCounts           (* SELECT year, COUNT( * ) as count FROM documents GROUP BY year *)
| RecentByAddedDate    (* ... LEFT JOIN ... ORDER BY d.added_date DESC LIMIT ? *)
| RecentById           (* ... LEFT JOIN ... ORDER BY d.id DESC LIMIT ? *)
| DocumentByEcli       (* SELECT d.*, m.page_count, ... LEFT JOIN ... WHERE d.ecli_id = ? *)
| Search (sql : string).

(** [ORDER BY id DESC LIMIT 1] on [corpus_stats]: the row with the
    greatest id. *)
Fixpoint latest_stats (l : list CorpusStatsRow) : option CorpusStatsRow :=
  match l with
  | [] => None
  | r :: l' =>
      match latest_stats l' with
      | Some r' => if s_id r <? s_id r' then Some r' else Some r
      | None => Some r
      end
  end.

(** [SUM(x)]: the sum of the values that are not NULL, and NULL when
    there is none.  The values are added in scan order in a 64-bit
    integer; once a sum leaves its range the statement fails with
    'integer overflow'. *)
Fixpoint sum_int64 (acc : Z) (l : list Z) : outcome Z :=
  match l with
  | [] => Return acc
  | x :: r => if fits_int64 (acc + x) then sum_int64 (acc + x) r else Raise OperationalError
  end.

Definition sql_sum (l : list (option Z)) : outcome (option Z) :=
  match omap id l with
  | [] => Return None
  | x :: xs =>
      match sum_int64 0 (x :: xs) with
      | Return n => Return (Some n)
      | Raise e => Raise e
      end
  end.

(** [SELECT k, COUNT( * ) ... GROUP BY k]: one row per distinct key, NULL
    being a key like the others. *)
Definition group_count (keys : list (option string)) : list (option string * Z) :=
  (fun k => (k, Z.of_nat (length (filter (fun k' => k' = k) keys)))) <$> remove_dups keys.

Definition recent_by_added_date (st : Store) (limit : Z) : list joined :=
  sql_limit limit (order_by_desc added_date (left_join st)).

Definition recent_by_id (st : Store) (limit : Z) : list joined :=
  sql_limit limit (order_by_id_desc (left_join st)).

(** [WHERE d.ecli_id = ?] on the left join, in scan order. *)
Definition document_by_ecli (st : Store) (v : sqlval) : list joined :=
  filter (fun r => sql_compare (sql_text (d_ecli_id r.1)) (apply_affinity TextAffinity v) = Some Eq)
         (left_join st).

(* ===================================================================== *)
(** ** Connections, the trace of statements, exceptions *)
(* ===================================================================== *)

Inductive event : Type :=
| Connect
| Execute (q : statement) (params : list sqlval)
| Close.

Record World : Type := {
  store : Store;
  open_connections : nat;
  trace : list event;
  clock : string          (* what datetime.now().isoformat() returns *)
}.

Definition M (A : Type) : Type := World -> outcome A * World.

#[global] Instance M_ret : MRet M := fun A a w => (Return a, w).
#[global] Instance M_bind : MBind M := fun A B f m w =>
  match m w with
  | (Return a, w') => f a w'
  | (Raise e, w') => (Raise e, w')
  end.

Definition lift {A} (o : outcome A) : M A := fun w => (o, w).

Definition record (e : event) (w : World) : World :=
  {| store := store w; open_connections := open_connections w;
     trace := trace w ++ [e]; clock := clock w |}.

(** [get_db_connection()]: opens a connection. *)
Definition get_db_connection : M unit := fun w =>
  (Return tt,
   record Connect {| store := store w; open_connections := S (open_connections w);
                     trace := trace w; clock := clock w |}).

(** [conn.close()]. *)
Definition conn_close : M unit := fun w =>
  (Return tt,
   record Close {| store := store w; open_connections := pred (open_connections w);
                   trace := trace w; clock := clock w |}).

(** [cursor.execute(q, params)] followed by the fetch: the parameters are
    bound, the statement is recorded, [rows] reads the store. *)
Definition execute {A} (q : statement) (params : list pyval)
    (rows : Store -> list sqlval -> A) : M A := fun w =>
  match bind_params params with
  | Return vs => (Return (rows (store w) vs), record (Execute q vs) w)
  | Raise e => (Raise e, w)
  end.

(** The same for a statement that the store can fail to evaluate: the
    exception leaves [execute]. *)
Definition execute_or_fail {A} (q : statement) (params : list pyval)
    (rows : Store -> list sqlval -> outcome A) : M A := fun w =>
  match bind_params params with
  | Return vs => (rows (store w) vs, record (Execute q vs) w)
  | Raise e => (Raise e, w)
  end.

(** [cursor.execute(sql, params)] for a statement given by its text. *)
Definition execute_search (sql : string) (params : list pyval) : M (list joined) := fun w =>
  match prepare_search sql params with
  | Return (ps, vs) =>
      (Return (search_rows (store w) ps vs), record (Execute (Search sql) vs) w)
  | Raise e => (Raise e, w)
  end.

(** [try: body  except Exception: handler]. *)
Definition try_except {A} (body : M A) (handler : exn -> M A) : M A := fun w =>
  match body w with
  | (Return a, w') => (Return a, w')
  | (Raise e, w') => handler e w'
  end.

Definition now_isoformat : M string := fun w => (Return (clock w), w).

(* ===================================================================== *)
(** ** [dict(row)] for the result columns of each statement *)
(* ===================================================================== *)

Definition dict_get (d : pydict) (k : string) : pyval := default PyNone (d !! k).

Definition is_none (v : pyval) : bool :=
  match v with PyNone => true | _ => false end.

(** [str(x)] inside an f-string, for the scalars that reach it. *)
Definition py_str (v : pyval) : string :=
  match v with
  | PyNone => "None"
  | PyBool b => if b then "True" else "False"
  | PyInt n => pretty n
  | PyStr s => s
  | PyList _ | PyDict _ => EmptyString
  end.

Definition search_dict (r : joined) : pydict :=
  <["ecli_id" := py_text (d_ecli_id r.1)]>
  (<["court" := py_text (d_court r.1)]>
  (<["year" := py_text (d_year r.1)]>
  (<["added_date" := py_text (d_added_date r.1)]>
  (<["page_count" := py_integer (r.2 ≫= m_page_count)]>
  (<["file_size" := py_integer (r.2 ≫= m_file_size)]> ∅))))).

Definition recent_dict (r : joined) : pydict :=
  <["id" := PyInt (d_id r.1)]> (search_dict r).

Definition document_dict (r : joined) : pydict :=
  <["id" := PyInt (d_id r.1)]>
  (<["ecli_id" := py_text (d_ecli_id r.1)]>
  (<["court" := py_text (d_court r.1)]>
  (<["year" := py_text (d_year r.1)]>
  (<["case_number" := py_text (d_case_number r.1)]>
  (<["file_path" := py_text (d_file_path r.1)]>
  (<["added_date" := py_text (d_added_date r.1)]>
  (<["last_updated" := py_text (d_last_updated r.1)]>
  (<["page_count" := py_integer (r.2 ≫= m_page_count)]>
  (<["file_size" := py_integer (r.2 ≫= m_file_size)]>
  (<["document_date" := py_text (r.2 ≫= m_document_date)]>
  (<["judge" := py_text (r.2 ≫= m_judge)]>
  (<["pdf_metadata" := py_text (r.2 ≫= m_pdf_metadata)]> ∅)))))))))))).

Definition stats_dict (r : CorpusStatsRow) : pydict :=
  <["id" := PyInt (s_id r)]>
  (<["total_documents" := py_integer (s_total_documents r)]>
  (<["total_pages" := py_integer (s_total_pages r)]>
  (<["total_size_bytes" := py_integer (s_total_size_bytes r)]>
  (<["courts" := py_text (s_courts r)]>
  (<["years" := py_text (s_years r)]>
  (<["generated_at" := py_text (s_generated_at r)]> ∅)))))).

(* ===================================================================== *)
(** ** [search_documents] *)
(* ===================================================================== *)

(** ['k' in query and query['k']]: the value when the key is there and
    its value is true. *)
Definition present (query : pydict) (k : string) : option pyval :=
  match query !! k with
  | Some v => if truthy v then Some v else None
  | None => None
  end.

Section Search.

(** [int] on a string; [None] stands for [ValueError]. *)
Variable int_str : string -> option Z.

(** The statement text and its parameters (lines 258-285). *)
Definition build_search (query : pydict) : outcome (string * list pyval) :=
  let sql := search_select in
  let params := [] in
  let '(sql, params) :=
    match present query "court" with
    | Some v => (sql +:+ " AND d.court = ?", params ++ [v])
    | None => (sql, params)
    end in
  let '(sql, params) :=
    match present query "year" with
    | Some v => (sql +:+ " AND d.year = ?", params ++ [v])
    | None => (sql, params)
    end in
  '(sql, params) ←
    match present query "min_pages" with
    | Some v =>
        n ← py_int int_str v; Return (sql +:+ " AND m.page_count >= ?", params ++ [PyInt n])
    | None => Return (sql, params)
    end;
  '(sql, params) ←
    match present query "max_pages" with
    | Some v =>
        n ← py_int int_str v; Return (sql +:+ " AND m.page_count <= ?", params ++ [PyInt n])
    | None => Return (sql, params)
    end;
  Return (sql +:+ " ORDER BY d.added_date DESC", params).

Definition search_documents (query : pydict) : M (list pydict) :=
  _ ← get_db_connection;
  '(sql, params) ← lift (build_search query);
  rows ← execute_search sql params;
  _ ← conn_close;
  mret (match rows with
        | [] => []
        | _ :: _ => search_dict <$> rows
        end).

End Search.

(** The filter that the route [/api/search] builds from the request
    arguments (lines 400-405): each argument is a string or missing. *)
Definition search_query (court year min_pages max_pages : option string) : pydict :=
  <["court" := py_text court]>
  (<["year" := py_text year]>
  (<["min_pages" := py_text min_pages]>
  (<["max_pages" := py_text max_pages]> ∅))).

(* ===================================================================== *)
(** ** [get_recent_documents] *)
(* ===================================================================== *)

(** The placeholders for missing fields (lines 226-235). *)
Definition with_defaults (doc : pydict) : pydict :=
  let doc :=
    if is_none (dict_get doc "ecli_id")
    then <["ecli_id" := PyStr ("ECLI_UNKNOWN_" +:+ py_str (default (PyStr "UNKNOWN") (doc !! "id")))]> doc
    else doc in
  let doc := if is_none (dict_get doc "court") then <["court" := PyStr "Unknown"]> doc else doc in
  let doc := if is_none (dict_get doc "year") then <["year" := PyStr "Unknown"]> doc else doc in
  let doc :=
    if is_none (dict_get doc "added_date") then <["added_date" := PyStr "Unknown"]> doc else doc in
  doc.

Definition get_recent_documents (limit : Z) : M (list pydict) :=
  _ ← get_db_connection;
  try_except
    (rows ← execute RecentByAddedDate [PyInt limit] (fun st _ => recent_by_added_date st limit);
     rows ← match rows with
             | [] => execute RecentById [PyInt limit] (fun st _ => recent_by_id st limit)
             | _ :: _ => mret rows
             end;
     let documents := (fun row => with_defaults (recent_dict row)) <$> rows in
     _ ← conn_close;
     mret documents)
    (fun _ => _ ← conn_close; mret []).

(* ===================================================================== *)
(** ** [get_corpus_stats] and [get_document] *)
(* ===================================================================== *)

(** [{key(row[0]): row[1] for row in rows if row[0]}]; a key that is a
    string is its own [str]. *)
Definition counts_dict (rows : list (option string * Z)) : pydict :=
  foldl (fun m row =>
           if truthy (py_text row.1) then <[py_str (py_text row.1) := PyInt row.2]> m else m)
        ∅ rows.

(** The response of a route: the body that [jsonify] serialized and the
    status code. *)
Inductive response : Type :=
| Json (body : pydict) (status : Z).

(** [jsonify(doc)]: the keys are sorted, so a dictionary that holds a
    key that is not a string beside its string keys cannot be serialized
    ([TypeError]: the keys do not compare). *)
Definition jsonify (doc : pyobject) (status : Z) : outcome response :=
  if doc.2 then Raise TypeError else Return (Json doc.1 status).

Section Decoder.

(** [json.loads]: the decoded value, or the exception it raises. *)
Variable json_loads : string -> outcome pyval.

(** The order in which a mapping yields its keys. *)
Variable key_order : pydict -> list string.

(** Lines 66-70 and 72-76: the field is decoded when it is true, and
    [JSONDecodeError], that exception only, gives the empty mapping. *)
Definition decode_field (stats : pydict) (k : string) : outcome pydict :=
  if truthy (dict_get stats k) then
    match dict_get stats k with
    | PyStr s =>
        match json_loads s with
        | Return v => Return (<[k := v]> stats)
        | Raise JSONDecodeError => Return (<[k := PyDict ∅]> stats)
        | Raise e => Raise e
        end
    | _ => Raise TypeError
    end
  else Return stats.

Definition get_corpus_stats : M pydict :=
  _ ← get_db_connection;
  row ← execute LatestStats [] (fun st _ => latest_stats (corpus_stats st));
  match row with
  | Some r =>
      let stats := stats_dict r in
      stats ← lift (decode_field stats "courts");
      stats ← lift (decode_field stats "years");
      _ ← conn_close;
      mret stats
  | None =>
      total_documents ←
        execute CountDocuments [] (fun st _ => PyInt (Z.of_nat (length (documents st))));
      pages ←
        execute_or_fail SumPageCount []
          (fun st _ => sql_sum (m_page_count <$> document_metrics st));
      let total_pages := py_or (py_integer pages) (PyInt 0) in
      size ←
        execute_or_fail SumFileSize []
          (fun st _ => sql_sum (m_file_size <$> document_metrics st));
      let total_size := py_or (py_integer size) (PyInt 0) in
      courts ←
        execute CourtCounts [] (fun st _ => counts_dict (group_count (d_court <$> documents st)));
      years ←
        execute YearCounts [] (fun st _ => counts_dict (group_count (d_year <$> documents st)));
      generated ← now_isoformat;
      let stats :=
        <["total_documents" := total_documents]>
        (<["total_pages" := total_pages]>
        (<["total_size_bytes" := total_size]>
        (<["courts" := PyDict courts]>
        (<["years" := PyDict years]>
        (<["generated_date" := PyStr generated]> ∅))))) in
      _ ← conn_close;
      mret stats
  end.

(** Lines 385-391: the metadata blob is merged and removed; whatever the
    decoding or the update raises is swallowed ([except: pass]). *)
Definition merge_metadata (doc : pydict) : pyobject :=
  if truthy (dict_get doc "pdf_metadata") then
    let doc :=
      match dict_get doc "pdf_metadata" with
      | PyStr s =>
          match json_loads s with
          | Return pdf_metadata => dict_update key_order doc pdf_metadata
          | Raise _ => (doc, false)
          end
      | _ => (doc, false)
      end in
    (delete "pdf_metadata" doc.1, doc.2)
  else (doc, false).

Definition get_document (ecli_id : string) : M response :=
  _ ← get_db_connection;
  row ← execute DocumentByEcli [PyStr ecli_id]
          (fun st _ => head (document_by_ecli st (SqlText ecli_id)));
  _ ← conn_close;
  match row with
  | Some r => lift (jsonify (merge_metadata (document_dict r)) 200)
  | None => mret (Json (<["error" := PyStr "Document not found"]> ∅) 404)
  end.

End Decoder.

(* ===================================================================== *)
(** ** A decoder for a fragment of JSON

    Objects, arrays, strings with the one-letter escapes, integers and
    the three literals; an integer of more than [max_str_digits] digits
    raises [ValueError], as the conversion by [int] does.  Numbers with a
    fraction or an exponent and the limit on nesting are outside the
    fragment.  It instantiates [json_loads] in the concrete runs below;
    the theorems hold for every decoder. *)
(* ===================================================================== *)

Module Json.

Definition quote : ascii := "034"%char.
Definition backslash : ascii := "092"%char.

Definition is_ws (c : ascii) : bool :=
  let n := nat_of_ascii c in
  (n =? 32)%nat || (n =? 9)%nat || (n =? 10)%nat || (n =? 13)%nat.

Fixpoint skip_ws (l : list ascii) : list ascii :=
  match l with
  | c :: r => if is_ws c then skip_ws r else l
  | [] => []
  end.

Definition unescape (c : ascii) : option ascii :=
  if Ascii.eqb c quote then Some quote
  else if Ascii.eqb c backslash then Some backslash
  else if Ascii.eqb c "/"%char then Some "/"%char
  else if Ascii.eqb c "n"%char then Some "010"%char
  else if Ascii.eqb c "t"%char then Some "009"%char
  else if Ascii.eqb c "r"%char then Some "013"%char
  else if Ascii.eqb c "b"%char then Some "008"%char
  else if Ascii.eqb c "f"%char then Some "012"%char
  else None.

(** The characters of a string after its opening quote. *)
Fixpoint string_body (l : list ascii) : option (string * list ascii) :=
  match l with
  | [] => None
  | c :: r =>
      if Ascii.eqb c quote then Some (EmptyString, r)
      else if Ascii.eqb c backslash then
        match r with
        | e :: r' =>
            match unescape e, string_body r' with
            | Some x, Some (s, rest) => Some (String x s, rest)
            | _, _ => None
            end
        | [] => None
        end
      else if (nat_of_ascii c <? 32)%nat then None
      else
        match string_body r with
        | Some (s, rest) => Some (String c s, rest)
        | None => None
        end
  end.

Fixpoint digits (l : list ascii) : list Z * list ascii :=
  match l with
  | c :: r =>
      match digit_of c with
      | Some v => let '(ds, rest) := digits r in (v :: ds, rest)
      | None => ([], l)
      end
  | [] => ([], [])
  end.

(** A syntax error. *)
Definition malformed {A} : outcome A := Raise JSONDecodeError.

Definition expect {A} (o : option A) : outcome A :=
  match o with
  | Some a => Return a
  | None => malformed
  end.

(** An integer: no leading zero, no fraction, no exponent; its digits
    are converted by [int]. *)
Definition number (l : list ascii) : outcome (Z * list ascii) :=
  let '(neg, body) :=
    match l with
    | c :: r => if Ascii.eqb c "-"%char then (true, r) else (false, l)
    | [] => (false, l)
    end in
  match digits body with
  | ([], _) => malformed
  | (0 :: _ :: _, _) => malformed
  | (ds, rest) =>
      let fractional :=
        match rest with
        | c :: _ => Ascii.eqb c "."%char || Ascii.eqb c "e"%char || Ascii.eqb c "E"%char
        | [] => false
        end in
      if fractional then malformed
      else if (max_str_digits <? length ds)%nat then Raise ValueError
      else Return ((if neg then Z.opp else id) (foldl (fun a d => a * 10 + d) 0 ds), rest)
  end.

Fixpoint value (fuel : nat) (l : list ascii) : outcome (pyval * list ascii) :=
  match fuel with
  | O => malformed
  | S fuel' =>
      match skip_ws l with
      | "{"%char :: r =>
          match skip_ws r with
          | "}"%char :: r' => Return (PyDict ∅, r')
          | r1 => '(m, rest) ← members fuel' r1 ∅; Return (PyDict m, rest)
          end
      | "["%char :: r =>
          match skip_ws r with
          | "]"%char :: r' => Return (PyList [], r')
          | r1 => '(vs, rest) ← elements fuel' r1; Return (PyList vs, rest)
          end
      | "t"%char :: "r"%char :: "u"%char :: "e"%char :: r => Return (PyBool true, r)
      | "f"%char :: "a"%char :: "l"%char :: "s"%char :: "e"%char :: r => Return (PyBool false, r)
      | "n"%char :: "u"%char :: "l"%char :: "l"%char :: r => Return (PyNone, r)
      | c :: r =>
          if Ascii.eqb c quote then '(s, rest) ← expect (string_body r); Return (PyStr s, rest)
          else '(n, rest) ← number (c :: r); Return (PyInt n, rest)
      | [] => malformed
      end
  end
with members (fuel : nat) (l : list ascii) (acc : pydict) : outcome (pydict * list ascii) :=
  match fuel with
  | O => malformed
  | S fuel' =>
      match l with
      | c :: r =>
          if Ascii.eqb c quote then
            '(k, r1) ← expect (string_body r);
            match skip_ws r1 with
            | ":"%char :: r2 =>
                '(v, r3) ← value fuel' r2;
                match skip_ws r3 with
                | ","%char :: r4 => members fuel' (skip_ws r4) (<[k := v]> acc)
                | "}"%char :: r4 => Return (<[k := v]> acc, r4)
                | _ => malformed
                end
            | _ => malformed
            end
          else malformed
      | [] => malformed
      end
  end
with elements (fuel : nat) (l : list ascii) : outcome (list pyval * list ascii) :=
  match fuel with
  | O => malformed
  | S fuel' =>
      '(v, r1) ← value fuel' l;
      match skip_ws r1 with
      | ","%char :: r2 => '(vs, rest) ← elements fuel' r2; Return (v :: vs, rest)
      | "]"%char :: r2 => Return ([v], r2)
      | _ => malformed
      end
  end.

Definition loads (s : string) : outcome pyval :=
  let l := String.list_ascii_of_string s in
  '(v, rest) ← value (2 * length l + 2) l;
  match skip_ws rest with
  | [] => Return v
  | _ :: _ => malformed
  end.

(** A string literal of JSON: the text between double quotes. *)
Definition quoted (s : string) : string :=
  String quote (s +:+ String quote EmptyString).

(** An encoder for mappings from a key to a count; the null key is
    written as the string null. *)
Definition dumps (m : gmap (option string) Z) : string :=
  let item (kv : option string * Z) := quoted (default "null" kv.1) +:+ ": " +:+ pretty kv.2 in
  "{" +:+ String.concat ", " (item <$> map_to_list m) +:+ "}".

(** An order of the keys of a mapping. *)
Definition key_order (m : pydict) : list string := (map_to_list m).*1.

End Json.

(* ===================================================================== *)
(** ** Reading the claims: filters *)
(* ===================================================================== *)

(** The four recognised fields of a filter. *)
Definition filter_fields : list string := ["court"; "year"; "min_pages"; "max_pages"].

(** A field counts as supplied when it is there and its value is true. *)
Definition supplied (query : pydict) (k : string) : bool :=
  match present query k with
  | Some _ => true
  | None => false
  end.

(** Two filters supply the same fields, whatever the values. *)
Definition same_fields (q1 q2 : pydict) : Prop :=
  Forall (fun k => supplied q1 k = supplied q2 k) filter_fields.

(** The statement text for each choice of supplied fields. *)
Definition search_text (court year min_pages max_pages : bool) : string :=
  ((((search_select
      +:+ (if court then " AND d.court = ?" else EmptyString))
      +:+ (if year then " AND d.year = ?" else EmptyString))
      +:+ (if min_pages then " AND m.page_count >= ?" else EmptyString))
      +:+ (if max_pages then " AND m.page_count <= ?" else EmptyString))
  +:+ " ORDER BY d.added_date DESC".

Section Filters.

(** [int] on a string; [None] stands for [ValueError]. *)
Variable int_str : string -> option Z.

(** The values handed to the store, in the order of their placeholders. *)
Definition bound_values (query : pydict) : list pyval :=
  let bound k := match present query k with
                 | Some v => match py_int int_str v with Return n => [PyInt n] | Raise _ => [] end
                 | None => []
                 end in
  option_list (present query "court") ++ option_list (present query "year")
    ++ bound "min_pages" ++ bound "max_pages".

(** A filter as the HTTP layer builds it: a recognised field is missing,
    [None] or a string. *)
Definition str_or_none (v : pyval) : Prop := v = PyNone \/ exists s, v = PyStr s.

Definition typed_filter (query : pydict) : Prop :=
  forall k v, k ∈ filter_fields -> query !! k = Some v -> str_or_none v.

(** The field is a string that is not empty and that [int] rejects. *)
Definition non_numeric (query : pydict) (k : string) : Prop :=
  exists s, query !! k = Some (PyStr s) /\ s <> EmptyString /\ int_str s = None.

(** A page bound is valid when [int] reads it and the store can hold it. *)
Definition valid_bound (query : pydict) (k : string) : Prop :=
  forall s, query !! k = Some (PyStr s) -> s <> EmptyString ->
    exists n, int_str s = Some n /\ fits_int64 n = true.

Definition well_formed_filter (query : pydict) : Prop :=
  typed_filter query /\ valid_bound query "min_pages" /\ valid_bound query "max_pages".

(** The text of a supplied field. *)
Definition supplied_text (query : pydict) (k : string) : option string :=
  match query !! k with
  | Some (PyStr s) => if String.eqb s EmptyString then None else Some s
  | _ => None
  end.

(** The predicates of a filter on a result row, in the words of the
    specification: court and year match exactly, the page count lies
    within the inclusive bounds.  A field that is not supplied asks for
    nothing. *)
Definition text_is (row : pydict) (k : string) (s : string) : bool :=
  match row !! k with
  | Some (PyStr x) => String.eqb x s
  | _ => false
  end.

Definition court_matches (query row : pydict) : bool :=
  match supplied_text query "court" with
  | Some c => text_is row "court" c
  | None => true
  end.

Definition year_matches (query row : pydict) : bool :=
  match supplied_text query "year" with
  | Some y => text_is row "year" y
  | None => true
  end.

Definition min_pages_holds (query row : pydict) : bool :=
  match supplied_text query "min_pages" with
  | Some s =>
      match int_str s, row !! "page_count" with
      | Some n, Some (PyInt p) => n <=? p
      | _, _ => false
      end
  | None => true
  end.

Definition max_pages_holds (query row : pydict) : bool :=
  match supplied_text query "max_pages" with
  | Some s =>
      match int_str s, row !! "page_count" with
      | Some n, Some (PyInt p) => p <=? n
      | _, _ => false
      end
  | None => true
  end.

Definition satisfies (query row : pydict) : bool :=
  court_matches query row && year_matches query row
  && min_pages_holds query row && max_pages_holds query row.

End Filters.


(** Descending order on a date key, NULL last. *)
Definition key_desc {A} (key : A -> option string) (a b : A) : Prop :=
  date_ge (key a) (key b) = true.

(** The metrics part of a result row for the document [d]: one of the
    metrics rows that reference [d], or none when no metrics row does. *)
Definition joins (st : Store) (d : Document) (om : option DocumentMetrics) : Prop :=
  match om with
  | Some m => m ∈ document_metrics st /\ m_document_id m = Some (d_id d)
  | None => forall m, m ∈ document_metrics st -> m_document_id m <> Some (d_id d)
  end.



(** The values of a column that are not null, and their sum. *)
Definition non_null (l : list (option Z)) : list Z := omap id l.

Definition total (l : list Z) : Z := foldr Z.add 0 l.

(** Every sum of the first values of the column, in scan order, is
    within the 64-bit range of the store. *)
Definition running_sums_fit (l : list (option Z)) : Prop :=
  forall n, fits_int64 (total (take n (non_null l))) = true.

(** The decoder raises nothing but [JSONDecodeError] on the text. *)
Definition decodes_or_rejects (json_loads : string -> outcome pyval) (s : string) : bool :=
  match json_loads s with
  | Return _ | Raise JSONDecodeError => true
  | Raise _ => false
  end.

(** The same for a stored field: null and the empty text are not
    decoded at all. *)
Definition field_readable (json_loads : string -> outcome pyval) (o : option string) : bool :=
  match o with
  | None => true
  | Some s => String.eqb s EmptyString || decodes_or_rejects json_loads s
  end.

(** What a mapping field of the snapshot reads as: null and the empty
    text as stored; any other text decoded, or the empty mapping when
    the decoder raises [JSONDecodeError]; another exception of the
    decoder is not caught. *)
Definition stored_or_decoded (json_loads : string -> outcome pyval) (o : option string)
    : outcome pyval :=
  match o with
  | None => Return PyNone
  | Some s =>
      if String.eqb s EmptyString then Return (PyStr s)
      else
        match json_loads s with
        | Return v => Return v
        | Raise JSONDecodeError => Return (PyDict ∅)
        | Raise e => Raise e
        end
  end.

(** A value of a decoded blob that can be the key of a dictionary
    without being a string. *)
Definition foreign_key (v : pyval) : Prop :=
  match v with
  | PyNone | PyBool _ | PyInt _ => True
  | PyStr _ | PyList _ | PyDict _ => False
  end.

(** The not-found answer of the document route. *)
Definition not_found : response :=
  Json (<["error" := PyStr "Document not found"]> ∅) 404.

(* ===================================================================== *)
(** ** Sample data for the concrete runs *)
(* ===================================================================== *)

Module Sample.

Definition document (i : Z) (court year added : option string) : Document :=
  {| d_id := i; d_ecli_id := Some ("ECLI_" +:+ pretty i); d_court := court;
     d_year := year; d_case_number := None; d_file_path := None;
     d_added_date := added; d_last_updated := None |}.

Definition metrics (i doc : Z) (pages : option Z) (blob : option string) : DocumentMetrics :=
  {| m_id := i; m_document_id := Some doc; m_page_count := pages;
     m_file_size := (fun p => p * 51200) <$> pages; m_document_date := None;
     m_language := Some "Portuguese"; m_judge := None; m_pdf_metadata := blob |}.

Definition snapshot (i : Z) (courts years : option string) : CorpusStatsRow :=
  {| s_id := i; s_total_documents := Some 3; s_total_pages := Some 15;
     s_total_size_bytes := Some 768000; s_courts := courts; s_years := years;
     s_generated_at := Some "2025-01-01T00:00:00" |}.

Definition world (st : Store) : World :=
  {| store := st; open_connections := 0; trace := []; clock := "2025-06-01T12:00:00" |}.

(** Three documents, two of them with metrics. *)
Definition library : Store :=
  {| documents := [document 1 (Some "STJ") (Some "2020") None;
                   document 2 (Some "TRL") (Some "2021") (Some "2024-01-01");
                   document 3 (Some "STJ") None (Some "2025-01-01")];
     document_metrics := [metrics 1 1 (Some 5) None; metrics 2 3 (Some 10) None];
     corpus_stats := [] |}.

(** Three documents without an added date. *)
Definition undated : Store :=
  {| documents := [document 1 (Some "STJ") (Some "2020") None;
                   document 2 (Some "TRL") (Some "2021") None;
                   document 3 (Some "STJ") (Some "2022") None];
     document_metrics := [];
     corpus_stats := [] |}.

Definition empty : Store :=
  {| documents := []; document_metrics := []; corpus_stats := [] |}.

(** Two metrics rows whose page counts add up to 2^63. *)
Definition heavy : Store :=
  {| documents := [document 1 (Some "STJ") (Some "2020") None];
     document_metrics := [metrics 1 1 (Some (2 ^ 62)) None; metrics 2 1 (Some (2 ^ 62)) None];
     corpus_stats := [] |}.

(** No document, and a metrics row left behind. *)
Definition orphaned : Store :=
  {| documents := [];
     document_metrics := [metrics 1 1 (Some 5) None];
     corpus_stats := [] |}.

(** A filter and the same filter with other values. *)
Definition by_court : pydict :=
  <["court" := PyStr "STJ"]> (<["min_pages" := PyStr "3"]> (<["year" := PyNone]> ∅)).
Definition by_court' : pydict :=
  <["court" := PyStr "x' OR 1=1 --"]> (<["min_pages" := PyStr "7"]> ∅).

Definition bad_bound : pydict := <["min_pages" := PyStr "abc"]> ∅.

(** One document whose metrics carry the given metadata blob. *)
Definition with_metadata (blob : string) : Store :=
  {| documents := [document 1 (Some "STJ") (Some "2020") (Some "2024-01-01")];
     document_metrics := [metrics 1 1 (Some 5) (Some blob)];
     corpus_stats := [] |}.

(** The blobs [{"judge":"X"}] and [{"pdf_metadata": 1}]. *)
Definition judge_blob : string :=
  "{" +:+ Json.quoted "judge" +:+ ":" +:+ Json.quoted "X" +:+ "}".
Definition shadowing_blob : string :=
  "{" +:+ Json.quoted "pdf_metadata" +:+ ": 1}".

(** The blob [[[1, 2]]]: one pair whose key is an integer. *)
Definition integer_key_blob : string := "[[1, 2]]".

(** The mapping [{"2020": 1}] as stored, and a store with snapshots. *)
Definition years_text : string := "{" +:+ Json.quoted "2020" +:+ ": 1}".

(** An integer of 5000 digits. *)
Definition long_number : string := String.concat EmptyString (replicate 5000 "1").

Definition with_snapshot (courts years : option string) : Store :=
  {| documents := documents library;
     document_metrics := document_metrics library;
     corpus_stats := [snapshot 1 (Some "{}") (Some "{}"); snapshot 2 courts years] |}.

End Sample.

(* ===================================================================== *)
(** ** The aggregation queries *)
(* ===================================================================== *)

(** A table as pandas holds it: the column names and the rows. *)
Record DataFrame : Type := {
  df_columns : list string;
  df_rows : list (list pyval)
}.

(** A stable sort: [le r x] lets [r] stand before [x]; rows that compare
    equal keep their order. *)
Fixpoint insert_by {A} (le : A -> A -> bool) (r : A) (l : list A) : list A :=
  match l with
  | [] => [r]
  | x :: l' => if le r x then r :: x :: l' else x :: insert_by le r l'
  end.

Definition sort_by {A} (le : A -> A -> bool) (l : list A) : list A :=
  foldr (insert_by le) [] l.

Definition count_of (k : string) (keys : list string) : Z :=
  Z.of_nat (length (filter (fun k' => k' = k) keys)).

(** [SELECT k, COUNT( * ) ... WHERE k IS NOT NULL GROUP BY k]: one row
    per distinct key, the groups in the order of their keys. *)
Definition group_by_text (keys : list string) : list (string * Z) :=
  (fun k => (k, count_of k keys)) <$> sort_by String.leb (remove_dups keys).

(** [... GROUP BY court ORDER BY count DESC]; the statement leaves the
    order of courts with equal counts open. *)
Definition documents_by_court (st : Store) : list (string * Z) :=
  sort_by (fun a b => b.2 <=? a.2) (group_by_text (omap d_court (documents st))).

(** [... GROUP BY year ORDER BY year]. *)
Definition documents_by_year (st : Store) : list (string * Z) :=
  sort_by (fun a b => String.leb a.1 b.1) (group_by_text (omap d_year (documents st))).

(** [documents d JOIN document_metrics m ON d.id = m.document_id], in the
    order of the documents; the statement leaves the order open. *)
Definition inner_join (st : Store) : list (Document * DocumentMetrics) :=
  documents st ≫= fun d => (fun m => (d, m)) <$> metrics_of (document_metrics st) d.

Definition star : string := String "042"%char EmptyString.

Definition by_court_sql : string :=
"
    SELECT court, COUNT(" +:+ star +:+ ") as count
    FROM documents
    WHERE court IS NOT NULL
    GROUP BY court
    ORDER BY count DESC
    ".

Definition by_year_sql : string :=
"
    SELECT year, COUNT(" +:+ star +:+ ") as count
    FROM documents
    WHERE year IS NOT NULL
    GROUP BY year
    ORDER BY year
    ".

Definition metrics_sql : string :=
"
    SELECT d.ecli_id, d.court, d.year, m.page_count, m.file_size
    FROM documents d
    JOIN document_metrics m ON d.id = m.document_id
    ".

Definition count_row (r : string * Z) : list pyval := [PyStr r.1; PyInt r.2].

Definition metrics_row (r : Document * DocumentMetrics) : list pyval :=
  [py_text (d_ecli_id r.1); py_text (d_court r.1); py_text (d_year r.1);
   py_integer (m_page_count r.2); py_integer (m_file_size r.2)].

Definition get_documents_by_court : M DataFrame :=
  _ ← get_db_connection;
  rows ← execute (Search by_court_sql) [] (fun st _ => documents_by_court st);
  _ ← conn_close;
  mret (match rows with
        | _ :: _ => {| df_columns := ["court"; "count"]; df_rows := count_row <$> rows |}
        | [] => {| df_columns := ["court"; "count"]; df_rows := [] |}
        end).

Definition get_documents_by_year : M DataFrame :=
  _ ← get_db_connection;
  rows ← execute (Search by_year_sql) [] (fun st _ => documents_by_year st);
  _ ← conn_close;
  mret (match rows with
        | _ :: _ => {| df_columns := ["year"; "count"]; df_rows := count_row <$> rows |}
        | [] => {| df_columns := ["year"; "count"]; df_rows := [] |}
        end).

Definition get_document_metrics : M DataFrame :=
  _ ← get_db_connection;
  rows ← execute (Search metrics_sql) [] (fun st _ => inner_join st);
  _ ← conn_close;
  mret (match rows with
        | _ :: _ =>
            {| df_columns := ["ecli_id"; "court"; "year"; "page_count"; "file_size"];
               df_rows := metrics_row <$> rows |}
        | [] =>
            {| df_columns := ["ecli_id"; "court"; "year"; "page_count"; "file_size"];
               df_rows := [] |}
        end).

(* ===================================================================== *)
(** ** The routes over the core functions *)
(* ===================================================================== *)

(** [/api/search]: the filter is built from the request arguments. *)
Definition search (int_str : string -> option Z)
    (court year min_pages max_pages : option string) : M (list pydict) :=
  search_documents int_str (search_query court year min_pages max_pages).

(* ===================================================================== *)
(** ** [generate_corpus_stats] of the initialisation script *)
(* ===================================================================== *)

(** [{row[0]: row[1] for row in rows}]: every group is kept, the NULL one
    under the key [None]. *)
Definition counts_by_key (rows : list (option string * Z)) : gmap (option string) Z :=
  foldl (fun m row => <[row.1 := row.2]> m) ∅ rows.

(** What a bound value becomes in a column of the declared type. *)
Definition integer_column (v : sqlval) : option Z :=
  match apply_affinity IntegerAffinity v with
  | SqlInt n => Some n
  | SqlNull | SqlText _ => None
  end.

Definition text_column (v : sqlval) : option string :=
  match apply_affinity TextAffinity v with
  | SqlText s => Some s
  | SqlNull | SqlInt _ => None
  end.

(** The id an AUTOINCREMENT key gives the next row: one more than the
    greatest id in the table (no snapshot is ever deleted). *)
Definition next_stats_id (l : list CorpusStatsRow) : Z :=
  match latest_stats l with
  | Some r => s_id r + 1
  | None => 1
  end.

Definition insert_stats (st : Store) (vs : list sqlval) : Store :=
  match vs with
  | [total_documents; total_pages; total_size_bytes; courts; years; generated_at] =>
      {| documents := documents st;
         document_metrics := document_metrics st;
         corpus_stats :=
           corpus_stats st ++
           [{| s_id := next_stats_id (corpus_stats st);
               s_total_documents := integer_column total_documents;
               s_total_pages := integer_column total_pages;
               s_total_size_bytes := integer_column total_size_bytes;
               s_courts := text_column courts;
               s_years := text_column years;
               s_generated_at := text_column generated_at |}] |}
  | _ => st
  end.

Section Encoder.

(** [json.dumps] on a mapping from court or year to a count. *)
Variable json_dumps : gmap (option string) Z -> string.

(** [now] is what [datetime.now().isoformat()] returns. *)
Definition generate_corpus_stats (now : string) (st : Store) : outcome Store :=
  let total_documents := PyInt (Z.of_nat (length (documents st))) in
  pages ← sql_sum (m_page_count <$> document_metrics st);
  let total_pages := py_or (py_integer pages) (PyInt 0) in
  size ← sql_sum (m_file_size <$> document_metrics st);
  let total_size_bytes := py_or (py_integer size) (PyInt 0) in
  let courts := counts_by_key (group_count (d_court <$> documents st)) in
  let years := counts_by_key (group_count (d_year <$> documents st)) in
  vs ← bind_params [total_documents; total_pages; total_size_bytes;
                     PyStr (json_dumps courts); PyStr (json_dumps years); PyStr now];
  Return (insert_stats st vs).

End Encoder.

(* ===================================================================== *)
(** ** Reading results *)
(* ===================================================================== *)

(** The rows a call returned; none when it raised. *)
Definition rows_of {A} (o : outcome (list A)) : list A :=
  match o with
  | Return l => l
  | Raise _ => []
  end.

(** A filter cut down to its four recognised fields. *)
Definition recognised (query : pydict) : pydict :=
  filter (fun kv => kv.1 ∈ filter_fields) query.

(** The errors a caller of the search route can meet. *)
Definition input_error (e : exn) : Prop := e = ValueError \/ e = OverflowError.

(** The keys of the two shapes of corpus statistics. *)
Definition snapshot_keys : gset string :=
  list_to_set ["id"; "total_documents"; "total_pages"; "total_size_bytes";
               "courts"; "years"; "generated_at"].

Definition computed_keys : gset string :=
  list_to_set ["total_documents"; "total_pages"; "total_size_bytes";
               "courts"; "years"; "generated_date"].

(** The number of documents whose column [col] holds the text [k]. *)
Definition documents_with (col : Document -> option string) (k : string) (st : Store) : Z :=
  Z.of_nat (length (filter (fun d => col d = Some k) (documents st))).

(** The mapping a call returned; the empty one when it raised. *)
Definition rows_dict (o : outcome pydict) : pydict :=
  match o with
  | Return d => d
  | Raise _ => ∅
  end.

(** The same world over another state of the store. *)
Definition with_store (w : World) (st : Store) : World :=
  {| store := st; open_connections := open_connections w;
     trace := trace w; clock := clock w |}.

(** The totals of the tables. *)
Definition table_documents (st : Store) : Z := Z.of_nat (length (documents st)).
Definition table_pages (st : Store) : Z :=
  total (non_null (m_page_count <$> document_metrics st)).
Definition table_bytes (st : Store) : Z :=
  total (non_null (m_file_size <$> document_metrics st)).

(* ===================================================================== *)
(** ** [submit_feedback] *)
(* ===================================================================== *)

(** A table by its declared columns and its rows; a row maps every
    column to its value. *)
Record Table : Type := {
  t_columns : list (string * affinity);
  t_rows : list (gmap string sqlval)
}.

(** The table as [submit_feedback] creates it (lines 426-436). *)
Definition dashboard_feedback_columns : list (string * affinity) :=
  [("id", IntegerAffinity); ("feedback_type", TextAffinity); ("rating", IntegerAffinity);
   ("comment", TextAffinity); ("document_id", TextAffinity); ("user_agent", TextAffinity);
   ("timestamp", TextAffinity)].

(** The table as [init_database] creates it (lines 66-76 of the script). *)
Definition script_feedback_columns : list (string * affinity) :=
  [("id", IntegerAffinity); ("document_id", TextAffinity); ("type", TextAffinity);
   ("rating", IntegerAffinity); ("comment", TextAffinity); ("user_agent", TextAffinity);
   ("submitted_at", TextAffinity)].

(** The store of the claims together with the feedback table, which may
    not exist yet. *)
Record Site : Type := {
  site_world : World;
  user_feedback : option Table
}.

Definition row_id (row : gmap string sqlval) : Z :=
  match row !! "id" with
  | Some (SqlInt n) => n
  | _ => 0
  end.

(** The id of the next row of an AUTOINCREMENT key: one more than the
    greatest id in the table (no feedback row is ever deleted). *)
Definition next_rowid (rows : list (gmap string sqlval)) : Z :=
  foldr Z.max 0 (row_id <$> rows) + 1.

Definition column_affinity_of (t : Table) (c : string) : option affinity :=
  (list_to_map (t_columns t) : gmap string affinity) !! c.

(** [INSERT INTO t (cols) VALUES (?, ...)]: a column the table does not
    have is an error when the statement is compiled; the columns that are
    not named get NULL, the key gets the next id. *)
Definition insert_row (t : Table) (cols : list string) (vs : list sqlval) : option Table :=
  if forallb (fun c => bool_decide (is_Some (column_affinity_of t c))) cols then
    let blank : gmap string sqlval := list_to_map ((fun c => (c.1, SqlNull)) <$> t_columns t) in
    let row :=
      foldr (fun cv m =>
               match column_affinity_of t cv.1 with
               | Some a => <[cv.1 := apply_affinity a cv.2]> m
               | None => m
               end)
            blank (zip cols vs) in
    Some {| t_columns := t_columns t;
            t_rows := t_rows t ++ [<["id" := SqlInt (next_rowid (t_rows t))]> row] |}
  else None.

Definition feedback_insert_columns : list string :=
  ["feedback_type"; "rating"; "comment"; "document_id"; "user_agent"; "timestamp"].

Definition create_feedback_sql : string :=
"
    CREATE TABLE IF NOT EXISTS user_feedback (
        id INTEGER PRIMARY KEY AUTOINCREMENT,
        feedback_type TEXT,
        rating INTEGER,
        comment TEXT,
        document_id TEXT,
        user_agent TEXT,
        timestamp TEXT
    )
    ".

Definition insert_feedback_sql : string :=
"
    INSERT INTO user_feedback 
    (feedback_type, rating, comment, document_id, user_agent, timestamp)
    VALUES (?, ?, ?, ?, ?, ?)
    ".

Definition on_world (f : World -> World) (s : Site) : Site :=
  {| site_world := f (site_world s); user_feedback := user_feedback s |}.

Definition no_feedback : response :=
  Json (<["error" := PyStr "No feedback data provided"]> ∅) 400.

Definition feedback_stored : response :=
  Json (<["success" := PyBool true]>
        (<["message" := PyStr "Feedback submitted successfully"]> ∅)) 200.

(** [/api/feedback]: [feedback_data] is the decoded body of the request. *)
Definition submit_feedback (feedback_data : pyval) (s : Site) : outcome response * Site :=
  if negb (truthy feedback_data) then (Return no_feedback, s)
  else
    match feedback_data with
    | PyDict data =>
        (* feedback_data['timestamp'] = datetime.now().isoformat() *)
        let data := <["timestamp" := PyStr (clock (site_world s))]> data in
        let s := on_world (fun w => (get_db_connection w).2) s in
        (* CREATE TABLE IF NOT EXISTS *)
        let s := on_world (record (Execute (Search create_feedback_sql) [])) s in
        let table :=
          match user_feedback s with
          | Some t => t
          | None => {| t_columns := dashboard_feedback_columns; t_rows := [] |}
          end in
        let s := {| site_world := site_world s; user_feedback := Some table |} in
        (* INSERT *)
        if forallb (fun c => bool_decide (is_Some (column_affinity_of table c)))
                   feedback_insert_columns
        then
          match bind_params [dict_get data "type"; dict_get data "rating";
                             dict_get data "comment"; dict_get data "document_id";
                             dict_get data "user_agent"; dict_get data "timestamp"] with
          | Return vs =>
              let s := on_world (record (Execute (Search insert_feedback_sql) vs)) s in
              let s := {| site_world := site_world s;
                          user_feedback := insert_row table feedback_insert_columns vs |} in
              let s := on_world (fun w => (conn_close w).2) s in
              (Return feedback_stored, s)
          | Raise e => (Raise e, s)
          end
        else (Raise OperationalError, s)
    | PyNone | PyBool _ | PyInt _ | PyStr _ | PyList _ => (Raise TypeError, s)
    end.

(* ===================================================================== *)
(** ** More sample data *)
(* ===================================================================== *)

Module Demo.

Definition feedback : pyval :=
  PyDict (<["type" := PyStr "bug"]>
          (<["rating" := PyInt 2]>
          (<["timestamp" := PyStr "1970-01-01T00:00:00"]> ∅))).

Definition site (t : option Table) : Site :=
  {| site_world := Sample.world Sample.library; user_feedback := t |}.

Definition script_table : Table :=
  {| t_columns := script_feedback_columns; t_rows := [] |}.

End Demo.
(* ===================================================================== *)
(** ** Concrete runs *)
(* ===================================================================== *)

Example int_of_str_accepts :
  int_of_str " 12 " = Some 12 /\ int_of_str "1_000" = Some 1000
  /\ int_of_str "-5" = Some (-5) /\ int_of_str "+5" = Some 5 /\ int_of_str "007" = Some 7.
Proof. repeat split; reflexivity. Qed.

Example int_of_str_rejects :
  int_of_str "abc" = None /\ int_of_str "12.5" = None /\ int_of_str EmptyString = None
  /\ int_of_str "  " = None /\ int_of_str "1__0" = None /\ int_of_str "- 5" = None
  /\ int_of_str (String "028"%char "7") = None
  /\ int_of_str Sample.long_number = None.
Proof. repeat split; vm_compute; reflexivity. Qed.

Example parse_search_two_conjuncts :
  parse_search (search_text true false false true)
  = Some [(ColCourt, OpEq); (ColPageCount, OpLe)].
Proof. vm_compute. reflexivity. Qed.

(** A value written into the text takes the statement out of the family. *)
Example parse_search_interpolated :
  parse_search (search_select +:+ " AND d.court = 'STJ'" +:+ search_order_by) = None.
Proof. vm_compute. reflexivity. Qed.

Example json_loads_judge :
  Json.loads Sample.judge_blob = Return (PyDict (<["judge" := PyStr "X"]> ∅)).
Proof. vm_compute. reflexivity. Qed.

Example json_loads_rejects :
  Json.loads EmptyString = Raise JSONDecodeError
  /\ Json.loads "{not json" = Raise JSONDecodeError
  /\ Json.loads "[1,]" = Raise JSONDecodeError.
Proof. repeat split; reflexivity. Qed.

(** An integer of 5000 digits is not a syntax error: its conversion
    raises [ValueError]. *)
Example json_loads_long_number :
  String.length Sample.long_number = 5000%nat
  /\ Json.loads Sample.long_number = Raise ValueError.
Proof. split; vm_compute; reflexivity. Qed.

Example json_loads_integer_key :
  Json.loads Sample.integer_key_blob = Return (PyList [PyList [PyInt 1; PyInt 2]]).
Proof. vm_compute. reflexivity. Qed.

Example sql_sum_runs :
  sql_sum [Some 5; None; Some 10] = Return (Some 15)
  /\ sql_sum [None; None] = Return None
  /\ sql_sum [Some (2 ^ 62); Some (2 ^ 62)] = Raise OperationalError
  /\ sql_sum [Some (2 ^ 62); Some (2 ^ 62); Some (- 2 ^ 62)] = Raise OperationalError.
Proof. repeat split; reflexivity. Qed.

Example search_by_court_run :
  let out := search_documents int_of_str Sample.by_court (Sample.world Sample.library) in
  match out.1 with
  | Return rows => (fun row => dict_get row "ecli_id") <$> rows
  | Raise _ => []
  end = [PyStr "ECLI_3"; PyStr "ECLI_1"]
  /\ open_connections out.2 = 0%nat.
Proof. vm_compute. split; reflexivity. Qed.

Example search_overflowing_bound_run :
  (search_documents int_of_str (<["max_pages" := PyStr "99999999999999999999"]> ∅)
     (Sample.world Sample.library)).1 = Raise OverflowError.
Proof. vm_compute. reflexivity. Qed.

Example recent_documents_run :
  (fun row => dict_get row "added_date")
    <$> match (get_recent_documents 10 (Sample.world Sample.library)).1 with
        | Return rows => rows
        | Raise _ => []
        end
  = [PyStr "2025-01-01"; PyStr "2024-01-01"; PyStr "Unknown"].
Proof. vm_compute. reflexivity. Qed.

(* ===================================================================== *)
(** ** The statement builder *)
(* ===================================================================== *)

Lemma search_text_inj_flags q1 q2 :
  same_fields q1 q2 ->
  search_text (supplied q1 "court") (supplied q1 "year")
              (supplied q1 "min_pages") (supplied q1 "max_pages")
  = search_text (supplied q2 "court") (supplied q2 "year")
                (supplied q2 "min_pages") (supplied q2 "max_pages").
Proof.
  unfold same_fields, filter_fields. intros H.
  repeat (apply Forall_cons_1 in H as [-> H]). reflexivity.
Qed.

Lemma present_str query k s :
  query !! k = Some (PyStr s) -> s <> EmptyString -> present query k = Some (PyStr s).
Proof.
  intros Hk Hs. unfold present. rewrite Hk. cbn.
  destruct (String.eqb_spec s EmptyString); [contradiction | reflexivity].
Qed.

Lemma present_typed query k v :
  typed_filter query -> k ∈ filter_fields -> present query k = Some v ->
  exists s, v = PyStr s /\ s <> EmptyString /\ query !! k = Some (PyStr s).
Proof.
  intros Ht Hin. unfold present. destruct (query !! k) as [x|] eqn:Hk; [|discriminate].
  destruct (truthy x) eqn:Hx; [|discriminate]. intros [= <-].
  destruct (Ht k x Hin Hk) as [-> | [s ->]]; [discriminate|].
  exists s. split; [reflexivity|]. split; [|reflexivity].
  intros ->. discriminate.
Qed.

(** The filter of the search route is typed. *)
Lemma search_query_typed court year lo hi : typed_filter (search_query court year lo hi).
Proof.
  intros k v _ Hk. unfold search_query in Hk.
  repeat (apply lookup_insert_Some in Hk as [[_ <-] | [_ Hk]];
          [match goal with
           | |- str_or_none (py_text ?o) =>
               destruct o; [right; eexists; reflexivity | left; reflexivity]
           end|]).
  rewrite lookup_empty in Hk. discriminate.
Qed.

Section Builder.

Variable int_str : string -> option Z.

Lemma build_search_text query sql params :
  build_search int_str query = Return (sql, params) ->
  sql = search_text (supplied query "court") (supplied query "year")
                    (supplied query "min_pages") (supplied query "max_pages")
  /\ params = bound_values int_str query.
Proof.
  unfold build_search, bound_values, supplied.
  destruct (present query "court") as [vc|], (present query "year") as [vy|],
    (present query "min_pages") as [vlo|], (present query "max_pages") as [vhi|];
    cbn [mbind outcome_bind option_list];
    repeat match goal with
           | |- context [py_int int_str ?v] => destruct (py_int int_str v) as [?|?]
           end;
    cbn [mbind outcome_bind]; intros H; inversion H; subst; split; reflexivity.
Qed.

Lemma build_search_non_numeric query :
  typed_filter query ->
  non_numeric int_str query "min_pages" \/ non_numeric int_str query "max_pages" ->
  build_search int_str query = Raise ValueError.
Proof.
  intros Ht Hbad. unfold build_search.
  destruct (present query "court") as [vc|], (present query "year") as [vy|];
    cbn [mbind outcome_bind].
  all: destruct Hbad as [(s & Hk & Hs & Hint) | (s & Hk & Hs & Hint)].
  all: try (rewrite (present_str _ _ _ Hk Hs); cbn [py_int]; rewrite Hint; reflexivity).
  all: destruct (present query "min_pages") as [vlo|] eqn:Hlo.
  all: try (apply (present_typed _ _ _ Ht) in Hlo as (s' & -> & _ & _);
            [|unfold filter_fields; set_solver];
            cbn [py_int]; destruct (int_str s'); [|reflexivity]).
  all: cbn [mbind outcome_bind].
  all: rewrite (present_str _ _ _ Hk Hs); cbn [py_int]; rewrite Hint; reflexivity.
Qed.

(** The world after [get_db_connection()]. *)
Lemma search_documents_unfold query w :
  search_documents int_str query w =
  let w1 := (get_db_connection w).2 in
  match build_search int_str query with
  | Raise e => (Raise e, w1)
  | Return (sql, params) =>
      match prepare_search sql params with
      | Raise e => (Raise e, w1)
      | Return (ps, vs) =>
          let rows := search_rows (store w1) ps vs in
          (Return (match rows with [] => [] | _ :: _ => search_dict <$> rows end),
           (conn_close (record (Execute (Search sql) vs) w1)).2)
      end
  end.
Proof.
  cbv [search_documents mbind M_bind lift execute_search mret M_ret].
  cbn [get_db_connection snd].
  destruct (build_search int_str query) as [[sql params]|e]; [|reflexivity].
  destruct (prepare_search sql params) as [[ps vs]|e]; reflexivity.
Qed.

(** ** Claims on the statement builder and on invalid bounds *)

(** C7: the text of the search statement is the same for two filters that
    supply the same fields, whatever their values; the values travel in
    the parameter list only. *)
Theorem search_text_ignores_values q1 q2 sql1 params1 sql2 params2 :
  same_fields q1 q2 ->
  build_search int_str q1 = Return (sql1, params1) ->
  build_search int_str q2 = Return (sql2, params2) ->
  sql1 = sql2 /\ params1 = bound_values int_str q1 /\ params2 = bound_values int_str q2.
Proof.
  intros Hsame H1 H2.
  apply build_search_text in H1 as [-> ->], H2 as [-> ->].
  split; [apply search_text_inj_flags, Hsame | split; reflexivity].
Qed.

(** The builder returns as soon as [int] accepts the bounds it is given. *)
Lemma build_search_returns query :
  (forall v, present query "min_pages" = Some v -> exists n, py_int int_str v = Return n) ->
  (forall v, present query "max_pages" = Some v -> exists n, py_int int_str v = Return n) ->
  exists params,
    build_search int_str query
    = Return (search_text (supplied query "court") (supplied query "year")
                          (supplied query "min_pages") (supplied query "max_pages"), params).
Proof.
  intros Hlo Hhi. unfold build_search, supplied.
  destruct (present query "court") as [vc|], (present query "year") as [vy|],
    (present query "min_pages") as [vlo|], (present query "max_pages") as [vhi|];
    cbn [mbind outcome_bind];
    try (destruct (Hlo _ eq_refl) as [nlo ->]); cbn [mbind outcome_bind];
    try (destruct (Hhi _ eq_refl) as [nhi ->]); cbn [mbind outcome_bind];
    eexists; reflexivity.
Qed.

(** C2: a page bound that is a non-numeric string (a string that is not
    empty and that [int] rejects) makes [search_documents] raise
    [ValueError] to its caller before any statement reaches the store:
    the trace holds the connection only. *)
Theorem search_documents_rejects_non_numeric query w :
  typed_filter query ->
  non_numeric int_str query "min_pages" \/ non_numeric int_str query "max_pages" ->
  exists w',
    search_documents int_str query w = (Raise ValueError, w')
    /\ store w' = store w
    /\ trace w' = trace w ++ [Connect].
Proof.
  intros Ht Hbad. rewrite search_documents_unfold.
  rewrite (build_search_non_numeric _ Ht Hbad). cbn zeta.
  eexists. split; [reflexivity|]. split; reflexivity.
Qed.

(** A search that returns has sent the store one statement: the text
    chosen by the supplied fields. *)
Lemma search_documents_trace query w rows w' :
  search_documents int_str query w = (Return rows, w') ->
  exists vs,
    trace w'
    = trace w ++ [Connect;
                  Execute (Search (search_text (supplied query "court") (supplied query "year")
                                     (supplied query "min_pages") (supplied query "max_pages"))) vs;
                  Close].
Proof.
  rewrite search_documents_unfold.
  destruct (build_search int_str query) as [[sql params]|e] eqn:Hb; [|discriminate].
  apply build_search_text in Hb as [-> _].
  destruct (prepare_search _ params) as [[ps vs]|e]; [|discriminate].
  intros [= _ <-]. exists vs. cbn. rewrite <- !app_assoc. reflexivity.
Qed.

(** A search that returns has released its connection. *)
Lemma search_documents_releases_on_return query w rows w' :
  search_documents int_str query w = (Return rows, w') ->
  open_connections w' = open_connections w.
Proof.
  rewrite search_documents_unfold.
  destruct (build_search int_str query) as [[sql params]|e]; [|discriminate].
  destruct (prepare_search sql params) as [[ps vs]|e]; [|discriminate].
  intros [= _ <-]. reflexivity.
Qed.

End Builder.

Lemma search_text_ignores_values_witness :
  same_fields Sample.by_court Sample.by_court'
  /\ build_search int_of_str Sample.by_court
     = Return (search_text true false true false, [PyStr "STJ"; PyInt 3])
  /\ build_search int_of_str Sample.by_court'
     = Return (search_text true false true false, [PyStr "x' OR 1=1 --"; PyInt 7])
  /\ search_text true false true false = search_text true false true false.
Proof.
  assert (H0 : same_fields Sample.by_court Sample.by_court')
    by (repeat constructor).
  assert (H1 : build_search int_of_str Sample.by_court
               = Return (search_text true false true false, [PyStr "STJ"; PyInt 3]))
    by (vm_compute; reflexivity).
  assert (H2 : build_search int_of_str Sample.by_court'
               = Return (search_text true false true false, [PyStr "x' OR 1=1 --"; PyInt 7]))
    by (vm_compute; reflexivity).
  split; [exact H0 | split; [exact H1 | split; [exact H2 |]]].
  exact (proj1 (search_text_ignores_values int_of_str _ _ _ _ _ _ H0 H1 H2)).
Defined.

Lemma search_documents_rejects_non_numeric_witness :
  exists w',
    search_documents int_of_str Sample.bad_bound (Sample.world Sample.library)
    = (Raise ValueError, w')
    /\ store w' = Sample.library
    /\ trace w' = [Connect].
Proof.
  apply (search_documents_rejects_non_numeric int_of_str Sample.bad_bound
           (Sample.world Sample.library)).
  - intros k v Hin Hk. unfold filter_fields in Hin.
    repeat (apply elem_of_cons in Hin as [-> | Hin]);
      [ | | | | apply elem_of_nil in Hin; contradiction ];
      vm_compute in Hk; try discriminate.
    injection Hk as <-. right. eexists. reflexivity.
  - left. exists "abc". split; [reflexivity|]. split; [discriminate | reflexivity].
Defined.

(** ** Connections *)

(** C9: on the failing input, a filter whose lower page bound is the
    string abc, [search_documents] raises with the connection it opened
    still open: one more connection is open than before the call. *)
Theorem search_documents_leaves_connection_open w :
  exists w',
    search_documents int_of_str Sample.bad_bound w = (Raise ValueError, w')
    /\ open_connections w' = S (open_connections w).
Proof.
  rewrite search_documents_unfold.
  eexists. split; reflexivity.
Qed.

(** The sibling [get_recent_documents] closes its connection on both of
    its paths, the exceptional one included. *)
Lemma get_recent_documents_releases limit w :
  open_connections (get_recent_documents limit w).2 = open_connections w.
Proof.
  cbv [get_recent_documents mbind M_bind try_except execute mret M_ret].
  cbn [get_db_connection bind_params bind_param].
  destruct (fits_int64 limit); [|reflexivity].
  cbn [record store].
  destruct (recent_by_added_date (store w) limit); reflexivity.
Qed.

(* ===================================================================== *)
(** ** The rows of a search *)
(* ===================================================================== *)

Lemma search_dict_court r : search_dict r !! "court" = Some (py_text (d_court r.1)).
Proof. reflexivity. Qed.
Lemma search_dict_year r : search_dict r !! "year" = Some (py_text (d_year r.1)).
Proof. reflexivity. Qed.
Lemma search_dict_page_count r :
  search_dict r !! "page_count" = Some (py_integer (r.2 ≫= m_page_count)).
Proof. reflexivity. Qed.
Lemma search_dict_file_size r :
  search_dict r !! "file_size" = Some (py_integer (r.2 ≫= m_file_size)).
Proof. reflexivity. Qed.
Lemma search_dict_added_date r :
  search_dict r !! "added_date" = Some (py_text (d_added_date r.1)).
Proof. reflexivity. Qed.

Lemma string_compare_eq x y : String.compare x y = Eq <-> x = y.
Proof.
  split; [apply String.compare_eq_iff|].
  intros ->. destruct (String.compare y y) eqn:H; [reflexivity| |];
    pose proof (String.compare_antisym y y) as Ha; rewrite H in Ha; discriminate.
Qed.

Lemma eval_court c r :
  bool_decide (eval_predicate (ColCourt, OpEq) (SqlText c) r = Some true)
  = text_is (search_dict r) "court" c.
Proof.
  unfold text_is. rewrite search_dict_court.
  unfold eval_predicate. cbn. destruct (d_court r.1) as [x|]; cbn; [|reflexivity].
  destruct (String.eqb_spec x c) as [->|Hne].
  - rewrite (proj2 (string_compare_eq c c) eq_refl). reflexivity.
  - destruct (String.compare x c) eqn:Hc; try reflexivity.
    apply string_compare_eq in Hc. contradiction.
Qed.

Lemma eval_year y r :
  bool_decide (eval_predicate (ColYear, OpEq) (SqlText y) r = Some true)
  = text_is (search_dict r) "year" y.
Proof.
  unfold text_is. rewrite search_dict_year.
  unfold eval_predicate. cbn. destruct (d_year r.1) as [x|]; cbn; [|reflexivity].
  destruct (String.eqb_spec x y) as [->|Hne].
  - rewrite (proj2 (string_compare_eq y y) eq_refl). reflexivity.
  - destruct (String.compare x y) eqn:Hc; try reflexivity.
    apply string_compare_eq in Hc. contradiction.
Qed.

Lemma eval_min_pages n r :
  bool_decide (eval_predicate (ColPageCount, OpGe) (SqlInt n) r = Some true)
  = match search_dict r !! "page_count" with
    | Some (PyInt p) => n <=? p
    | _ => false
    end.
Proof.
  rewrite search_dict_page_count. unfold eval_predicate. cbn.
  destruct (r.2 ≫= m_page_count) as [p|]; cbn; [|reflexivity].
  rewrite Z.leb_compare, (Z.compare_antisym p n).
  destruct (p ?= n); reflexivity.
Qed.

Lemma eval_max_pages n r :
  bool_decide (eval_predicate (ColPageCount, OpLe) (SqlInt n) r = Some true)
  = match search_dict r !! "page_count" with
    | Some (PyInt p) => p <=? n
    | _ => false
    end.
Proof.
  rewrite search_dict_page_count. unfold eval_predicate. cbn.
  destruct (r.2 ≫= m_page_count) as [p|]; cbn; [|reflexivity].
  rewrite Z.leb_compare. destruct (p ?= n); reflexivity.
Qed.

(** A field of a typed filter is either not supplied or a string that is
    not empty. *)
Lemma field_cases query k :
  typed_filter query -> k ∈ filter_fields ->
  (present query k = None /\ supplied_text query k = None)
  \/ (exists s, query !! k = Some (PyStr s) /\ s <> EmptyString
                /\ present query k = Some (PyStr s) /\ supplied_text query k = Some s).
Proof.
  intros Ht Hin. unfold present, supplied_text.
  destruct (query !! k) as [v|] eqn:Hk; [|left; split; reflexivity].
  destruct (Ht k v Hin Hk) as [-> | [s ->]]; [left; split; reflexivity|].
  cbn. destruct (String.eqb_spec s EmptyString) as [->|Hne].
  - left. split; reflexivity.
  - right. exists s. repeat split; assumption || reflexivity.
Qed.

Lemma in_fields_court : "court" ∈ filter_fields. Proof. unfold filter_fields; set_solver. Qed.
Lemma in_fields_year : "year" ∈ filter_fields. Proof. unfold filter_fields; set_solver. Qed.
Lemma in_fields_min : "min_pages" ∈ filter_fields. Proof. unfold filter_fields; set_solver. Qed.
Lemma in_fields_max : "max_pages" ∈ filter_fields. Proof. unfold filter_fields; set_solver. Qed.

(** For a well-formed filter the statement is built, compiled and bound,
    and its WHERE clause is the conjunction of the supplied predicates. *)
Lemma search_prepared int_str query :
  well_formed_filter int_str query ->
  exists sql params ps vs,
    build_search int_str query = Return (sql, params)
    /\ prepare_search sql params = Return (ps, vs)
    /\ forall r, where_all (zip ps vs) r = satisfies int_str query (search_dict r).
Proof.
  intros (Ht & Hlo & Hhi).
  unfold build_search, satisfies, court_matches, year_matches, min_pages_holds, max_pages_holds.
  destruct (field_cases query "court" Ht in_fields_court)
    as [[-> ->] | (c & _ & _ & -> & ->)];
  destruct (field_cases query "year" Ht in_fields_year)
    as [[-> ->] | (y & _ & _ & -> & ->)];
  destruct (field_cases query "min_pages" Ht in_fields_min)
    as [[-> ->] | (lo & Hklo & Hnlo & -> & ->)];
  destruct (field_cases query "max_pages" Ht in_fields_max)
    as [[-> ->] | (hi & Hkhi & Hnhi & -> & ->)];
  try (destruct (Hlo lo Hklo Hnlo) as (nlo & Hilo & Hflo));
  try (destruct (Hhi hi Hkhi Hnhi) as (nhi & Hihi & Hfhi));
  cbn [py_int mbind outcome_bind];
  rewrite ?Hilo, ?Hihi; cbn [mbind outcome_bind];
  (eexists; eexists; eexists; eexists; split; [reflexivity|]);
  unfold prepare_search;
  match goal with
  | |- context [parse_search ?t] =>
      let v := eval vm_compute in (parse_search t) in
      change (parse_search t) with v
  end;
  cbn [length negb Nat.eqb bind_params bind_param app];
  rewrite ?Hflo, ?Hfhi; cbn [mbind outcome_bind];
  (split; [reflexivity|]);
  intros r; cbn [where_all forallb zip zip_with fst snd];
  rewrite ?eval_court, ?eval_year, ?eval_min_pages, ?eval_max_pages;
  repeat match goal with
         | |- context [text_is ?a ?b ?c] => generalize (text_is a b c); intros []
         | |- context [match ?a !! ?k with _ => _ end] =>
             destruct (a !! k) as [[]|]
         | |- context [Z.leb ?a ?b] => generalize (Z.leb a b); intros []
         end; reflexivity.
Qed.

(* ===================================================================== *)
(** ** Ordering of the result *)
(* ===================================================================== *)

Lemma ascii_compare_refl a : Ascii.compare a a = Eq.
Proof. unfold Ascii.compare. apply N.compare_refl. Qed.

Lemma string_compare_lt_trans a : forall b c,
  String.compare a b = Lt -> String.compare b c = Lt -> String.compare a c = Lt.
Proof.
  induction a as [|x a IH]; intros [|y b] [|z c]; cbn; try discriminate; try reflexivity.
  destruct (Ascii.compare x y) eqn:Hxy; try discriminate;
    destruct (Ascii.compare y z) eqn:Hyz; try discriminate.
  - apply Ascii.compare_eq_iff in Hxy, Hyz. subst.
    rewrite ascii_compare_refl. apply IH.
  - apply Ascii.compare_eq_iff in Hxy. subst. rewrite Hyz. reflexivity.
  - apply Ascii.compare_eq_iff in Hyz. subst. rewrite Hxy. reflexivity.
  - intros _ _. unfold Ascii.compare in *.
    rewrite N.compare_lt_iff in *. rewrite (proj2 (N.compare_lt_iff _ _)); [reflexivity|].
    etransitivity; eassumption.
Qed.

Lemma string_leb_trans a b c :
  String.leb a b = true -> String.leb b c = true -> String.leb a c = true.
Proof.
  unfold String.leb.
  destruct (String.compare a b) eqn:Hab; try discriminate;
    destruct (String.compare b c) eqn:Hbc; try discriminate; intros _ _.
  - apply String.compare_eq_iff in Hab, Hbc. subst.
    rewrite (proj2 (string_compare_eq c c) eq_refl). reflexivity.
  - apply String.compare_eq_iff in Hab. subst. rewrite Hbc. reflexivity.
  - apply String.compare_eq_iff in Hbc. subst. rewrite Hab. reflexivity.
  - rewrite (string_compare_lt_trans _ _ _ Hab Hbc). reflexivity.
Qed.

Lemma date_ge_total a b : date_ge a b = true \/ date_ge b a = true.
Proof.
  destruct a as [x|], b as [y|]; cbn; auto.
  destruct (String.leb_total y x); auto.
Qed.

Lemma date_ge_trans a b c : date_ge a b = true -> date_ge b c = true -> date_ge a c = true.
Proof.
  destruct a as [x|], b as [y|], c as [z|]; cbn; try discriminate; try reflexivity.
  intros H1 H2. exact (string_leb_trans _ _ _ H2 H1).
Qed.


Section Ordering.
Context {A : Type} (key : A -> option string).

Lemma insert_desc_perm r l : insert_desc key r l ≡ₚ r :: l.
Proof.
  induction l as [|x l IH]; cbn; [reflexivity|].
  destruct (date_ge (key r) (key x)); [reflexivity|].
  rewrite IH. apply Permutation_swap.
Qed.

Lemma order_by_desc_perm l : order_by_desc key l ≡ₚ l.
Proof.
  induction l as [|x l IH]; cbn; [reflexivity|].
  rewrite insert_desc_perm. f_equiv. exact IH.
Qed.

Lemma insert_desc_sorted r l :
  StronglySorted (key_desc key) l -> StronglySorted (key_desc key) (insert_desc key r l).
Proof.
  induction 1 as [|x l Hs IH Hall]; cbn.
  - repeat constructor.
  - destruct (date_ge (key r) (key x)) eqn:Hrx.
    + constructor; [constructor; assumption|].
      constructor; [exact Hrx|].
      eapply Forall_impl; [exact Hall|].
      intros y Hy. exact (date_ge_trans _ _ _ Hrx Hy).
    + constructor; [exact IH|].
      rewrite insert_desc_perm. constructor; [|exact Hall].
      destruct (date_ge_total (key r) (key x)) as [H|H]; [congruence | exact H].
Qed.

Lemma order_by_desc_sorted l : StronglySorted (key_desc key) (order_by_desc key l).
Proof.
  induction l as [|x l IH]; cbn; [constructor | apply insert_desc_sorted, IH].
Qed.

Lemma elem_of_order_by_desc x l : x ∈ order_by_desc key l <-> x ∈ l.
Proof. rewrite order_by_desc_perm. reflexivity. Qed.

Lemma length_order_by_desc l : length (order_by_desc key l) = length l.
Proof. rewrite order_by_desc_perm. reflexivity. Qed.
End Ordering.

(** ** The left join *)

Lemma elem_of_join_document ms d r :
  r ∈ join_document ms d <->
  r.1 = d /\ match r.2 with
             | Some m => m ∈ ms /\ m_document_id m = Some (d_id d)
             | None => forall m, m ∈ ms -> m_document_id m <> Some (d_id d)
             end.
Proof.
  unfold join_document, metrics_of.
  destruct (filter _ ms) as [|m0 found] eqn:Hf.
  - rewrite list_elem_of_singleton. split.
    + intros ->. split; [reflexivity|]. cbn. intros m Hm Hid.
      assert (m ∈ filter (fun m => m_document_id m = Some (d_id d)) ms) as Hin
        by (apply list_elem_of_filter; split; assumption).
      rewrite Hf in Hin. apply elem_of_nil in Hin. exact Hin.
    + destruct r as [d' [m|]]; cbn; intros [-> H]; [|reflexivity].
      destruct H as [Hm Hid].
      assert (m ∈ filter (fun m => m_document_id m = Some (d_id d)) ms) as Hin
        by (apply list_elem_of_filter; split; assumption).
      rewrite Hf in Hin. apply elem_of_nil in Hin. contradiction.
  - rewrite <- Hf. rewrite list_elem_of_fmap. split.
    + intros (m & -> & Hm). apply list_elem_of_filter in Hm as [Hid Hm].
      cbn. auto.
    + destruct r as [d' [m|]]; cbn; intros [-> H].
      * exists m. split; [reflexivity|]. apply list_elem_of_filter. tauto.
      * exfalso. assert (m0 ∈ filter (fun m => m_document_id m = Some (d_id d)) ms) as Hin
          by (rewrite Hf; left).
        apply list_elem_of_filter in Hin as [Hid Hm]. exact (H m0 Hm Hid).
Qed.

(** The rows of the join: a document with each of its metrics rows, or
    alone when it has none. *)
Lemma elem_of_left_join st r :
  r ∈ left_join st <->
  r.1 ∈ documents st
  /\ match r.2 with
     | Some m => m ∈ document_metrics st /\ m_document_id m = Some (d_id r.1)
     | None => forall m, m ∈ document_metrics st -> m_document_id m <> Some (d_id r.1)
     end.
Proof.
  unfold left_join. rewrite list_elem_of_bind. split.
  - intros (d & Hr & Hd). apply elem_of_join_document in Hr as [<- H]. auto.
  - intros [Hd H]. exists r.1. split; [|exact Hd].
    apply elem_of_join_document. auto.
Qed.

(** Every document has a row in the join. *)
Lemma document_in_left_join st d :
  d ∈ documents st -> exists om, (d, om) ∈ left_join st.
Proof.
  intros Hd.
  destruct (metrics_of (document_metrics st) d) as [|m ms] eqn:Hm.
  - exists None. unfold left_join. apply list_elem_of_bind. exists d. split; [|exact Hd].
    unfold join_document. rewrite Hm. left.
  - exists (Some m). unfold left_join. apply list_elem_of_bind. exists d. split; [|exact Hd].
    unfold join_document. rewrite Hm. left.
Qed.

(** The rows of the join in the words of the claims. *)
Lemma elem_of_left_join_joins st d om :
  (d, om) ∈ left_join st <-> d ∈ documents st /\ joins st d om.
Proof. rewrite elem_of_left_join. destruct om; reflexivity. Qed.




(** ** Claims on the result of a search *)

Lemma search_result_rows (rows : list joined) :
  match rows with [] => [] | _ :: _ => search_dict <$> rows end = search_dict <$> rows.
Proof. destruct rows; reflexivity. Qed.


Section SearchRows.

Variable int_str : string -> option Z.




End SearchRows.

Lemma sample_by_court_well_formed : well_formed_filter int_of_str Sample.by_court.
Proof.
  split; [|split].
  - intros k v Hin Hk. unfold filter_fields in Hin.
    repeat (apply elem_of_cons in Hin as [-> | Hin]);
      [ | | | | apply elem_of_nil in Hin; contradiction ];
      vm_compute in Hk; try discriminate; injection Hk as <-.
    + right. eexists. reflexivity.
    + left. reflexivity.
    + right. eexists. reflexivity.
  - intros s Hk Hs. vm_compute in Hk. injection Hk as <-.
    exists 3. split; reflexivity.
  - intros s Hk Hs. vm_compute in Hk. discriminate.
Defined.



(* ===================================================================== *)
(** ** Recent documents *)
(* ===================================================================== *)

Lemma get_recent_documents_unfold limit w :
  fits_int64 limit = true ->
  get_recent_documents limit w =
  let w1 := record (Execute RecentByAddedDate [SqlInt limit]) (get_db_connection w).2 in
  match recent_by_added_date (store w) limit with
  | [] =>
      ((Return ((fun row => with_defaults (recent_dict row)) <$> recent_by_id (store w) limit)),
       (conn_close (record (Execute RecentById [SqlInt limit]) w1)).2)
  | r :: rows =>
      (Return ((fun row => with_defaults (recent_dict row)) <$> (r :: rows)), (conn_close w1).2)
  end.
Proof.
  intros Hfit.
  cbv [get_recent_documents mbind M_bind try_except execute mret M_ret].
  cbn [get_db_connection bind_params bind_param snd]. rewrite Hfit.
  cbn [record store]. destruct (recent_by_added_date (store w) limit); reflexivity.
Qed.

(** The fallback statement is issued only when the first statement
    returns no row at all. *)
Lemma get_recent_documents_primary_only limit w :
  fits_int64 limit = true ->
  recent_by_added_date (store w) limit <> [] ->
  trace (get_recent_documents limit w).2
  = trace w ++ [Connect; Execute RecentByAddedDate [SqlInt limit]; Close].
Proof.
  intros Hfit Hrows. rewrite (get_recent_documents_unfold _ _ Hfit). cbn zeta.
  destruct (recent_by_added_date (store w) limit); [contradiction|].
  cbn. rewrite <- !app_assoc. reflexivity.
Qed.

Lemma length_insert_id_desc r l : length (insert_id_desc r l) = S (length l).
Proof.
  induction l as [|x l IH]; cbn; [reflexivity|].
  destruct (d_id x.1 <=? d_id r.1); cbn; [reflexivity | rewrite IH; reflexivity].
Qed.

Lemma length_order_by_id_desc l : length (order_by_id_desc l) = length l.
Proof.
  induction l as [|x l IH]; cbn; [reflexivity|].
  rewrite length_insert_id_desc, <- IH. reflexivity.
Qed.

(** The number of rows is the limit or the size of the join, whichever
    is smaller. *)
Lemma get_recent_documents_length limit w rows w' :
  0 <= limit -> fits_int64 limit = true ->
  get_recent_documents limit w = (Return rows, w') ->
  length rows = Nat.min (Z.to_nat limit) (length (left_join (store w))).
Proof.
  intros Hpos Hfit. rewrite (get_recent_documents_unfold _ _ Hfit). cbn zeta.
  assert (Hlen : length (recent_by_added_date (store w) limit)
                 = Nat.min (Z.to_nat limit) (length (left_join (store w)))).
  { unfold recent_by_added_date, sql_limit.
    destruct (Z.ltb_spec limit 0); [lia|].
    rewrite length_take, length_order_by_desc. reflexivity. }
  destruct (recent_by_added_date (store w) limit) as [|r rs] eqn:Hr.
  - intros [= <- _]. rewrite length_fmap.
    unfold recent_by_id, sql_limit. destruct (Z.ltb_spec limit 0); [lia|].
    rewrite length_take, length_order_by_id_desc. reflexivity.
  - intros [= <- _].
    rewrite <- Hlen, <- (length_fmap (fun row => with_defaults (recent_dict row)) (r :: rs)).
    reflexivity.
Qed.

(** On a table that is not empty, with a positive limit, the first
    statement returns a row, so the fallback is never reached. *)
Lemma recent_by_added_date_nonempty st limit d :
  d ∈ documents st -> 0 < limit -> recent_by_added_date st limit <> [].
Proof.
  intros Hd Hpos Hnil.
  assert (length (recent_by_added_date st limit) = 0%nat) as Hlen by (rewrite Hnil; reflexivity).
  unfold recent_by_added_date, sql_limit in Hlen.
  destruct (Z.ltb_spec limit 0); [lia|].
  rewrite length_take, length_order_by_desc in Hlen.
  destruct (document_in_left_join _ _ Hd) as [om Hom].
  destruct (left_join st); [apply elem_of_nil in Hom; contradiction|].
  cbn [length] in Hlen. lia.
Qed.

(** C3: on the failing input, three documents whose added date is null
    and a limit of three, only the statement ordered by added date is
    issued; the fallback ordered by id is not, and the rows come in scan
    order 1, 2, 3 rather than by descending id. *)
Theorem get_recent_documents_skips_fallback :
  exists rows w',
    get_recent_documents 3 (Sample.world Sample.undated) = (Return rows, w')
    /\ Forall (fun d => d_added_date d = None) (documents Sample.undated)
    /\ trace w' = [Connect; Execute RecentByAddedDate [SqlInt 3]; Close]
    /\ (fun row => dict_get row "id") <$> rows = [PyInt 1; PyInt 2; PyInt 3]
    /\ (fun r => d_id r.1) <$> recent_by_id Sample.undated 3 = [3; 2; 1].
Proof.
  eexists. eexists. split; [rewrite get_recent_documents_unfold by reflexivity; reflexivity|].
  split; [repeat constructor|]. split; [reflexivity|]. split; vm_compute; reflexivity.
Qed.

(* ===================================================================== *)
(** ** Corpus statistics *)
(* ===================================================================== *)

Lemma py_or_not_none v d : d <> PyNone -> py_or v d <> PyNone.
Proof.
  intros Hd. unfold py_or. destruct (truthy v) eqn:Hv; [|exact Hd].
  intros ->. discriminate.
Qed.

Lemma py_or_integer o : py_or (py_integer o) (PyInt 0) = PyInt (default 0 o).
Proof.
  destruct o as [n|]; [|reflexivity]. unfold py_or. cbn.
  destruct (Z.eqb_spec n 0) as [->|_]; reflexivity.
Qed.

Lemma latest_stats_none l : latest_stats l = None <-> l = [].
Proof.
  split; [|intros ->; reflexivity].
  destruct l as [|r l]; [reflexivity|]. cbn.
  destruct (latest_stats l) as [r'|]; [destruct (s_id r <? s_id r')|]; discriminate.
Qed.

Lemma latest_stats_elem l r : latest_stats l = Some r -> r ∈ l.
Proof.
  induction l as [|x l IH] in r |- *; [discriminate|]. cbn.
  destruct (latest_stats l) as [r'|].
  - destruct (s_id x <? s_id r'); intros [= <-]; [right; apply IH; reflexivity | left].
  - intros [= <-]. left.
Qed.

(** The latest snapshot has the greatest id. *)
Lemma latest_stats_greatest l r :
  latest_stats l = Some r -> forall x, x ∈ l -> s_id x <= s_id r.
Proof.
  induction l as [|y l IH] in r |- *; [discriminate|]. cbn.
  destruct (latest_stats l) as [r'|] eqn:Hl.
  - specialize (IH r' eq_refl).
    destruct (Z.ltb_spec (s_id y) (s_id r')); intros [= <-] x Hx;
      apply elem_of_cons in Hx as [-> | Hx]; try lia; try (apply IH; exact Hx).
    specialize (IH x Hx). lia.
  - apply latest_stats_none in Hl as ->. intros [= <-] x Hx.
    apply elem_of_cons in Hx as [-> | Hx]; [lia | apply elem_of_nil in Hx; contradiction].
Qed.

(** *** The sum of a column *)

Lemma total_cons x l : total (x :: l) = x + total l.
Proof. reflexivity. Qed.

Lemma sum_int64_fit l : forall acc,
  (forall n, fits_int64 (acc + total (take n l)) = true) ->
  sum_int64 acc l = Return (acc + total l).
Proof.
  induction l as [|x l IH]; intros acc Hfit; cbn [sum_int64].
  - f_equal. cbn. lia.
  - pose proof (Hfit 1%nat) as H1. rewrite firstn_cons, take_0, total_cons in H1.
    change (total []) with 0 in H1. rewrite Z.add_0_r in H1. rewrite H1.
    rewrite IH.
    + f_equal. rewrite total_cons. lia.
    + intros n. specialize (Hfit (S n)). rewrite firstn_cons, total_cons in Hfit.
      rewrite <- Hfit. f_equal. lia.
Qed.

Lemma sum_int64_raise l : forall acc e,
  sum_int64 acc l = Raise e ->
  e = OperationalError /\ exists n, fits_int64 (acc + total (take n l)) = false.
Proof.
  induction l as [|x l IH]; intros acc e; cbn [sum_int64]; [discriminate|].
  destruct (fits_int64 (acc + x)) eqn:Hx.
  - intros H. apply IH in H as [-> [n Hn]]. split; [reflexivity|].
    exists (S n). rewrite firstn_cons, total_cons. rewrite <- Hn. f_equal. lia.
  - intros [= <-]. split; [reflexivity|]. exists 1%nat.
    rewrite firstn_cons, take_0, total_cons. change (total []) with 0.
    rewrite <- Hx. f_equal. lia.
Qed.

(** A sum whose running sums fit is returned: it is the total of the
    values that are not null, read by Python as 0 when there is none. *)
Lemma sql_sum_fit l :
  running_sums_fit l ->
  exists o,
    sql_sum l = Return o
    /\ py_or (py_integer o) (PyInt 0) = PyInt (total (non_null l))
    /\ fits_int64 (total (non_null l)) = true.
Proof.
  intros Hfit. unfold sql_sum. fold (non_null l).
  assert (Hall : fits_int64 (total (non_null l)) = true).
  { specialize (Hfit (length (non_null l))). rewrite take_ge in Hfit by lia. exact Hfit. }
  unfold running_sums_fit in Hfit.
  destruct (non_null l) as [|x xs] eqn:Hn.
  - exists None. split; [reflexivity|]. split; [reflexivity | exact Hall].
  - rewrite sum_int64_fit by (intros n; exact (Hfit n)).
    eexists. split; [reflexivity|]. rewrite py_or_integer. split; [reflexivity | exact Hall].
Qed.

(** Otherwise the statement fails with an overflow. *)
Lemma sql_sum_raise l e :
  sql_sum l = Raise e -> e = OperationalError /\ ~ running_sums_fit l.
Proof.
  unfold sql_sum, running_sums_fit. fold (non_null l).
  destruct (non_null l) as [|x xs]; [discriminate|].
  destruct (sum_int64 0 (x :: xs)) as [n|e'] eqn:Hs; [discriminate|]. intros [= <-].
  apply sum_int64_raise in Hs as [-> [n Hn]]. split; [reflexivity|].
  intros Hfit. specialize (Hfit n). rewrite Z.add_0_l in Hn. congruence.
Qed.

Lemma sum_int64_return l : forall acc s k,
  sum_int64 acc l = Return s -> fits_int64 acc = true ->
  fits_int64 (acc + total (take k l)) = true.
Proof.
  induction l as [|x l IH]; intros acc s k; cbn [sum_int64].
  - rewrite take_nil. change (total []) with 0. rewrite Z.add_0_r. intros _ H. exact H.
  - destruct (fits_int64 (acc + x)) eqn:Hx; [|discriminate].
    destruct k as [|k].
    + rewrite take_0. change (total []) with 0. rewrite Z.add_0_r. intros _ H. exact H.
    + rewrite firstn_cons, total_cons. intros Hs _.
      replace (acc + (x + total (take k l))) with (acc + x + total (take k l)) by lia.
      exact (IH _ _ k Hs Hx).
Qed.

Lemma sql_sum_return l o :
  sql_sum l = Return o ->
  running_sums_fit l /\ py_or (py_integer o) (PyInt 0) = PyInt (total (non_null l))
  /\ fits_int64 (total (non_null l)) = true.
Proof.
  intros Hs.
  assert (Hfit : running_sums_fit l).
  { unfold running_sums_fit. intros n. revert Hs. unfold sql_sum. fold (non_null l).
    destruct (non_null l) as [|x xs].
    - intros _. rewrite take_nil. reflexivity.
    - destruct (sum_int64 0 (x :: xs)) as [s|e] eqn:Hsum; [|discriminate]. intros _.
      exact (sum_int64_return _ 0 s n Hsum eq_refl). }
  split; [exact Hfit|].
  destruct (sql_sum_fit l Hfit) as (o' & Ho & Hpy & Hall).
  rewrite Hs in Ho. injection Ho as <-. split; assumption.
Qed.

Section DecoderFacts.

Variable json_loads : string -> outcome pyval.

(** The path without a snapshot: the two sums can fail, and then the
    connection stays open. *)
Lemma get_corpus_stats_computed w :
  latest_stats (corpus_stats (store w)) = None ->
  get_corpus_stats json_loads w =
  let opened tr :=
    {| store := store w; open_connections := S (open_connections w);
       trace := trace w ++ Connect :: Execute LatestStats [] :: Execute CountDocuments [] :: tr;
       clock := clock w |} in
  match sql_sum (m_page_count <$> document_metrics (store w)) with
  | Raise e => (Raise e, opened [Execute SumPageCount []])
  | Return pages =>
      match sql_sum (m_file_size <$> document_metrics (store w)) with
      | Raise e => (Raise e, opened [Execute SumPageCount []; Execute SumFileSize []])
      | Return size =>
          (Return
             (<["total_documents" := PyInt (Z.of_nat (length (documents (store w))))]>
             (<["total_pages" := py_or (py_integer pages) (PyInt 0)]>
             (<["total_size_bytes" := py_or (py_integer size) (PyInt 0)]>
             (<["courts" := PyDict (counts_dict (group_count (d_court <$> documents (store w))))]>
             (<["years" := PyDict (counts_dict (group_count (d_year <$> documents (store w))))]>
             (<["generated_date" := PyStr (clock w)]> ∅)))))),
           {| store := store w; open_connections := open_connections w;
              trace := trace w ++ [Connect; Execute LatestStats []; Execute CountDocuments [];
                                   Execute SumPageCount []; Execute SumFileSize [];
                                   Execute CourtCounts []; Execute YearCounts []; Close];
              clock := clock w |})
      end
  end.
Proof.
  intros Hnone.
  cbv [get_corpus_stats mbind M_bind execute execute_or_fail mret M_ret now_isoformat].
  cbn [get_db_connection bind_params record store clock]. rewrite Hnone.
  unfold conn_close, record.
  cbn [store clock trace open_connections Nat.pred].
  destruct (sql_sum (m_page_count <$> document_metrics (store w))) as [pages|e];
    [|cbv zeta; rewrite <- !app_assoc; reflexivity].
  destruct (sql_sum (m_file_size <$> document_metrics (store w))) as [size|e];
    cbv zeta; rewrite <- !app_assoc; reflexivity.
Qed.

(** C4, amended: without a snapshot row, when the running sums of the
    page counts and of the file sizes stay within the 64-bit range of
    the store, [get_corpus_stats] returns (it does not raise) and holds
    no null field; when the documents table and the metrics table are
    empty, the totals are zero and both mappings are empty. *)
Theorem get_corpus_stats_without_snapshot w :
  corpus_stats (store w) = [] ->
  running_sums_fit (m_page_count <$> document_metrics (store w)) ->
  running_sums_fit (m_file_size <$> document_metrics (store w)) ->
  exists stats w',
    get_corpus_stats json_loads w = (Return stats, w')
    /\ (forall k v, stats !! k = Some v -> v <> PyNone)
    /\ (documents (store w) = [] -> document_metrics (store w) = [] ->
          stats !! "total_documents" = Some (PyInt 0)
          /\ stats !! "total_pages" = Some (PyInt 0)
          /\ stats !! "total_size_bytes" = Some (PyInt 0)
          /\ stats !! "courts" = Some (PyDict ∅)
          /\ stats !! "years" = Some (PyDict ∅)).
Proof.
  intros Hs Hpages Hsize. rewrite get_corpus_stats_computed by (rewrite Hs; reflexivity).
  destruct (sql_sum_fit _ Hpages) as (p & -> & Hp & _).
  destruct (sql_sum_fit _ Hsize) as (b & -> & Hb & _).
  cbv zeta. rewrite Hp, Hb.
  eexists. eexists. split; [reflexivity|]. split.
  - intros k v Hk.
    repeat (apply lookup_insert_Some in Hk as [[_ <-] | [_ Hk]]; [discriminate|]).
    rewrite lookup_empty in Hk. discriminate.
  - intros Hd Hm. rewrite Hd, Hm. repeat split; reflexivity.
Qed.

(** The path with a snapshot: both mapping fields are read one after the
    other; an exception of the decoder other than [JSONDecodeError]
    leaves the function, with the connection still open. *)
Lemma get_corpus_stats_snapshot_result w r :
  latest_stats (corpus_stats (store w)) = Some r ->
  get_corpus_stats json_loads w =
  let opened :=
    {| store := store w; open_connections := S (open_connections w);
       trace := trace w ++ [Connect; Execute LatestStats []]; clock := clock w |} in
  match stored_or_decoded json_loads (s_courts r) with
  | Raise e => (Raise e, opened)
  | Return courts =>
      match stored_or_decoded json_loads (s_years r) with
      | Raise e => (Raise e, opened)
      | Return years =>
          (Return (<["years" := years]> (<["courts" := courts]> (stats_dict r))),
           {| store := store w; open_connections := open_connections w;
              trace := trace w ++ [Connect; Execute LatestStats []; Close];
              clock := clock w |})
      end
  end.
Proof.
  intros Hr.
  cbv [get_corpus_stats mbind M_bind execute mret M_ret lift].
  cbn [get_db_connection bind_params record store]. rewrite Hr.
  destruct r as [i total pages size c y g].
  unfold stored_or_decoded, decode_field. cbn [s_courts s_years].
  change (dict_get (stats_dict ?r) "courts") with (py_text (s_courts r)).
  cbn [s_courts].
  unfold conn_close, record; cbn [store clock trace open_connections Nat.pred];
    rewrite <- ?app_assoc.
  destruct c as [c|]; cbn [py_text truthy];
    [destruct (String.eqb c EmptyString); cbn [negb]; [|destruct (json_loads c) as [?|[]]]|].
  all: try reflexivity.
  all: match goal with
       | |- context [dict_get ?d "years"] => change (dict_get d "years") with (py_text y)
       end.
  all: destruct y as [y|]; cbn [py_text truthy];
    [destruct (String.eqb y EmptyString); cbn [negb]; [|destruct (json_loads y) as [?|[]]]|].
  all: reflexivity.
Qed.

Lemma field_readable_returns o :
  field_readable json_loads o = true -> exists v, stored_or_decoded json_loads o = Return v.
Proof.
  unfold field_readable, stored_or_decoded, decodes_or_rejects.
  destruct o as [s|]; [|eexists; reflexivity].
  destruct (String.eqb s EmptyString); cbn [orb]; [eexists; reflexivity|].
  destruct (json_loads s) as [v|[]]; try discriminate; eexists; reflexivity.
Qed.

(** C10, amended: when the decoder raises nothing but [JSONDecodeError]
    on the two mapping fields of the latest snapshot, the read returns,
    and a field that is null or the empty string is returned as stored;
    a field that is any other text is returned decoded, or as the empty
    mapping when the decoder raises [JSONDecodeError] on it. *)
Theorem get_corpus_stats_keeps_null_and_empty w r :
  latest_stats (corpus_stats (store w)) = Some r ->
  field_readable json_loads (s_courts r) = true ->
  field_readable json_loads (s_years r) = true ->
  exists stats w',
    get_corpus_stats json_loads w = (Return stats, w')
    /\ (s_courts r = None -> stats !! "courts" = Some PyNone)
    /\ (s_courts r = Some EmptyString -> stats !! "courts" = Some (PyStr EmptyString))
    /\ (s_years r = None -> stats !! "years" = Some PyNone)
    /\ (s_years r = Some EmptyString -> stats !! "years" = Some (PyStr EmptyString))
    /\ (forall c, s_courts r = Some c -> c <> EmptyString ->
          (forall v, json_loads c = Return v -> stats !! "courts" = Some v)
          /\ (json_loads c = Raise JSONDecodeError -> stats !! "courts" = Some (PyDict ∅)))
    /\ (forall y, s_years r = Some y -> y <> EmptyString ->
          (forall v, json_loads y = Return v -> stats !! "years" = Some v)
          /\ (json_loads y = Raise JSONDecodeError -> stats !! "years" = Some (PyDict ∅))).
Proof.
  intros Hr Hc Hy. rewrite (get_corpus_stats_snapshot_result w r Hr). cbv zeta.
  destruct (field_readable_returns _ Hc) as [c' Hc'].
  destruct (field_readable_returns _ Hy) as [y' Hy'].
  rewrite Hc', Hy'. eexists. eexists. split; [reflexivity|].
  rewrite lookup_insert_ne by discriminate. rewrite !lookup_insert_eq.
  unfold stored_or_decoded in Hc', Hy'.
  repeat split.
  - intros H. rewrite H in Hc'. congruence.
  - intros H. rewrite H in Hc'. cbn in Hc'. congruence.
  - intros H. rewrite H in Hy'. congruence.
  - intros H. rewrite H in Hy'. cbn in Hy'. congruence.
  - intros v Hv. rewrite H in Hc'.
    destruct (String.eqb_spec c EmptyString); [contradiction|]. rewrite Hv in Hc'. congruence.
  - intros Hv. rewrite H in Hc'.
    destruct (String.eqb_spec c EmptyString); [contradiction|]. rewrite Hv in Hc'. congruence.
  - intros v Hv. rewrite H in Hy'.
    destruct (String.eqb_spec y EmptyString); [contradiction|]. rewrite Hv in Hy'. congruence.
  - intros Hv. rewrite H in Hy'.
    destruct (String.eqb_spec y EmptyString); [contradiction|]. rewrite Hv in Hy'. congruence.
Qed.

(** C5, amended: when the court mapping of the latest snapshot is a
    text that is not empty and on which the decoder raises
    [JSONDecodeError], and the year mapping decodes, the read returns
    with the empty mapping for courts and the decoded mapping for years.
    (The decoder rejects the empty text, as [json.loads] does.) *)
Theorem get_corpus_stats_degrades_per_field w r c y years :
  json_loads EmptyString = Raise JSONDecodeError ->
  latest_stats (corpus_stats (store w)) = Some r ->
  s_courts r = Some c -> c <> EmptyString -> json_loads c = Raise JSONDecodeError ->
  s_years r = Some y -> json_loads y = Return years ->
  exists stats w',
    get_corpus_stats json_loads w = (Return stats, w')
    /\ stats !! "courts" = Some (PyDict ∅)
    /\ stats !! "years" = Some years.
Proof.
  intros Hempty Hr Hc Hcne Hcbad Hy Hygood.
  assert (Hyne : y <> EmptyString) by (intros ->; congruence).
  rewrite (get_corpus_stats_snapshot_result w r Hr). cbv zeta.
  unfold stored_or_decoded. rewrite Hc, Hy, Hcbad, Hygood.
  destruct (String.eqb_spec c EmptyString); [contradiction|].
  destruct (String.eqb_spec y EmptyString); [contradiction|].
  eexists. eexists. split; [reflexivity|]. split; reflexivity.
Qed.

End DecoderFacts.

Lemma get_corpus_stats_without_snapshot_witness :
  exists stats w',
    get_corpus_stats Json.loads (Sample.world Sample.empty) = (Return stats, w')
    /\ stats !! "total_documents" = Some (PyInt 0)
    /\ stats !! "total_pages" = Some (PyInt 0)
    /\ stats !! "total_size_bytes" = Some (PyInt 0)
    /\ stats !! "courts" = Some (PyDict ∅)
    /\ stats !! "years" = Some (PyDict ∅).
Proof.
  destruct (get_corpus_stats_without_snapshot Json.loads (Sample.world Sample.empty) eq_refl)
    as (stats & w' & Hrun & _ & Hempty).
  - intros n. destruct n; reflexivity.
  - intros n. destruct n; reflexivity.
  - exists stats, w'. split; [exact Hrun|]. apply Hempty; reflexivity.
Defined.

(** C4 as stated fails in two ways.  Without a snapshot the read raises
    when the page counts add up beyond the 64-bit range (here two rows
    of 2^62 pages), and the connection stays open.  And on an empty
    documents table a metrics row that was left behind still counts:
    the total of pages is not zero. *)
Lemma get_corpus_stats_without_snapshot_counterexample :
  (corpus_stats Sample.heavy = []
   /\ (get_corpus_stats Json.loads (Sample.world Sample.heavy)).1 = Raise OperationalError
   /\ open_connections (get_corpus_stats Json.loads (Sample.world Sample.heavy)).2 = 1%nat)
  /\ (corpus_stats Sample.orphaned = [] /\ documents Sample.orphaned = []
      /\ exists stats,
           (get_corpus_stats Json.loads (Sample.world Sample.orphaned)).1 = Return stats
           /\ stats !! "total_pages" = Some (PyInt 5)
           /\ stats !! "total_pages" <> Some (PyInt 0)).
Proof.
  split.
  - split; [reflexivity|].
    rewrite (get_corpus_stats_computed Json.loads (Sample.world Sample.heavy) eq_refl).
    split; reflexivity.
  - split; [reflexivity|]. split; [reflexivity|].
    rewrite (get_corpus_stats_computed Json.loads (Sample.world Sample.orphaned) eq_refl).
    eexists. split; [reflexivity|]. split; [reflexivity | discriminate].
Qed.

Lemma get_corpus_stats_keeps_null_and_empty_witness :
  exists stats w',
    get_corpus_stats Json.loads
      (Sample.world (Sample.with_snapshot None (Some EmptyString))) = (Return stats, w')
    /\ stats !! "courts" = Some PyNone
    /\ stats !! "years" = Some (PyStr EmptyString).
Proof.
  destruct (get_corpus_stats_keeps_null_and_empty Json.loads
              (Sample.world (Sample.with_snapshot None (Some EmptyString)))
              (Sample.snapshot 2 None (Some EmptyString)) eq_refl eq_refl eq_refl)
    as (stats & w' & Hrun & Hc & _ & _ & Hy & _).
  exists stats, w'. split; [exact Hrun|]. split; [exact (Hc eq_refl) | exact (Hy eq_refl)].
Defined.

(** C10 as stated fails when the other mapping field makes the decoder
    raise something else than [JSONDecodeError]: with a null court
    mapping and a year mapping that is an integer of 5000 digits, the
    read raises [ValueError]; nothing is returned, and the connection
    stays open. *)
Lemma get_corpus_stats_keeps_null_counterexample :
  let w := Sample.world (Sample.with_snapshot None (Some Sample.long_number)) in
  latest_stats (corpus_stats (store w))
  = Some (Sample.snapshot 2 None (Some Sample.long_number))
  /\ Json.loads Sample.long_number = Raise ValueError
  /\ (get_corpus_stats Json.loads w).1 = Raise ValueError
  /\ open_connections (get_corpus_stats Json.loads w).2 = 1%nat.
Proof.
  cbv zeta. split; [reflexivity|].
  assert (Hlong : Json.loads Sample.long_number = Raise ValueError)
    by (vm_compute; reflexivity).
  split; [exact Hlong|].
  rewrite (get_corpus_stats_snapshot_result Json.loads
             (Sample.world (Sample.with_snapshot None (Some Sample.long_number)))
             (Sample.snapshot 2 None (Some Sample.long_number)) eq_refl).
  cbv zeta. unfold stored_or_decoded. cbn [Sample.snapshot s_courts s_years].
  assert (Hne : String.eqb Sample.long_number EmptyString = false) by (vm_compute; reflexivity).
  rewrite Hne, Hlong. split; reflexivity.
Qed.

Lemma get_corpus_stats_degrades_per_field_witness :
  exists stats w',
    get_corpus_stats Json.loads
      (Sample.world (Sample.with_snapshot (Some "{not json") (Some Sample.years_text)))
    = (Return stats, w')
    /\ stats !! "courts" = Some (PyDict ∅)
    /\ stats !! "years" = Some (PyDict (<["2020" := PyInt 1]> ∅)).
Proof.
  apply (get_corpus_stats_degrades_per_field Json.loads
           (Sample.world (Sample.with_snapshot (Some "{not json") (Some Sample.years_text)))
           (Sample.snapshot 2 (Some "{not json") (Some Sample.years_text))
           "{not json" Sample.years_text).
  - reflexivity.
  - reflexivity.
  - reflexivity.
  - discriminate.
  - reflexivity.
  - reflexivity.
  - vm_compute. reflexivity.
Defined.

(** C5 as stated fails in two ways.  A court mapping stored as the empty
    text does not decode, the year mapping does, and the read returns
    the empty text for courts, not the empty mapping.  And a court
    mapping that is an integer of 5000 digits fails to decode with
    [ValueError], which is not caught: the read as a whole fails,
    although the year mapping is well-formed. *)
Lemma get_corpus_stats_empty_text_counterexample :
  (let w := Sample.world (Sample.with_snapshot (Some EmptyString) (Some Sample.years_text)) in
   latest_stats (corpus_stats (store w))
   = Some (Sample.snapshot 2 (Some EmptyString) (Some Sample.years_text))
   /\ Json.loads EmptyString = Raise JSONDecodeError
   /\ Json.loads Sample.years_text = Return (PyDict (<["2020" := PyInt 1]> ∅))
   /\ exists stats w',
        get_corpus_stats Json.loads w = (Return stats, w')
        /\ stats !! "courts" = Some (PyStr EmptyString)
        /\ stats !! "courts" <> Some (PyDict ∅)
        /\ stats !! "years" = Some (PyDict (<["2020" := PyInt 1]> ∅)))
  /\ (let w := Sample.world
                 (Sample.with_snapshot (Some Sample.long_number) (Some Sample.years_text)) in
      latest_stats (corpus_stats (store w))
      = Some (Sample.snapshot 2 (Some Sample.long_number) (Some Sample.years_text))
      /\ Sample.long_number <> EmptyString
      /\ Json.loads Sample.long_number = Raise ValueError
      /\ (get_corpus_stats Json.loads w).1 = Raise ValueError).
Proof.
  assert (Hyears : Json.loads Sample.years_text = Return (PyDict (<["2020" := PyInt 1]> ∅)))
    by (vm_compute; reflexivity).
  assert (Hyne : String.eqb Sample.years_text EmptyString = false) by reflexivity.
  split.
  - cbv zeta. split; [reflexivity|]. split; [reflexivity|]. split; [exact Hyears|].
    rewrite (get_corpus_stats_snapshot_result Json.loads
               (Sample.world (Sample.with_snapshot (Some EmptyString) (Some Sample.years_text)))
               (Sample.snapshot 2 (Some EmptyString) (Some Sample.years_text)) eq_refl).
    cbv zeta. unfold stored_or_decoded. cbn [Sample.snapshot s_courts s_years String.eqb].
    rewrite Hyne, Hyears.
    eexists. eexists. split; [reflexivity|].
    split; [reflexivity|]. split; [discriminate | reflexivity].
  - cbv zeta. split; [reflexivity|].
    assert (Hlong : Json.loads Sample.long_number = Raise ValueError)
      by (vm_compute; reflexivity).
    assert (Hne : String.eqb Sample.long_number EmptyString = false)
      by (vm_compute; reflexivity).
    split; [intros H; rewrite H in Hne; discriminate|]. split; [exact Hlong|].
    rewrite (get_corpus_stats_snapshot_result Json.loads
               (Sample.world
                  (Sample.with_snapshot (Some Sample.long_number) (Some Sample.years_text)))
               (Sample.snapshot 2 (Some Sample.long_number) (Some Sample.years_text)) eq_refl).
    cbv zeta. unfold stored_or_decoded. cbn [Sample.snapshot s_courts s_years].
    rewrite Hne, Hlong. reflexivity.
Qed.

(* ===================================================================== *)
(** ** Document detail *)
(* ===================================================================== *)

Lemma elem_of_document_by_ecli st ecli_id r :
  r ∈ document_by_ecli st (SqlText ecli_id)
  <-> r ∈ left_join st /\ d_ecli_id r.1 = Some ecli_id.
Proof.
  unfold document_by_ecli. rewrite list_elem_of_filter. cbn [apply_affinity].
  split; intros [H1 H2]; split; try assumption.
  - destruct (d_ecli_id r.1) as [x|]; [|discriminate]. cbn in H1.
    injection H1 as H1. apply string_compare_eq in H1. congruence.
  - rewrite H2. cbn. f_equal. apply string_compare_eq. reflexivity.
Qed.

Lemma head_elem {A} (l : list A) x : head l = Some x -> x ∈ l.
Proof. destruct l; [discriminate|]. intros [= ->]. left. Qed.

Section DocumentFacts.

Variable json_loads : string -> outcome pyval.
Variable key_order : pydict -> list string.

(** The connection is closed before the answer is built. *)
Lemma get_document_unfold ecli_id w :
  get_document json_loads key_order ecli_id w =
  (match head (document_by_ecli (store w) (SqlText ecli_id)) with
   | Some r => jsonify (merge_metadata json_loads key_order (document_dict r)) 200
   | None => Return not_found
   end,
   {| store := store w; open_connections := open_connections w;
      trace := trace w ++ [Connect; Execute DocumentByEcli [SqlText ecli_id]; Close];
      clock := clock w |}).
Proof.
  cbv [get_document mbind M_bind execute mret M_ret lift].
  cbn [get_db_connection bind_params bind_param].
  unfold conn_close, record. cbn [store clock trace open_connections Nat.pred].
  rewrite <- !app_assoc.
  destruct (head (document_by_ecli (store w) (SqlText ecli_id))); reflexivity.
Qed.

(** A blob that decodes to a mapping is merged over the row, then the
    blob field is removed; all keys are strings. *)
Lemma merge_metadata_mapping r blob meta :
  json_loads EmptyString = Raise JSONDecodeError ->
  r.2 ≫= m_pdf_metadata = Some blob ->
  json_loads blob = Return (PyDict meta) ->
  merge_metadata json_loads key_order (document_dict r)
  = (delete "pdf_metadata" (meta ∪ document_dict r), false).
Proof.
  intros Hempty Hblob Hmeta. unfold merge_metadata.
  change (dict_get (document_dict r) "pdf_metadata") with (py_text (r.2 ≫= m_pdf_metadata)).
  rewrite Hblob. cbn [py_text truthy].
  destruct (String.eqb_spec blob EmptyString) as [->|_]; [congruence|].
  cbn [negb]. rewrite Hmeta. reflexivity.
Qed.

(** The row fetched for an id that a document carries. *)
Lemma document_by_ecli_found st ecli_id d :
  d ∈ documents st -> d_ecli_id d = Some ecli_id ->
  exists r, head (document_by_ecli st (SqlText ecli_id)) = Some r
            /\ r.1 ∈ documents st /\ joins st r.1 r.2 /\ d_ecli_id r.1 = Some ecli_id.
Proof.
  intros Hd Hid.
  destruct (head (document_by_ecli st (SqlText ecli_id))) as [r|] eqn:Hh.
  - exists r. split; [reflexivity|].
    apply head_elem, elem_of_document_by_ecli in Hh as [Hr Hrid].
    destruct r as [d' om]. apply elem_of_left_join_joins in Hr as [Hd' Hj].
    split; [exact Hd'|]. split; [exact Hj | exact Hrid].
  - exfalso. destruct (document_in_left_join _ _ Hd) as [om Hom].
    assert ((d, om) ∈ document_by_ecli st (SqlText ecli_id)) as Hin
      by (apply elem_of_document_by_ecli; split; assumption).
    destruct (document_by_ecli st (SqlText ecli_id)); [|discriminate].
    apply elem_of_nil in Hin. exact Hin.
Qed.

Lemma document_by_ecli_missing st ecli_id :
  (forall d, d ∈ documents st -> d_ecli_id d <> Some ecli_id) ->
  head (document_by_ecli st (SqlText ecli_id)) = None.
Proof.
  intros Hnone.
  destruct (head (document_by_ecli st (SqlText ecli_id))) as [r|] eqn:Hh; [|reflexivity].
  apply head_elem, elem_of_document_by_ecli in Hh as [Hr Hid].
  apply elem_of_left_join in Hr as [Hd _]. destruct (Hnone _ Hd Hid).
Qed.

(** C8, amended: an ecli id that no document carries gets the
    not-found answer.  For an id that a document carries, the route
    reads one document with that id together with one of its metrics
    rows (none when it has none), and when the metadata blob of these
    metrics decodes to a mapping, the route answers with status 200 and
    a detail in which every key of the mapping other than pdf_metadata
    is at the top level with its value, and which has no pdf_metadata
    field.  (The decoder rejects the empty text, as [json.loads] does.) *)
Theorem get_document_detail ecli_id w :
  json_loads EmptyString = Raise JSONDecodeError ->
  ((forall d, d ∈ documents (store w) -> d_ecli_id d <> Some ecli_id) ->
     (get_document json_loads key_order ecli_id w).1 = Return not_found)
  /\ (forall d, d ∈ documents (store w) -> d_ecli_id d = Some ecli_id ->
        exists d' om,
          d' ∈ documents (store w) /\ joins (store w) d' om /\ d_ecli_id d' = Some ecli_id
          /\ forall blob meta,
               om ≫= m_pdf_metadata = Some blob ->
               json_loads blob = Return (PyDict meta) ->
               exists body,
                 (get_document json_loads key_order ecli_id w).1 = Return (Json body 200)
                 /\ body !! "pdf_metadata" = None
                 /\ forall k v, k <> "pdf_metadata" -> meta !! k = Some v ->
                                body !! k = Some v).
Proof.
  intros Hempty. rewrite get_document_unfold. cbn [fst]. split.
  - intros Hnone. rewrite (document_by_ecli_missing _ _ Hnone). reflexivity.
  - intros d Hd Hid.
    destruct (document_by_ecli_found _ _ _ Hd Hid) as ([d' om] & -> & Hd' & Hj & Hid').
    exists d', om. split; [exact Hd'|]. split; [exact Hj|]. split; [exact Hid'|].
    intros blob meta Hblob Hmeta.
    rewrite (merge_metadata_mapping (d', om) blob meta Hempty Hblob Hmeta).
    unfold jsonify. cbn [fst snd]. eexists. split; [reflexivity|].
    split; [apply lookup_delete_eq|].
    intros k v Hk Hv. rewrite lookup_delete_ne by congruence.
    apply lookup_union_Some_l. exact Hv.
Qed.

End DocumentFacts.

(** The example of the specification: the blob [{"judge":"X"}]. *)
Lemma get_document_detail_witness :
  exists body,
    (get_document Json.loads Json.key_order "ECLI_1"
       (Sample.world (Sample.with_metadata Sample.judge_blob))).1
    = Return (Json body 200)
    /\ body !! "judge" = Some (PyStr "X")
    /\ body !! "pdf_metadata" = None.
Proof.
  destruct (get_document_detail Json.loads Json.key_order "ECLI_1"
              (Sample.world (Sample.with_metadata Sample.judge_blob)) eq_refl)
    as [_ Hfound].
  destruct (Hfound (Sample.document 1 (Some "STJ") (Some "2020") (Some "2024-01-01")))
    as (d & om & Hd & Hj & Hid & Hmerge); [left | reflexivity |].
  apply list_elem_of_singleton in Hd. subst d.
  destruct om as [m|]; cbn [joins] in Hj.
  - destruct Hj as [Hm _]. apply list_elem_of_singleton in Hm. subst m.
    destruct (Hmerge Sample.judge_blob (<["judge" := PyStr "X"]> ∅) eq_refl)
      as (body & Hrun & Hgone & Hkeys); [vm_compute; reflexivity|].
    exists body. split; [exact Hrun|]. split; [|exact Hgone].
    apply Hkeys; [discriminate | reflexivity].
  - exfalso. apply (Hj (Sample.metrics 1 1 (Some 5) (Some Sample.judge_blob))); [left|reflexivity].
Defined.

(** C8 as stated fails on a blob with a key named pdf_metadata: the blob
    decodes to a mapping with that key, and the detail returned for the
    document does not have it. *)
Lemma get_document_shadowing_counterexample :
  let w := Sample.world (Sample.with_metadata Sample.shadowing_blob) in
  Json.loads Sample.shadowing_blob = Return (PyDict (<["pdf_metadata" := PyInt 1]> ∅))
  /\ exists body w',
       get_document Json.loads Json.key_order "ECLI_1" w = (Return (Json body 200), w')
       /\ (<["pdf_metadata" := PyInt 1]> ∅ : pydict) !! "pdf_metadata" = Some (PyInt 1)
       /\ body !! "pdf_metadata" = None.
Proof.
  cbv zeta. split; [vm_compute; reflexivity|].
  rewrite get_document_unfold.
  eexists. eexists. split; [vm_compute; reflexivity|]. split; reflexivity.
Qed.


(* ===================================================================== *)
(** ** Further properties: recent documents *)
(* ===================================================================== *)

Lemma recent_by_id_nil st limit :
  recent_by_added_date st limit = [] -> recent_by_id st limit = [].
Proof.
  intros H. apply (f_equal length) in H. apply length_zero_iff_nil.
  unfold recent_by_added_date, recent_by_id, sql_limit in *.
  destruct (limit <? 0).
  - rewrite length_order_by_desc in H. rewrite length_order_by_id_desc. exact H.
  - rewrite length_take, length_order_by_desc in H.
    rewrite length_take, length_order_by_id_desc. exact H.
Qed.

Lemma get_recent_documents_overflow limit w :
  fits_int64 limit = false ->
  get_recent_documents limit w
  = (Return [], (conn_close (get_db_connection w).2).2).
Proof.
  intros Hfit.
  cbv [get_recent_documents mbind M_bind try_except execute mret M_ret].
  cbn [get_db_connection bind_params bind_param snd]. rewrite Hfit. reflexivity.
Qed.

(** X1: [get_recent_documents] never raises: for every limit and store it
    returns, with its connection closed and the store as it was; a limit
    the store cannot hold gives the empty list. *)
Theorem get_recent_documents_best_effort limit w :
  exists rows w',
    get_recent_documents limit w = (Return rows, w')
    /\ open_connections w' = open_connections w
    /\ store w' = store w
    /\ (fits_int64 limit = false -> rows = []).
Proof.
  destruct (fits_int64 limit) eqn:Hfit.
  - rewrite (get_recent_documents_unfold _ _ Hfit). cbn zeta.
    destruct (recent_by_added_date (store w) limit);
      eexists; eexists; (split; [reflexivity|]);
      (split; [reflexivity|]); (split; [reflexivity|]); discriminate.
  - rewrite (get_recent_documents_overflow _ _ Hfit).
    eexists. eexists. split; [reflexivity|]. repeat split; reflexivity.
Qed.

Lemma get_recent_documents_rows limit w :
  (get_recent_documents limit w).1
  = Return (if fits_int64 limit
            then (fun row => with_defaults (recent_dict row))
                   <$> recent_by_added_date (store w) limit
            else []).
Proof.
  destruct (fits_int64 limit) eqn:Hfit.
  - rewrite (get_recent_documents_unfold _ _ Hfit). cbn zeta.
    destruct (recent_by_added_date (store w) limit) eqn:Hr; [|reflexivity].
    rewrite (recent_by_id_nil _ _ Hr). reflexivity.
  - rewrite (get_recent_documents_overflow _ _ Hfit). reflexivity.
Qed.

(** X2: the fallback statement never changes the result: the rows are
    those of the statement ordered by added date, whatever the table. *)
Theorem get_recent_documents_first_statement limit w :
  (get_recent_documents limit w).1
  = Return (if fits_int64 limit
            then (fun row => with_defaults (recent_dict row))
                   <$> recent_by_added_date (store w) limit
            else []).
Proof. apply get_recent_documents_rows. Qed.

Lemma elem_of_recent_by_added_date st limit r :
  r ∈ recent_by_added_date st limit -> r ∈ left_join st.
Proof.
  unfold recent_by_added_date, sql_limit. intros Hin.
  destruct (limit <? 0);
    [|apply elem_of_take in Hin as (i & Hin & _); apply list_elem_of_lookup_2 in Hin];
    apply elem_of_order_by_desc in Hin; exact Hin.
Qed.

Lemma with_defaults_fields r :
  let row := with_defaults (recent_dict r) in
  row !! "ecli_id"
  = Some (PyStr (default ("ECLI_UNKNOWN_" +:+ pretty (d_id r.1)) (d_ecli_id r.1)))
  /\ row !! "court" = Some (PyStr (default "Unknown" (d_court r.1)))
  /\ row !! "year" = Some (PyStr (default "Unknown" (d_year r.1)))
  /\ row !! "added_date" = Some (PyStr (default "Unknown" (d_added_date r.1)))
  /\ row !! "id" = Some (PyInt (d_id r.1))
  /\ row !! "page_count" = Some (py_integer (r.2 ≫= m_page_count))
  /\ row !! "file_size" = Some (py_integer (r.2 ≫= m_file_size)).
Proof.
  destruct r as [[i e c y cn fp a lu] om]. cbn [fst snd].
  destruct e, c, y, a; repeat split; reflexivity.
Qed.

(** X3: every row of [get_recent_documents] comes from a row of the join
    and carries a string in ecli_id, court, year and added_date: the
    stored value, or the placeholder when it is null.  The id and the
    metrics are passed as stored, null included. *)
Theorem get_recent_documents_placeholders limit w :
  Forall (fun row =>
            exists r,
              r ∈ left_join (store w)
              /\ row !! "ecli_id"
                 = Some (PyStr (default ("ECLI_UNKNOWN_" +:+ pretty (d_id r.1)) (d_ecli_id r.1)))
              /\ row !! "court" = Some (PyStr (default "Unknown" (d_court r.1)))
              /\ row !! "year" = Some (PyStr (default "Unknown" (d_year r.1)))
              /\ row !! "added_date" = Some (PyStr (default "Unknown" (d_added_date r.1)))
              /\ row !! "id" = Some (PyInt (d_id r.1))
              /\ row !! "page_count" = Some (py_integer (r.2 ≫= m_page_count))
              /\ row !! "file_size" = Some (py_integer (r.2 ≫= m_file_size)))
         (rows_of (get_recent_documents limit w).1).
Proof.
  rewrite get_recent_documents_rows. cbn [rows_of]. apply Forall_forall. intros row Hrow.
  destruct (fits_int64 limit); [|apply elem_of_nil in Hrow; contradiction].
  apply list_elem_of_fmap in Hrow as (r & -> & Hin).
  exists r. split; [exact (elem_of_recent_by_added_date _ _ _ Hin) | apply with_defaults_fields].
Qed.

(** X4: the number of rows: none for a limit the store cannot hold, the
    whole join for a negative limit, and otherwise the limit or the size
    of the join, whichever is smaller. *)
Theorem get_recent_documents_count limit w :
  length (rows_of (get_recent_documents limit w).1)
  = if fits_int64 limit then
      if limit <? 0 then length (left_join (store w))
      else Nat.min (Z.to_nat limit) (length (left_join (store w)))
    else 0%nat.
Proof.
  rewrite get_recent_documents_rows. cbn [rows_of].
  destruct (fits_int64 limit); [|reflexivity].
  rewrite length_fmap. unfold recent_by_added_date, sql_limit.
  destruct (limit <? 0).
  - apply length_order_by_desc.
  - rewrite length_take, length_order_by_desc. reflexivity.
Qed.

Lemma strongly_sorted_lookup {A} (R : A -> A -> Prop) (l : list A) :
  StronglySorted R l ->
  forall i j x y, (i < j)%nat -> l !! i = Some x -> l !! j = Some y -> R x y.
Proof.
  induction 1 as [|a l Hs IH Hall]; intros i j x y Hij Hi Hj.
  - rewrite lookup_nil in Hi. discriminate.
  - destruct j as [|j]; [lia|]. cbn in Hj. destruct i as [|i].
    + cbn in Hi. injection Hi as <-. rewrite Forall_forall in Hall.
      apply Hall. exact (list_elem_of_lookup_2 _ _ _ Hj).
    + cbn in Hi. apply (IH i j); [lia | exact Hi | exact Hj].
Qed.

Lemma nodup_fmap_inj {A B} (f : A -> B) (l : list A) x y :
  NoDup (f <$> l) -> x ∈ l -> y ∈ l -> f x = f y -> x = y.
Proof.
  induction l as [|a l IH]; intros Hnd Hx Hy Hf.
  - apply elem_of_nil in Hx. contradiction.
  - cbn [fmap list_fmap] in Hnd. apply NoDup_cons in Hnd as [Ha Hnd].
    apply elem_of_cons in Hx as [-> | Hx], Hy as [-> | Hy].
    + reflexivity.
    + exfalso. apply Ha. rewrite Hf. apply list_elem_of_fmap. exists y. auto.
    + exfalso. apply Ha. rewrite <- Hf. apply list_elem_of_fmap. exists x. auto.
    + apply IH; assumption.
Qed.

Lemma recent_by_added_date_sorted st limit :
  StronglySorted (key_desc added_date) (recent_by_added_date st limit).
Proof.
  unfold recent_by_added_date, sql_limit.
  pose proof (order_by_desc_sorted added_date (left_join st)) as Hs.
  destruct (limit <? 0); [exact Hs|].
  rewrite <- (take_drop (Z.to_nat limit) (order_by_desc added_date (left_join st))) in Hs.
  exact (StronglySorted_app_1_l _ _ _ Hs).
Qed.

(** X5: the rows of [get_recent_documents] are in descending order of
    the stored added date, null dates last: of two rows, the earlier one
    belongs to a document whose stored date is not before that of the
    later one's document.  (The id is the key of the documents table.) *)
Theorem get_recent_documents_ordered limit w i j ri rj di dj :
  NoDup (d_id <$> documents (store w)) ->
  (i < j)%nat ->
  rows_of (get_recent_documents limit w).1 !! i = Some ri ->
  rows_of (get_recent_documents limit w).1 !! j = Some rj ->
  di ∈ documents (store w) -> ri !! "id" = Some (PyInt (d_id di)) ->
  dj ∈ documents (store w) -> rj !! "id" = Some (PyInt (d_id dj)) ->
  date_ge (d_added_date di) (d_added_date dj) = true.
Proof.
  intros Hkey Hij. rewrite get_recent_documents_rows. cbn [rows_of].
  destruct (fits_int64 limit); [|rewrite lookup_nil; discriminate].
  rewrite !list_lookup_fmap. intros Hi Hj Hdi Hidi Hdj Hidj.
  destruct (recent_by_added_date (store w) limit !! i) as [a|] eqn:Ha; [|discriminate].
  destruct (recent_by_added_date (store w) limit !! j) as [b|] eqn:Hb; [|discriminate].
  cbn in Hi, Hj. injection Hi as <-. injection Hj as <-.
  pose proof (strongly_sorted_lookup _ _ (recent_by_added_date_sorted (store w) limit)
                i j a b Hij Ha Hb) as Hab.
  destruct (with_defaults_fields a) as (_ & _ & _ & _ & Hida & _).
  destruct (with_defaults_fields b) as (_ & _ & _ & _ & Hidb & _).
  cbv zeta in Hida, Hidb. rewrite Hida in Hidi. rewrite Hidb in Hidj.
  injection Hidi as Hidi. injection Hidj as Hidj.
  apply list_elem_of_lookup_2, elem_of_recent_by_added_date, elem_of_left_join in Ha as [Ha _].
  apply list_elem_of_lookup_2, elem_of_recent_by_added_date, elem_of_left_join in Hb as [Hb _].
  rewrite <- (nodup_fmap_inj d_id _ _ _ Hkey Ha Hdi Hidi).
  rewrite <- (nodup_fmap_inj d_id _ _ _ Hkey Hb Hdj Hidj).
  exact Hab.
Qed.

Lemma get_recent_documents_ordered_witness :
  date_ge (d_added_date (Sample.document 2 (Some "TRL") (Some "2021") (Some "2024-01-01")))
          (d_added_date (Sample.document 1 (Some "STJ") (Some "2020") None)) = true.
Proof.
  apply (get_recent_documents_ordered 10 (Sample.world Sample.library) 1 2
           (with_defaults
              (recent_dict (Sample.document 2 (Some "TRL") (Some "2021") (Some "2024-01-01"),
                            None)))
           (with_defaults
              (recent_dict (Sample.document 1 (Some "STJ") (Some "2020") None,
                            Some (Sample.metrics 1 1 (Some 5) None))))).
  - apply (bool_decide_unpack _). vm_compute. exact I.
  - lia.
  - vm_compute. reflexivity.
  - vm_compute. reflexivity.
  - right. left.
  - vm_compute. reflexivity.
  - left.
  - vm_compute. reflexivity.
Defined.


(* ===================================================================== *)
(** ** Further properties: search *)
(* ===================================================================== *)

Ltac compile_search_text :=
  unfold prepare_search;
  match goal with
  | |- context [parse_search ?t] =>
      let v := eval vm_compute in (parse_search t) in
      change (parse_search t) with v
  end;
  cbn [length negb Nat.eqb bind_params bind_param app mbind outcome_bind].

Section SearchFacts.

Variable int_str : string -> option Z.

(** The statement depends on the filter through its four fields only. *)
Lemma build_search_ext q1 q2 :
  (forall k, k ∈ filter_fields -> present q1 k = present q2 k) ->
  build_search int_str q1 = build_search int_str q2.
Proof.
  intros H. unfold build_search.
  rewrite (H "court" in_fields_court), (H "year" in_fields_year),
    (H "min_pages" in_fields_min), (H "max_pages" in_fields_max).
  reflexivity.
Qed.

Lemma search_documents_ext q1 q2 w :
  (forall k, k ∈ filter_fields -> present q1 k = present q2 k) ->
  search_documents int_str q1 w = search_documents int_str q2 w.
Proof.
  intros H. rewrite !search_documents_unfold, (build_search_ext q1 q2 H). reflexivity.
Qed.

(** X6: a field whose value is false for Python (None, the empty string,
    0, False, an empty list or mapping) is the same as a field that is
    missing. *)
Theorem search_documents_false_value_is_absent query k v w :
  search_documents int_str (<[k := v]> query) w
  = search_documents int_str (if truthy v then <[k := v]> query else delete k query) w.
Proof.
  destruct (truthy v) eqn:Hv; [reflexivity|].
  apply search_documents_ext. intros k' _. unfold present.
  destruct (decide (k = k')) as [->|Hne].
  - rewrite lookup_insert_eq, lookup_delete_eq, Hv. reflexivity.
  - rewrite lookup_insert_ne, lookup_delete_ne by exact Hne. reflexivity.
Qed.

(** X7: [search_documents] reads the four recognised fields and nothing
    else: every other key of the filter is ignored. *)
Theorem search_documents_ignores_other_keys query w :
  search_documents int_str query w = search_documents int_str (recognised query) w.
Proof.
  apply search_documents_ext. intros k Hk. unfold present, recognised.
  destruct (query !! k) as [v|] eqn:Hq.
  - rewrite (map_lookup_filter_Some_2 _ _ _ _ Hq Hk). reflexivity.
  - destruct (filter _ query !! k) as [v|] eqn:Hf; [|reflexivity].
    apply map_lookup_filter_Some_1_1 in Hf. congruence.
Qed.


(** X9: when a page bound is supplied, every returned row has a page
    count: a document without metrics, or whose page count is null, is
    left out even though the join is a left join. *)
Theorem search_documents_bound_needs_page_count query w :
  well_formed_filter int_str query ->
  supplied query "min_pages" = true \/ supplied query "max_pages" = true ->
  Forall (fun row => exists p, row !! "page_count" = Some (PyInt p))
         (rows_of (search_documents int_str query w).1).
Proof.
  intros Hwf Hbound.
  destruct (search_prepared int_str query Hwf) as (sql & params & ps & vs & Hb & Hp & Hsat).
  rewrite search_documents_unfold, Hb. cbn zeta. rewrite Hp, search_result_rows.
  cbn [fst rows_of]. apply Forall_forall. intros row Hrow.
  apply list_elem_of_fmap in Hrow as (r & -> & Hr).
  apply elem_of_order_by_desc, list_elem_of_filter in Hr as [Hw _].
  rewrite Hsat in Hw. apply Is_true_true in Hw.
  unfold satisfies in Hw. apply andb_true_iff in Hw as [Hw Hmax].
  apply andb_true_iff in Hw as [_ Hmin].
  destruct Hwf as (Ht & _ & _).
  unfold supplied in Hbound. destruct Hbound as [Hs | Hs].
  - destruct (field_cases query "min_pages" Ht in_fields_min)
      as [[Hp' _] | (s & _ & _ & _ & Hst)]; [rewrite Hp' in Hs; discriminate|].
    unfold min_pages_holds in Hmin. rewrite Hst in Hmin.
    destruct (int_str s); [|discriminate].
    destruct (search_dict r !! "page_count") as [[| | p | | |]|]; try discriminate.
    exists p. reflexivity.
  - destruct (field_cases query "max_pages" Ht in_fields_max)
      as [[Hp' _] | (s & _ & _ & _ & Hst)]; [rewrite Hp' in Hs; discriminate|].
    unfold max_pages_holds in Hmax. rewrite Hst in Hmax.
    destruct (int_str s); [|discriminate].
    destruct (search_dict r !! "page_count") as [[| | p | | |]|]; try discriminate.
    exists p. reflexivity.
Qed.



(** For a typed filter the only errors are those of the page bounds: a
    text that [int] rejects, or an integer the store cannot hold. *)
Lemma search_documents_typed_outcome query w :
  typed_filter query ->
  match (search_documents int_str query w).1 with
  | Return _ => True
  | Raise e => input_error e
  end.
Proof.
  intros Ht. rewrite search_documents_unfold. cbn zeta. unfold build_search.
  destruct (field_cases query "court" Ht in_fields_court)
    as [[-> _] | (c & _ & _ & -> & _)];
  destruct (field_cases query "year" Ht in_fields_year)
    as [[-> _] | (y & _ & _ & -> & _)];
  destruct (field_cases query "min_pages" Ht in_fields_min)
    as [[-> _] | (lo & _ & _ & -> & _)];
  destruct (field_cases query "max_pages" Ht in_fields_max)
    as [[-> _] | (hi & _ & _ & -> & _)];
  cbn [py_int mbind outcome_bind];
  try (destruct (int_str lo) as [nlo|]; cbn [mbind outcome_bind];
       [|left; reflexivity]);
  try (destruct (int_str hi) as [nhi|]; cbn [mbind outcome_bind];
       [|left; reflexivity]);
  compile_search_text;
  try (destruct (fits_int64 nlo); cbn [mbind outcome_bind]; [|right; reflexivity]);
  try (destruct (fits_int64 nhi); cbn [mbind outcome_bind]; [|right; reflexivity]);
  exact I.
Qed.

(** X10: the search route can fail in two ways only, both through a page
    bound: [ValueError] for a text that [int] rejects and [OverflowError]
    for an integer beyond the store's range.  No request makes it send a
    statement the store rejects. *)
Theorem search_route_outcomes court year min_pages max_pages w :
  match (search int_str court year min_pages max_pages w).1 with
  | Return _ => True
  | Raise e => input_error e
  end.
Proof.
  unfold search. apply search_documents_typed_outcome, search_query_typed.
Qed.

(** X11: when [int] reads every page bound that is supplied and one of
    them does not fit the store's 64-bit integers, [OverflowError] is
    raised when the bounds are bound to the statement: no statement is
    run, and the connection stays open. *)
Theorem search_documents_bound_overflow query w :
  typed_filter query ->
  (forall k s, k ∈ ["min_pages"; "max_pages"] -> query !! k = Some (PyStr s) ->
     s <> EmptyString -> is_Some (int_str s)) ->
  (exists k s n, k ∈ ["min_pages"; "max_pages"] /\ query !! k = Some (PyStr s)
                 /\ s <> EmptyString /\ int_str s = Some n /\ fits_int64 n = false) ->
  exists w',
    search_documents int_str query w = (Raise OverflowError, w')
    /\ trace w' = trace w ++ [Connect]
    /\ open_connections w' = S (open_connections w).
Proof.
  intros Ht Hnum (k & s & n & Hk & Hq & Hs & Hint & Hfit).
  assert (Hinlo : "min_pages" ∈ ["min_pages"; "max_pages"]) by left.
  assert (Hinhi : "max_pages" ∈ ["min_pages"; "max_pages"]) by (right; left).
  rewrite search_documents_unfold. cbn zeta. unfold build_search.
  destruct (field_cases query "court" Ht in_fields_court)
    as [[-> _] | (c & _ & _ & -> & _)];
  destruct (field_cases query "year" Ht in_fields_year)
    as [[-> _] | (y & _ & _ & -> & _)];
  destruct (field_cases query "min_pages" Ht in_fields_min)
    as [[Hplo _] | (lo & Hqlo & Hnlo & Hplo & _)];
  destruct (field_cases query "max_pages" Ht in_fields_max)
    as [[Hphi _] | (hi & Hqhi & Hnhi & Hphi & _)];
  rewrite Hplo, Hphi; cbn [py_int mbind outcome_bind].
  all: try (destruct (Hnum "min_pages" lo Hinlo Hqlo Hnlo) as [nlo Hilo];
            rewrite Hilo; cbn [mbind outcome_bind]).
  all: try (destruct (Hnum "max_pages" hi Hinhi Hqhi Hnhi) as [nhi Hihi];
            rewrite Hihi; cbn [mbind outcome_bind]).
  all: compile_search_text.
  all: repeat (apply elem_of_cons in Hk as [-> | Hk]);
    try (apply elem_of_nil in Hk; contradiction).
  all: try (rewrite (present_str _ _ _ Hq Hs) in Hplo; discriminate).
  all: try (rewrite (present_str _ _ _ Hq Hs) in Hphi; discriminate).
  all: try (assert (nlo = n) as -> by congruence).
  all: try (assert (nhi = n) as -> by congruence).
  all: rewrite ?Hfit; cbn [mbind outcome_bind].
  all: try (destruct (fits_int64 nlo); cbn [mbind outcome_bind]).
  all: eexists; split; [reflexivity|]; split; reflexivity.
Qed.

End SearchFacts.

Lemma search_documents_bound_needs_page_count_witness :
  Forall (fun row => exists p, row !! "page_count" = Some (PyInt p))
         (rows_of (search_documents int_of_str Sample.by_court (Sample.world Sample.library)).1).
Proof.
  apply (search_documents_bound_needs_page_count int_of_str Sample.by_court
           (Sample.world Sample.library) sample_by_court_well_formed).
  left. reflexivity.
Defined.

Lemma search_documents_bound_overflow_witness :
  exists w',
    search_documents int_of_str (search_query None None None (Some "99999999999999999999"))
      (Sample.world Sample.library) = (Raise OverflowError, w')
    /\ trace w' = [Connect]
    /\ open_connections w' = 1%nat.
Proof.
  apply (search_documents_bound_overflow int_of_str
           (search_query None None None (Some "99999999999999999999"))
           (Sample.world Sample.library)).
  - apply search_query_typed.
  - intros k s Hk Hq _.
    repeat (apply elem_of_cons in Hk as [-> | Hk]);
      [ | | apply elem_of_nil in Hk; contradiction]; vm_compute in Hq; [discriminate|].
    injection Hq as <-. eexists. reflexivity.
  - exists "max_pages", "99999999999999999999", 99999999999999999999.
    split; [right; left|]. split; [reflexivity|]. split; [discriminate|].
    split; reflexivity.
Defined.

(* ===================================================================== *)
(** ** Further properties: corpus statistics *)
(* ===================================================================== *)

Lemma latest_stats_some l : l <> [] -> exists r, latest_stats l = Some r.
Proof.
  intros Hne. destruct (latest_stats l) as [r|] eqn:Hl; [exists r; reflexivity|].
  apply latest_stats_none in Hl. contradiction.
Qed.

(** Counting in a grouped list: the count of a key that occurs. *)
Lemma counts_dict_lookup (g : option string -> Z) c : forall ks (m : pydict),
  c <> EmptyString ->
  foldl (fun m row =>
           if truthy (py_text row.1) then <[py_str (py_text row.1) := PyInt row.2]> m else m)
        m ((fun k => (k, g k)) <$> ks) !! c
  = if decide (Some c ∈ ks) then Some (PyInt (g (Some c))) else m !! c.
Proof.
  intros ks. induction ks as [|k ks IH]; intros m Hc; cbn [fmap list_fmap foldl].
  - rewrite decide_False by apply not_elem_of_nil. reflexivity.
  - rewrite IH by exact Hc. cbn [fst snd].
    destruct (decide (Some c ∈ ks)) as [Hin|Hnin].
    + rewrite decide_True by (right; exact Hin). reflexivity.
    + destruct k as [k|]; cbn [py_text truthy py_str].
      * destruct (String.eqb_spec k EmptyString) as [->|Hk]; cbn [negb].
        -- rewrite decide_False; [reflexivity|].
           intros Hin. apply elem_of_cons in Hin as [Heq|Hin]; [congruence | contradiction].
        -- destruct (decide (k = c)) as [->|Hkc].
           ++ rewrite decide_True by left. apply lookup_insert_eq.
           ++ rewrite decide_False.
              ** apply lookup_insert_ne. exact Hkc.
              ** intros Hin. apply elem_of_cons in Hin as [Heq|Hin];
                   [congruence | contradiction].
      * rewrite decide_False; [reflexivity|].
        intros Hin. apply elem_of_cons in Hin as [Heq|Hin]; [discriminate | contradiction].
Qed.

Lemma counts_dict_no_empty_key (g : option string -> Z) : forall ks (m : pydict),
  m !! EmptyString = None ->
  foldl (fun m row =>
           if truthy (py_text row.1) then <[py_str (py_text row.1) := PyInt row.2]> m else m)
        m ((fun k => (k, g k)) <$> ks) !! EmptyString = None.
Proof.
  intros ks. induction ks as [|k ks IH]; intros m Hm; cbn [fmap list_fmap foldl]; [exact Hm|].
  apply IH. cbn [fst snd]. destruct k as [k|]; cbn [py_text truthy py_str]; [|exact Hm].
  destruct (String.eqb_spec k EmptyString) as [->|Hk]; cbn [negb]; [exact Hm|].
  rewrite lookup_insert_ne by exact Hk. exact Hm.
Qed.

Lemma length_filter_fmap {A} (f : A -> option string) (k : option string) (l : list A) :
  length (filter (fun k' => k' = k) (f <$> l)) = length (filter (fun x => f x = k) l).
Proof.
  induction l as [|x l IH]; [reflexivity|]. cbn [fmap list_fmap].
  destruct (decide (f x = k)) as [Hx|Hx].
  - rewrite !filter_cons_True by exact Hx. cbn [length]. rewrite IH. reflexivity.
  - rewrite !filter_cons_False by exact Hx. exact IH.
Qed.

(** The mapping of the computed statistics for a text column. *)
Lemma counts_group_lookup (col : Document -> option string) st c :
  counts_dict (group_count (col <$> documents st)) !! c
  = if decide (c <> EmptyString /\ Some c ∈ col <$> documents st)
    then Some (PyInt (documents_with col c st))
    else None.
Proof.
  unfold counts_dict, group_count, documents_with.
  destruct (decide (c = EmptyString)) as [->|Hc].
  - rewrite counts_dict_no_empty_key by apply lookup_empty.
    rewrite decide_False by tauto. reflexivity.
  - rewrite (counts_dict_lookup
               (fun k => Z.of_nat (length (filter (fun k' => k' = k) (col <$> documents st)))))
      by exact Hc.
    rewrite lookup_empty, length_filter_fmap.
    destruct (decide (Some c ∈ remove_dups (col <$> documents st))) as [Hin|Hnin].
    + rewrite decide_True; [reflexivity|]. split; [exact Hc|].
      apply elem_of_remove_dups. exact Hin.
    + rewrite decide_False; [reflexivity|]. intros [_ Hin]. apply Hnin.
      apply elem_of_remove_dups. exact Hin.
Qed.

Section StatsFacts.

Variable json_loads : string -> outcome pyval.
Variable key_order : pydict -> list string.

Lemma field_readable_raises o :
  field_readable json_loads o = false ->
  exists e, stored_or_decoded json_loads o = Raise e /\ e <> JSONDecodeError.
Proof.
  unfold field_readable, stored_or_decoded, decodes_or_rejects.
  destruct o as [s|]; [|discriminate].
  destruct (String.eqb s EmptyString); cbn [orb]; [discriminate|].
  destruct (json_loads s) as [v|[]]; try discriminate; intros _;
    eexists; (split; [reflexivity | discriminate]).
Qed.

Lemma stored_or_decoded_raise o e :
  stored_or_decoded json_loads o = Raise e -> e <> JSONDecodeError.
Proof.
  unfold stored_or_decoded. destruct o as [s|]; [|discriminate].
  destruct (String.eqb s EmptyString); [discriminate|].
  destruct (json_loads s) as [v|[]]; try discriminate; intros [= <-]; discriminate.
Qed.

(** X12: the two paths of [get_corpus_stats] return differently shaped
    results: read from a snapshot, the statistics carry the row's id and
    generated_at; computed from the tables, they carry generated_date
    and no id.  When the call raises instead, it is the overflow of a sum
    on the computed path, and an exception of the decoder other than
    [JSONDecodeError] on the snapshot path. *)
Theorem get_corpus_stats_keys w :
  match (get_corpus_stats json_loads w).1 with
  | Return stats =>
      dom stats = match corpus_stats (store w) with
                  | [] => computed_keys
                  | _ :: _ => snapshot_keys
                  end
  | Raise e =>
      match corpus_stats (store w) with
      | [] => e = OperationalError
      | _ :: _ => e <> JSONDecodeError
      end
  end.
Proof.
  destruct (corpus_stats (store w)) as [|r0 l] eqn:Hs.
  - rewrite get_corpus_stats_computed by (rewrite Hs; reflexivity). cbv zeta.
    destruct (sql_sum (m_page_count <$> _)) as [p|e] eqn:Hp;
      [|exact (proj1 (sql_sum_raise _ _ Hp))].
    destruct (sql_sum (m_file_size <$> _)) as [b|e] eqn:Hb;
      [|exact (proj1 (sql_sum_raise _ _ Hb))].
    cbn [fst]. rewrite !dom_insert_L, dom_empty_L. unfold computed_keys. cbn [list_to_set].
    reflexivity.
  - destruct (latest_stats_some (r0 :: l)) as [r Hr]; [discriminate|].
    rewrite <- Hs in Hr. rewrite (get_corpus_stats_snapshot_result json_loads w r Hr).
    cbv zeta.
    destruct (stored_or_decoded json_loads (s_courts r)) as [c|e] eqn:Hc;
      [|exact (stored_or_decoded_raise _ _ Hc)].
    destruct (stored_or_decoded json_loads (s_years r)) as [y|e] eqn:Hy;
      [|exact (stored_or_decoded_raise _ _ Hy)].
    cbn [fst]. unfold stats_dict. rewrite !dom_insert_L, dom_empty_L. unfold snapshot_keys.
    cbn [list_to_set]. set_solver.
Qed.

(** X13: in the statistics computed from the tables, the court mapping
    gives each court that is neither null nor empty the number of its
    documents, and has no other key; the year mapping does the same for
    years; total_documents is the number of documents.  The computation
    fails only with the overflow of a sum. *)
Theorem get_corpus_stats_computed_counts w :
  corpus_stats (store w) = [] ->
  match (get_corpus_stats json_loads w).1 with
  | Return stats =>
      exists courts years,
        stats !! "courts" = Some (PyDict courts)
        /\ stats !! "years" = Some (PyDict years)
        /\ stats !! "total_documents" = Some (PyInt (Z.of_nat (length (documents (store w)))))
        /\ (forall c, courts !! c
                      = if decide (c <> EmptyString /\ Some c ∈ d_court <$> documents (store w))
                        then Some (PyInt (documents_with d_court c (store w)))
                        else None)
        /\ (forall y, years !! y
                      = if decide (y <> EmptyString /\ Some y ∈ d_year <$> documents (store w))
                        then Some (PyInt (documents_with d_year y (store w)))
                        else None)
  | Raise e => e = OperationalError
  end.
Proof.
  intros Hs. rewrite get_corpus_stats_computed by (rewrite Hs; reflexivity). cbv zeta.
  destruct (sql_sum (m_page_count <$> _)) as [p|e] eqn:Hp;
    [|exact (proj1 (sql_sum_raise _ _ Hp))].
  destruct (sql_sum (m_file_size <$> _)) as [b|e] eqn:Hb;
    [|exact (proj1 (sql_sum_raise _ _ Hb))].
  cbn [fst]. eexists. eexists.
  split; [reflexivity|]. split; [reflexivity|]. split; [reflexivity|].
  split; intros k; apply counts_group_lookup.
Qed.

(** X14: with a snapshot row, [get_corpus_stats] sends one statement,
    the one that reads the latest snapshot, and its outcome does not
    depend on the documents or their metrics: two stores with the same
    snapshots give the same statistics, or the same exception.  The
    connection is closed when the call returns, and only then. *)
Theorem get_corpus_stats_reads_snapshot_only w1 w2 :
  corpus_stats (store w1) = corpus_stats (store w2) ->
  corpus_stats (store w1) <> [] ->
  (get_corpus_stats json_loads w1).1 = (get_corpus_stats json_loads w2).1
  /\ trace (get_corpus_stats json_loads w1).2
     = trace w1 ++ [Connect; Execute LatestStats []]
         ++ match (get_corpus_stats json_loads w1).1 with
            | Return _ => [Close]
            | Raise _ => []
            end.
Proof.
  intros Heq Hne. destruct (latest_stats_some _ Hne) as [r Hr].
  rewrite (get_corpus_stats_snapshot_result json_loads w1 r Hr).
  rewrite Heq in Hr. rewrite (get_corpus_stats_snapshot_result json_loads w2 r Hr).
  cbv zeta.
  destruct (stored_or_decoded json_loads (s_courts r)) as [c|e];
    [|split; [reflexivity | cbn; reflexivity]].
  destruct (stored_or_decoded json_loads (s_years r)) as [y|e];
    [|split; [reflexivity | cbn; reflexivity]].
  split; [reflexivity|]. cbn. reflexivity.
Qed.

(** X15: of several snapshot rows [get_corpus_stats] reads the one with
    the greatest id: what it returns carries the id, the totals and the
    generation time that this row stores. *)
Theorem get_corpus_stats_latest_snapshot w :
  match corpus_stats (store w) with
  | [] => True
  | _ :: _ =>
      exists latest,
        latest ∈ corpus_stats (store w)
        /\ Forall (fun x => s_id x <= s_id latest) (corpus_stats (store w))
        /\ match (get_corpus_stats json_loads w).1 with
           | Return stats =>
               stats !! "id" = Some (PyInt (s_id latest))
               /\ stats !! "total_documents" = Some (py_integer (s_total_documents latest))
               /\ stats !! "total_pages" = Some (py_integer (s_total_pages latest))
               /\ stats !! "total_size_bytes" = Some (py_integer (s_total_size_bytes latest))
               /\ stats !! "generated_at" = Some (py_text (s_generated_at latest))
           | Raise e =>
               e <> JSONDecodeError
               /\ (field_readable json_loads (s_courts latest)
                   && field_readable json_loads (s_years latest)) = false
           end
  end.
Proof.
  destruct (corpus_stats (store w)) as [|r0 l] eqn:Hs; [exact I|].
  destruct (latest_stats_some (r0 :: l)) as [r Hr]; [discriminate|].
  exists r. split; [exact (latest_stats_elem _ _ Hr)|].
  split; [apply Forall_forall; exact (latest_stats_greatest _ _ Hr)|].
  rewrite <- Hs in Hr. rewrite (get_corpus_stats_snapshot_result json_loads w r Hr).
  cbv zeta.
  destruct (field_readable json_loads (s_courts r)) eqn:Hc.
  - destruct (field_readable_returns _ _ Hc) as [c ->].
    destruct (field_readable json_loads (s_years r)) eqn:Hy.
    + destruct (field_readable_returns _ _ Hy) as [y ->].
      cbn [fst]. repeat split; reflexivity.
    + destruct (field_readable_raises _ Hy) as (e & -> & He). cbn [fst]. split; [exact He|].
      reflexivity.
  - destruct (field_readable_raises _ Hc) as (e & -> & He). cbn [fst]. split; [exact He|].
    reflexivity.
Qed.

(** A key that is not a string stays in the dictionary. *)
Lemma update_pairs_foreign l : forall doc, (update_pairs key_order (doc, true) l).2 = true.
Proof.
  induction l as [|e l IH]; intros doc; cbn [update_pairs]; [reflexivity|].
  destruct (pair_of key_order e); cbn [fst snd]; [apply IH | apply IH | reflexivity].
Qed.

(** X16: [get_corpus_stats] never changes the store, and it closes the
    connection it opened exactly when it returns: when it raises, the
    connection stays open.  The document route closes its connection
    before it builds the answer: whatever the outcome, the connection
    is closed and the store unchanged; the route answers 200 or 404, or
    raises [TypeError] when the detail cannot be serialized. *)
Theorem stats_and_document_release_connection w ecli_id :
  (store (get_corpus_stats json_loads w).2 = store w
   /\ open_connections (get_corpus_stats json_loads w).2
      = match (get_corpus_stats json_loads w).1 with
        | Return _ => open_connections w
        | Raise _ => S (open_connections w)
        end)
  /\ (store (get_document json_loads key_order ecli_id w).2 = store w
      /\ open_connections (get_document json_loads key_order ecli_id w).2 = open_connections w
      /\ match (get_document json_loads key_order ecli_id w).1 with
         | Return (Json _ status) => status = 200 \/ status = 404
         | Raise e => e = TypeError
         end).
Proof.
  split.
  - destruct (latest_stats (corpus_stats (store w))) as [r|] eqn:Hr.
    + rewrite (get_corpus_stats_snapshot_result json_loads w r Hr). cbv zeta.
      destruct (stored_or_decoded json_loads (s_courts r)); [|split; reflexivity].
      destruct (stored_or_decoded json_loads (s_years r)); split; reflexivity.
    + rewrite (get_corpus_stats_computed json_loads w Hr). cbv zeta.
      destruct (sql_sum (m_page_count <$> _)); [|split; reflexivity].
      destruct (sql_sum (m_file_size <$> _)); split; reflexivity.
  - rewrite get_document_unfold. cbn [fst snd store open_connections].
    split; [reflexivity|]. split; [reflexivity|].
    destruct (head (document_by_ecli (store w) (SqlText ecli_id))) as [r|].
    + unfold jsonify. destruct (merge_metadata json_loads key_order (document_dict r)).2;
        [reflexivity | left; reflexivity].
    + right. reflexivity.
Qed.

(** X17: what the document route does with the metadata blob of the row
    it fetched.  A null or empty blob stays in the detail as the field
    pdf_metadata, with every column as stored.  A blob that does not
    decode, whatever the decoder raises, is removed, and every other
    column is as stored.  For a blob that decodes to a mapping, every
    column the mapping does not name is as stored.  A blob that decodes
    to a list whose first element is a pair with a key that is not a
    string (the blob [[[1, 2]]]) makes the route raise [TypeError]: the
    key is stored in the detail, which then cannot be serialized. *)
Theorem get_document_blob_cases ecli_id w r :
  head (document_by_ecli (store w) (SqlText ecli_id)) = Some r ->
  let answer := (get_document json_loads key_order ecli_id w).1 in
  (r.2 ≫= m_pdf_metadata = None \/ r.2 ≫= m_pdf_metadata = Some EmptyString ->
     answer = Return (Json (document_dict r) 200))
  /\ (forall blob e, r.2 ≫= m_pdf_metadata = Some blob -> blob <> EmptyString ->
        json_loads blob = Raise e ->
        answer = Return (Json (delete "pdf_metadata" (document_dict r)) 200))
  /\ (forall blob meta, r.2 ≫= m_pdf_metadata = Some blob -> blob <> EmptyString ->
        json_loads blob = Return (PyDict meta) ->
        exists body,
          answer = Return (Json body 200)
          /\ forall k, k <> "pdf_metadata" -> meta !! k = None ->
                       body !! k = document_dict r !! k)
  /\ (forall blob k x rest, r.2 ≫= m_pdf_metadata = Some blob -> blob <> EmptyString ->
        json_loads blob = Return (PyList (PyList [k; x] :: rest)) -> foreign_key k ->
        answer = Raise TypeError).
Proof.
  intros Hr. cbv zeta. rewrite get_document_unfold, Hr. cbn [fst].
  unfold merge_metadata.
  change (dict_get (document_dict r) "pdf_metadata") with (py_text (r.2 ≫= m_pdf_metadata)).
  split; [|split; [|split]].
  - intros [-> | ->]; reflexivity.
  - intros blob e -> Hne Hbad. cbn [py_text truthy].
    destruct (String.eqb_spec blob EmptyString); [contradiction|]. cbn [negb].
    rewrite Hbad. reflexivity.
  - intros blob meta -> Hne Hmeta. cbn [py_text truthy].
    destruct (String.eqb_spec blob EmptyString); [contradiction|]. cbn [negb].
    rewrite Hmeta. cbn [dict_update]. unfold jsonify. cbn [fst snd].
    eexists. split; [reflexivity|]. intros k Hk Hnone.
    rewrite lookup_delete_ne by congruence.
    rewrite lookup_union_r by exact Hnone. reflexivity.
  - intros blob k x rest -> Hne Hlist Hk. cbn [py_text truthy].
    destruct (String.eqb_spec blob EmptyString); [contradiction|]. cbn [negb].
    rewrite Hlist. cbn [dict_update update_pairs pair_of].
    destruct k; try contradiction; cbn [fst snd]; unfold jsonify; cbn [snd];
      rewrite update_pairs_foreign; reflexivity.
Qed.

End StatsFacts.

Lemma get_corpus_stats_computed_counts_witness :
  exists stats courts years,
    (get_corpus_stats Json.loads (Sample.world Sample.library)).1 = Return stats
    /\ stats !! "courts" = Some (PyDict courts)
    /\ stats !! "years" = Some (PyDict years)
    /\ courts !! "STJ" = Some (PyInt 2)
    /\ years !! "2022" = None.
Proof.
  pose proof (get_corpus_stats_computed_counts Json.loads (Sample.world Sample.library) eq_refl)
    as H.
  destruct (get_corpus_stats Json.loads (Sample.world Sample.library)).1 as [stats|e] eqn:Hrun;
    [|rewrite (get_corpus_stats_computed Json.loads (Sample.world Sample.library) eq_refl)
        in Hrun; discriminate].
  destruct H as (courts & years & Hc & Hy & _ & Hcourts & Hyears).
  exists stats, courts, years. split; [reflexivity|]. split; [exact Hc|]. split; [exact Hy|].
  split; [rewrite Hcourts | rewrite Hyears]; vm_compute; reflexivity.
Defined.

Lemma get_corpus_stats_reads_snapshot_only_witness :
  (get_corpus_stats Json.loads
     (Sample.world (Sample.with_snapshot (Some "{}") (Some "{}")))).1
  = (get_corpus_stats Json.loads
       (Sample.world {| documents := []; document_metrics := [];
                        corpus_stats :=
                          corpus_stats (Sample.with_snapshot (Some "{}") (Some "{}")) |})).1.
Proof.
  refine (proj1 (get_corpus_stats_reads_snapshot_only Json.loads
                   (Sample.world (Sample.with_snapshot (Some "{}") (Some "{}")))
                   (Sample.world {| documents := []; document_metrics := [];
                                    corpus_stats :=
                                      corpus_stats (Sample.with_snapshot (Some "{}") (Some "{}")) |})
                   eq_refl _)).
  discriminate.
Defined.

Lemma get_document_blob_cases_witness :
  (get_document Json.loads Json.key_order "ECLI_1"
     (Sample.world (Sample.with_metadata Sample.integer_key_blob))).1 = Raise TypeError.
Proof.
  refine (proj2 (proj2 (proj2
            (get_document_blob_cases Json.loads Json.key_order "ECLI_1"
               (Sample.world (Sample.with_metadata Sample.integer_key_blob))
               (Sample.document 1 (Some "STJ") (Some "2020") (Some "2024-01-01"),
                Some (Sample.metrics 1 1 (Some 5) (Some Sample.integer_key_blob)))
               eq_refl)))
            Sample.integer_key_blob (PyInt 1) (PyInt 2) [] eq_refl _ _ I).
  - discriminate.
  - vm_compute. reflexivity.
Defined.


(* ===================================================================== *)
(** ** Further properties: the aggregation queries *)
(* ===================================================================== *)

Section SortBy.
Context {A : Type} (le : A -> A -> bool).

Lemma insert_by_perm r l : insert_by le r l ≡ₚ r :: l.
Proof.
  induction l as [|x l IH]; cbn; [reflexivity|].
  destruct (le r x); [reflexivity|]. rewrite IH. apply Permutation_swap.
Qed.

Lemma sort_by_perm l : sort_by le l ≡ₚ l.
Proof.
  induction l as [|x l IH]; cbn; [reflexivity|].
  rewrite insert_by_perm. f_equiv. exact IH.
Qed.

Hypothesis le_total : forall a b, le a b = true \/ le b a = true.
Hypothesis le_trans : forall a b c, le a b = true -> le b c = true -> le a c = true.

Lemma insert_by_sorted r l :
  StronglySorted (fun a b => le a b = true) l ->
  StronglySorted (fun a b => le a b = true) (insert_by le r l).
Proof.
  induction 1 as [|x l Hs IH Hall]; cbn.
  - repeat constructor.
  - destruct (le r x) eqn:Hrx.
    + constructor; [constructor; assumption|].
      constructor; [exact Hrx|].
      eapply Forall_impl; [exact Hall|]. intros y Hy. exact (le_trans _ _ _ Hrx Hy).
    + constructor; [exact IH|].
      rewrite insert_by_perm. constructor; [|exact Hall].
      destruct (le_total r x) as [H|H]; [congruence | exact H].
Qed.

Lemma sort_by_sorted l : StronglySorted (fun a b => le a b = true) (sort_by le l).
Proof.
  induction l as [|x l IH]; cbn; [constructor | apply insert_by_sorted, IH].
Qed.

End SortBy.

Lemma sum_perm (l1 l2 : list Z) : l1 ≡ₚ l2 -> foldr Z.add 0 l1 = foldr Z.add 0 l2.
Proof. induction 1; cbn; lia. Qed.

Lemma count_of_cons k x keys :
  count_of k (x :: keys) = (if decide (x = k) then 1 else 0) + count_of k keys.
Proof.
  unfold count_of. destruct (decide (x = k)) as [Hx|Hx].
  - rewrite filter_cons_True by exact Hx. cbn [length]. lia.
  - rewrite filter_cons_False by exact Hx. lia.
Qed.

Lemma sum_indicator (x : string) (L : list string) :
  NoDup L ->
  foldr Z.add 0 ((fun k => if decide (x = k) then 1 else 0) <$> L)
  = if decide (x ∈ L) then 1 else 0.
Proof.
  induction 1 as [|k L Hk Hnd IH]; cbn [fmap list_fmap foldr].
  - rewrite decide_False by apply not_elem_of_nil. reflexivity.
  - rewrite IH. destruct (decide (x = k)) as [->|Hne].
    + rewrite decide_False by exact Hk. rewrite decide_True by left. reflexivity.
    + destruct (decide (x ∈ L)) as [Hin|Hnin].
      * rewrite decide_True by (right; exact Hin). reflexivity.
      * rewrite decide_False; [reflexivity|].
        intros Hin. apply elem_of_cons in Hin as [?|?]; contradiction.
Qed.

(** The counts of the distinct keys add up to the number of keys. *)
Lemma sum_counts (L : list string) : forall keys,
  NoDup L -> (forall k, k ∈ keys -> k ∈ L) ->
  foldr Z.add 0 ((fun k => count_of k keys) <$> L) = Z.of_nat (length keys).
Proof.
  intros keys Hnd. induction keys as [|x keys IH]; intros Hsub.
  - cbn [length]. clear. induction L as [|k L IH]; [reflexivity|].
    cbn [fmap list_fmap foldr]. rewrite IH. reflexivity.
  - assert (foldr Z.add 0 ((fun k => count_of k (x :: keys)) <$> L)
            = foldr Z.add 0 ((fun k => if decide (x = k) then 1 else 0) <$> L)
              + foldr Z.add 0 ((fun k => count_of k keys) <$> L)) as ->.
    { clear. induction L as [|k L IH]; [reflexivity|].
      cbn [fmap list_fmap foldr]. rewrite IH, count_of_cons. lia. }
    rewrite (sum_indicator x L Hnd), decide_True by (apply Hsub; left).
    rewrite IH by (intros k Hk; apply Hsub; right; exact Hk).
    cbn [length]. lia.
Qed.

Lemma group_by_text_keys keys : fst <$> group_by_text keys = sort_by String.leb (remove_dups keys).
Proof.
  unfold group_by_text. rewrite <- list_fmap_compose.
  apply list_fmap_id.
Qed.

Lemma group_by_text_counts keys :
  snd <$> group_by_text keys
  = (fun k => count_of k keys) <$> sort_by String.leb (remove_dups keys).
Proof. unfold group_by_text. rewrite <- list_fmap_compose. reflexivity. Qed.

Lemma elem_of_group_by_text keys k n :
  (k, n) ∈ group_by_text keys <-> k ∈ keys /\ n = count_of k keys.
Proof.
  unfold group_by_text. rewrite list_elem_of_fmap. split.
  - intros (k' & [= -> ->] & Hin). rewrite sort_by_perm in Hin.
    rewrite elem_of_remove_dups in Hin. split; [exact Hin | reflexivity].
  - intros [Hin ->]. exists k. split; [reflexivity|].
    rewrite sort_by_perm, elem_of_remove_dups. exact Hin.
Qed.

Lemma group_by_text_nodup keys : NoDup (fst <$> group_by_text keys).
Proof. rewrite group_by_text_keys, sort_by_perm. apply NoDup_remove_dups. Qed.

Lemma group_by_text_sum keys :
  foldr Z.add 0 (snd <$> group_by_text keys) = Z.of_nat (length keys).
Proof.
  rewrite group_by_text_counts. apply sum_counts.
  - rewrite sort_by_perm. apply NoDup_remove_dups.
  - intros k Hk. rewrite sort_by_perm, elem_of_remove_dups. exact Hk.
Qed.

Lemma group_by_text_sorted keys :
  StronglySorted (fun a b => String.leb a.1 b.1 = true) (group_by_text keys).
Proof.
  unfold group_by_text.
  apply (StronglySorted_fmap _ (fun a b => String.leb a b = true)); [intros x y H; exact H|].
  apply sort_by_sorted; [apply String.leb_total | apply string_leb_trans].
Qed.

Lemma count_of_omap (col : Document -> option string) k st :
  count_of k (omap col (documents st)) = documents_with col k st.
Proof.
  unfold count_of, documents_with. f_equal.
  induction (documents st) as [|d l IH]; [reflexivity|]. cbn [omap list_omap].
  destruct (col d) as [x|] eqn:Hd.
  - destruct (decide (x = k)) as [->|Hne].
    + rewrite filter_cons_True by reflexivity. rewrite filter_cons_True by exact Hd.
      cbn [length]. rewrite IH. reflexivity.
    + rewrite filter_cons_False by exact Hne.
      rewrite filter_cons_False by (rewrite Hd; congruence). exact IH.
  - rewrite filter_cons_False by (rewrite Hd; discriminate). exact IH.
Qed.

Lemma elem_of_omap_col (col : Document -> option string) k (l : list Document) :
  k ∈ omap col l <-> Some k ∈ col <$> l.
Proof.
  rewrite list_elem_of_omap, list_elem_of_fmap. split.
  - intros (d & Hd & Hk). exists d. auto.
  - intros (d & Hk & Hd). exists d. auto.
Qed.

Lemma count_desc_total (a b : string * Z) : (b.2 <=? a.2) = true \/ (a.2 <=? b.2) = true.
Proof. destruct (Z.leb_spec b.2 a.2); [left; reflexivity | right; apply Z.leb_le; lia]. Qed.

Lemma count_desc_trans (a b c : string * Z) :
  (b.2 <=? a.2) = true -> (c.2 <=? b.2) = true -> (c.2 <=? a.2) = true.
Proof. rewrite !Z.leb_le. lia. Qed.

Lemma strongly_sorted_weaken {A} (R1 R2 : A -> A -> Prop) (l : list A) :
  (forall x y, R1 x y -> R2 x y) -> StronglySorted R1 l -> StronglySorted R2 l.
Proof.
  intros HR. induction 1 as [|x l Hs IH Hall]; constructor; [exact IH|].
  eapply Forall_impl; [exact Hall | apply HR].
Qed.

Lemma frame_of_rows {A} (cols : list string) (f : A -> list pyval) (rows : list A) :
  match rows with
  | _ :: _ => {| df_columns := cols; df_rows := f <$> rows |}
  | [] => {| df_columns := cols; df_rows := [] |}
  end = {| df_columns := cols; df_rows := f <$> rows |}.
Proof. destruct rows; reflexivity. Qed.

(** X18: [get_documents_by_court] returns one row per court that is not
    null, each with the number of documents of that court, the rows in
    descending order of the count; the counts add up to the number of
    documents whose court is not null.  The connection is closed. *)
Theorem get_documents_by_court_table w :
  exists rows w',
    get_documents_by_court w
    = (Return {| df_columns := ["court"; "count"]; df_rows := count_row <$> rows |}, w')
    /\ open_connections w' = open_connections w
    /\ NoDup (fst <$> rows)
    /\ (forall c n, (c, n) ∈ rows
                    <-> Some c ∈ d_court <$> documents (store w)
                        /\ n = documents_with d_court c (store w))
    /\ StronglySorted (fun a b => b.2 <= a.2) rows
    /\ foldr Z.add 0 (snd <$> rows)
       = Z.of_nat (length (omap d_court (documents (store w)))).
Proof.
  cbv [get_documents_by_court mbind M_bind execute mret M_ret].
  cbn [get_db_connection bind_params record store]. rewrite frame_of_rows.
  eexists. eexists. split; [reflexivity|]. split; [reflexivity|].
  unfold documents_by_court. split; [|split; [|split]].
  - rewrite sort_by_perm. apply group_by_text_nodup.
  - intros c n. rewrite sort_by_perm, elem_of_group_by_text, elem_of_omap_col, count_of_omap.
    reflexivity.
  - eapply strongly_sorted_weaken;
      [|apply (sort_by_sorted (fun a b : string * Z => b.2 <=? a.2));
        [apply count_desc_total | intros a b c; apply count_desc_trans]].
    intros a b H. apply Z.leb_le. exact H.
  - rewrite (sum_perm _ (snd <$> group_by_text (omap d_court (documents (store w))))).
    + apply group_by_text_sum.
    + apply fmap_Permutation, sort_by_perm.
Qed.

(** X19: [get_documents_by_year] returns one row per year that is not
    null, each with the number of documents of that year, the rows in
    ascending order of the year compared as text; the counts add up to
    the number of documents whose year is not null. *)
Theorem get_documents_by_year_table w :
  exists rows w',
    get_documents_by_year w
    = (Return {| df_columns := ["year"; "count"]; df_rows := count_row <$> rows |}, w')
    /\ open_connections w' = open_connections w
    /\ NoDup (fst <$> rows)
    /\ (forall y n, (y, n) ∈ rows
                    <-> Some y ∈ d_year <$> documents (store w)
                        /\ n = documents_with d_year y (store w))
    /\ StronglySorted (fun a b => String.leb a.1 b.1 = true) rows
    /\ foldr Z.add 0 (snd <$> rows)
       = Z.of_nat (length (omap d_year (documents (store w)))).
Proof.
  cbv [get_documents_by_year mbind M_bind execute mret M_ret].
  cbn [get_db_connection bind_params record store]. rewrite frame_of_rows.
  eexists. eexists. split; [reflexivity|]. split; [reflexivity|].
  unfold documents_by_year. split; [|split; [|split]].
  - rewrite sort_by_perm. apply group_by_text_nodup.
  - intros c n. rewrite sort_by_perm, elem_of_group_by_text, elem_of_omap_col, count_of_omap.
    reflexivity.
  - apply (sort_by_sorted (fun a b : string * Z => String.leb a.1 b.1)).
    + intros a b. apply String.leb_total.
    + intros a b c. apply string_leb_trans.
  - rewrite (sum_perm _ (snd <$> group_by_text (omap d_year (documents (store w))))).
    + apply group_by_text_sum.
    + apply fmap_Permutation, sort_by_perm.
Qed.

Lemma elem_of_inner_join st d m :
  (d, m) ∈ inner_join st
  <-> d ∈ documents st /\ m ∈ document_metrics st /\ m_document_id m = Some (d_id d).
Proof.
  unfold inner_join, metrics_of. rewrite list_elem_of_bind. split.
  - intros (d' & Hin & Hd). apply list_elem_of_fmap in Hin as (m' & [= -> ->] & Hm).
    apply list_elem_of_filter in Hm as [Hid Hm]. auto.
  - intros (Hd & Hm & Hid). exists d. split; [|exact Hd].
    apply list_elem_of_fmap. exists m. split; [reflexivity|].
    apply list_elem_of_filter. auto.
Qed.

(** X20: [get_document_metrics] returns one row for every pair of a
    document and a metrics row that references it, and nothing else: the
    rows are those of the left join that have metrics, so a document
    without metrics has no row. *)
Theorem get_document_metrics_table w :
  exists rows w',
    get_document_metrics w
    = (Return {| df_columns := ["ecli_id"; "court"; "year"; "page_count"; "file_size"];
                 df_rows := metrics_row <$> rows |}, w')
    /\ open_connections w' = open_connections w
    /\ (forall d m, (d, m) ∈ rows
                    <-> d ∈ documents (store w) /\ m ∈ document_metrics (store w)
                        /\ m_document_id m = Some (d_id d))
    /\ (forall d m, (d, m) ∈ rows <-> (d, Some m) ∈ left_join (store w))
    /\ (forall d, (d, None) ∈ left_join (store w) -> forall m, (d, m) ∉ rows).
Proof.
  cbv [get_document_metrics mbind M_bind execute mret M_ret].
  cbn [get_db_connection bind_params record store]. rewrite frame_of_rows.
  eexists. eexists. split; [reflexivity|]. split; [reflexivity|].
  split; [|split].
  - intros d m. apply elem_of_inner_join.
  - intros d m. rewrite elem_of_inner_join, elem_of_left_join. cbn [fst snd]. tauto.
  - intros d Hnone m Hin. apply elem_of_inner_join in Hin as (_ & Hm & Hid).
    apply elem_of_left_join in Hnone as [_ Hno]. cbn [fst snd] in Hno.
    exact (Hno m Hm Hid).
Qed.

(* ===================================================================== *)
(** ** Further properties: generating a snapshot *)
(* ===================================================================== *)

Lemma latest_stats_app l r :
  Forall (fun x => s_id x < s_id r) l -> latest_stats (l ++ [r]) = Some r.
Proof.
  induction 1 as [|x l Hx _ IH]; [reflexivity|]. cbn. rewrite IH.
  destruct (Z.ltb_spec (s_id x) (s_id r)); [reflexivity | lia].
Qed.

Lemma next_stats_id_greater l : Forall (fun x => s_id x < next_stats_id l) l.
Proof.
  apply Forall_forall. intros x Hx. unfold next_stats_id.
  destruct (latest_stats l) as [r|] eqn:Hl.
  - pose proof (latest_stats_greatest _ _ Hl x Hx). lia.
  - apply latest_stats_none in Hl. subst. apply elem_of_nil in Hx. contradiction.
Qed.

Section SnapshotFacts.

Variable json_dumps : gmap (option string) Z -> string.
Variable json_loads : string -> outcome pyval.

(** The row that [generate_corpus_stats] inserts; the sums are taken
    first, and each can fail. *)
Lemma generate_corpus_stats_result now st :
  generate_corpus_stats json_dumps now st
  = match sql_sum (m_page_count <$> document_metrics st) with
    | Raise e => Raise e
    | Return _ =>
        match sql_sum (m_file_size <$> document_metrics st) with
        | Raise e => Raise e
        | Return _ =>
            if fits_int64 (table_documents st)
            then Return
                   {| documents := documents st;
                      document_metrics := document_metrics st;
                      corpus_stats :=
                        corpus_stats st ++
                        [{| s_id := next_stats_id (corpus_stats st);
                            s_total_documents := Some (table_documents st);
                            s_total_pages := Some (table_pages st);
                            s_total_size_bytes := Some (table_bytes st);
                            s_courts :=
                              Some (json_dumps
                                      (counts_by_key (group_count (d_court <$> documents st))));
                            s_years :=
                              Some (json_dumps
                                      (counts_by_key (group_count (d_year <$> documents st))));
                            s_generated_at := Some now |}] |}
            else Raise OverflowError
        end
    end.
Proof.
  unfold generate_corpus_stats.
  destruct (sql_sum (m_page_count <$> document_metrics st)) as [p|e] eqn:Hp; [|reflexivity].
  destruct (sql_sum (m_file_size <$> document_metrics st)) as [b|e] eqn:Hb; [|reflexivity].
  cbn [mbind outcome_bind].
  destruct (sql_sum_return _ _ Hp) as (_ & -> & Hfp).
  destruct (sql_sum_return _ _ Hb) as (_ & -> & Hfb).
  fold (table_documents st) (table_pages st) (table_bytes st) in *.
  cbn [bind_params bind_param]. rewrite Hfp, Hfb.
  destruct (fits_int64 (table_documents st)); reflexivity.
Qed.


(** X22: reading the statistics right after a snapshot was generated
    returns that snapshot, older ones or not: its totals are the totals
    of the tables and its time the time given; when there was no snapshot
    before, the three totals are those that [get_corpus_stats] computed
    before the generation.  (The decoder raises nothing but
    [JSONDecodeError] on the two mappings that were just encoded.) *)
Theorem get_corpus_stats_after_generation now w :
  decodes_or_rejects json_loads
    (json_dumps (counts_by_key (group_count (d_court <$> documents (store w))))) = true ->
  decodes_or_rejects json_loads
    (json_dumps (counts_by_key (group_count (d_year <$> documents (store w))))) = true ->
  match generate_corpus_stats json_dumps now (store w) with
  | Return st' =>
      let after := rows_dict (get_corpus_stats json_loads (with_store w st')).1 in
      let before := rows_dict (get_corpus_stats json_loads w).1 in
      after !! "total_documents" = Some (PyInt (table_documents (store w)))
      /\ after !! "total_pages" = Some (PyInt (table_pages (store w)))
      /\ after !! "total_size_bytes" = Some (PyInt (table_bytes (store w)))
      /\ after !! "generated_at" = Some (PyStr now)
      /\ after !! "id" = Some (PyInt (next_stats_id (corpus_stats (store w))))
      /\ (corpus_stats (store w) = [] ->
            Forall (fun k => after !! k = before !! k)
                   ["total_documents"; "total_pages"; "total_size_bytes"])
  | Raise _ => True
  end.
Proof.
  intros Hc Hy. rewrite generate_corpus_stats_result.
  destruct (sql_sum (m_page_count <$> document_metrics (store w))) as [p|e] eqn:Hp; [|exact I].
  destruct (sql_sum (m_file_size <$> document_metrics (store w))) as [b|e] eqn:Hb; [|exact I].
  destruct (fits_int64 (table_documents (store w))); [|exact I].
  cbn zeta.
  erewrite get_corpus_stats_snapshot_result
    by (cbn [with_store store corpus_stats]; apply latest_stats_app, next_stats_id_greater).
  cbv zeta. cbn [s_courts s_years].
  assert (Hfc : forall s, decodes_or_rejects json_loads s = true ->
                          field_readable json_loads (Some s) = true)
    by (intros s Hs; cbn [field_readable]; rewrite Hs; apply orb_true_r).
  destruct (field_readable_returns json_loads _ (Hfc _ Hc)) as [c ->].
  destruct (field_readable_returns json_loads _ (Hfc _ Hy)) as [y ->].
  cbn [fst rows_dict].
  split; [reflexivity|]. split; [reflexivity|]. split; [reflexivity|].
  split; [reflexivity|]. split; [reflexivity|].
  intros Hnone. rewrite get_corpus_stats_computed by (rewrite Hnone; reflexivity).
  cbv zeta. rewrite Hp, Hb. cbn [fst rows_dict].
  destruct (sql_sum_return _ _ Hp) as (_ & -> & _).
  destruct (sql_sum_return _ _ Hb) as (_ & -> & _).
  repeat constructor.
Qed.

End SnapshotFacts.

Lemma get_corpus_stats_after_generation_witness :
  match generate_corpus_stats Json.dumps "2025-06-02T08:00:00" Sample.library with
  | Return st' =>
      let after := rows_dict (get_corpus_stats Json.loads
                                (with_store (Sample.world Sample.library) st')).1 in
      let before := rows_dict (get_corpus_stats Json.loads (Sample.world Sample.library)).1 in
      after !! "total_documents" = Some (PyInt (table_documents Sample.library))
      /\ after !! "total_pages" = Some (PyInt (table_pages Sample.library))
      /\ after !! "total_size_bytes" = Some (PyInt (table_bytes Sample.library))
      /\ after !! "generated_at" = Some (PyStr "2025-06-02T08:00:00")
      /\ after !! "id" = Some (PyInt (next_stats_id (corpus_stats Sample.library)))
      /\ (corpus_stats Sample.library = [] ->
            Forall (fun k => after !! k = before !! k)
                   ["total_documents"; "total_pages"; "total_size_bytes"])
  | Raise _ => True
  end.
Proof.
  apply (get_corpus_stats_after_generation Json.dumps Json.loads "2025-06-02T08:00:00"
           (Sample.world Sample.library)); vm_compute; reflexivity.
Defined.


(* ===================================================================== *)
(** ** Further properties: feedback *)
(* ===================================================================== *)

Lemma truthy_dict (data : pydict) : data <> ∅ -> truthy (PyDict data) = true.
Proof.
  intros Hne. cbn. destruct (Nat.eqb_spec (size data) 0) as [H0|_]; [|reflexivity].
  apply map_size_empty_iff in H0. contradiction.
Qed.

(** X23: the feedback route writes for a mapping that is not empty and
    for nothing else.  A body that is false for Python (no body, an empty
    mapping or list, 0, the empty string) gets the 400 answer; a body
    that is true but is not a mapping (a list, a string, a number) raises
    [TypeError] when the time stamp is stored in it.  In both cases no
    connection is opened and nothing is written. *)
Theorem submit_feedback_needs_mapping feedback_data s :
  (forall data, feedback_data = PyDict data -> data = ∅) ->
  submit_feedback feedback_data s
  = (if truthy feedback_data then Raise TypeError else Return no_feedback, s).
Proof.
  intros Hnd. unfold submit_feedback.
  destruct (truthy feedback_data) eqn:Ht; cbn [negb]; [|reflexivity].
  destruct feedback_data; try reflexivity.
  rewrite (Hnd m eq_refl) in Ht. discriminate.
Qed.

Lemma submit_feedback_needs_mapping_witness :
  submit_feedback (PyList [PyStr "bug"]) (Demo.site None) = (Raise TypeError, Demo.site None)
  /\ submit_feedback (PyDict ∅) (Demo.site None) = (Return no_feedback, Demo.site None).
Proof.
  split.
  - apply (submit_feedback_needs_mapping (PyList [PyStr "bug"]) (Demo.site None)).
    intros data. discriminate.
  - refine (submit_feedback_needs_mapping (PyDict ∅) (Demo.site None) _).
    intros data [= <-]. reflexivity.
Defined.

Lemma dict_get_timestamp (data : pydict) now k :
  k <> "timestamp" -> dict_get (<["timestamp" := PyStr now]> data) k = dict_get data k.
Proof. intros Hk. unfold dict_get. rewrite lookup_insert_ne by congruence. reflexivity. Qed.



(** X25: on a store set up by the initialisation script, whose feedback
    table names its columns type and submitted_at, the INSERT of the
    route names columns the table does not have: every submission with a
    body raises [OperationalError], no row is added, and the connection
    stays open. *)
Theorem submit_feedback_script_table data s t :
  data <> ∅ ->
  user_feedback s = Some t ->
  t_columns t = script_feedback_columns ->
  exists s',
    submit_feedback (PyDict data) s = (Raise OperationalError, s')
    /\ user_feedback s' = Some t
    /\ open_connections (site_world s') = S (open_connections (site_world s)).
Proof.
  intros Hne Ht Hcols. unfold submit_feedback. rewrite (truthy_dict _ Hne). cbn [negb].
  cbn [on_world user_feedback site_world]. rewrite Ht.
  destruct t as [cols rows]. cbn [t_columns] in Hcols. subst cols.
  eexists. split; [reflexivity|]. split; reflexivity.
Qed.

Lemma submit_feedback_script_table_witness :
  exists s',
    submit_feedback Demo.feedback (Demo.site (Some Demo.script_table))
    = (Raise OperationalError, s')
    /\ user_feedback s' = Some Demo.script_table
    /\ open_connections (site_world s') = 1%nat.
Proof.
  apply (submit_feedback_script_table
           (<["type" := PyStr "bug"]>
            (<["rating" := PyInt 2]>
            (<["timestamp" := PyStr "1970-01-01T00:00:00"]> ∅)))
           (Demo.site (Some Demo.script_table)) Demo.script_table).
  - intros H. apply (f_equal (fun m : pydict => m !! "type")) in H. discriminate.
  - reflexivity.
  - reflexivity.
Defined.

Lemma bind_param_errors v e :
  bind_param v = Raise e -> e = OverflowError \/ e = ProgrammingError.
Proof.
  destruct v; cbn; try discriminate.
  - destruct (fits_int64 n); [discriminate|]. intros [= <-]. left. reflexivity.
  - intros [= <-]. right. reflexivity.
  - intros [= <-]. right. reflexivity.
Qed.

Lemma bind_params_raises l :
  Exists (fun v => exists e, bind_param v = Raise e) l ->
  exists e, bind_params l = Raise e /\ (e = OverflowError \/ e = ProgrammingError).
Proof.
  induction 1 as [v l [e He] | v l _ [e [He Hk]]]; cbn [bind_params].
  - rewrite He. exists e. split; [reflexivity | exact (bind_param_errors _ _ He)].
  - destruct (bind_param v) as [x|e'] eqn:Hv.
    + rewrite He. exists e. split; [reflexivity | exact Hk].
    + exists e'. split; [reflexivity | exact (bind_param_errors _ _ Hv)].
Qed.

(** X26: when a field of the body is a value the store cannot hold (a
    list, a mapping, an integer beyond 64 bits), the route raises while
    it binds the INSERT: the table has been created if it was missing, no
    row is added, and the connection stays open. *)
Theorem submit_feedback_unbindable_field data s :
  data <> ∅ ->
  match user_feedback s with
  | Some t => t_columns t = dashboard_feedback_columns
  | None => True
  end ->
  Exists (fun k => exists e, bind_param (dict_get data k) = Raise e)
         ["type"; "rating"; "comment"; "document_id"; "user_agent"] ->
  exists e s',
    submit_feedback (PyDict data) s = (Raise e, s')
    /\ (e = OverflowError \/ e = ProgrammingError)
    /\ user_feedback s'
       = Some (match user_feedback s with
               | Some t => t
               | None => {| t_columns := dashboard_feedback_columns; t_rows := [] |}
               end)
    /\ open_connections (site_world s') = S (open_connections (site_world s)).
Proof.
  intros Hne Hcols Hbad.
  destruct (bind_params_raises
              [dict_get data "type"; dict_get data "rating"; dict_get data "comment";
               dict_get data "document_id"; dict_get data "user_agent";
               PyStr (clock (site_world s))]) as (e & He & Hkind).
  { repeat (apply Exists_cons in Hbad as [Hbad | Hbad];
            [repeat (first [left; exact Hbad | right])|]).
    apply Exists_nil in Hbad. contradiction. }
  unfold submit_feedback. rewrite (truthy_dict _ Hne). cbn [negb].
  cbn [on_world user_feedback site_world].
  rewrite !dict_get_timestamp by discriminate.
  assert (dict_get (<["timestamp" := PyStr (clock (site_world s))]> data) "timestamp"
          = PyStr (clock (site_world s))) as ->
    by (unfold dict_get; rewrite lookup_insert_eq; reflexivity).
  rewrite He. exists e.
  destruct s as [w [t|]]; cbn [user_feedback site_world] in *.
  - destruct t as [cols rows]. cbn [t_columns] in Hcols. subst cols.
    eexists. split; [reflexivity|]. split; [exact Hkind|]. split; reflexivity.
  - eexists. split; [reflexivity|]. split; [exact Hkind|]. split; reflexivity.
Qed.

Lemma submit_feedback_unbindable_field_witness :
  exists e s',
    submit_feedback (PyDict (<["comment" := PyList [PyStr "a"; PyStr "b"]]> ∅)) (Demo.site None)
    = (Raise e, s')
    /\ (e = OverflowError \/ e = ProgrammingError)
    /\ user_feedback s' = Some {| t_columns := dashboard_feedback_columns; t_rows := [] |}
    /\ open_connections (site_world s') = 1%nat.
Proof.
  apply (submit_feedback_unbindable_field
           (<["comment" := PyList [PyStr "a"; PyStr "b"]]> ∅) (Demo.site None)).
  - intros H. apply (f_equal (fun m : pydict => m !! "comment")) in H. discriminate.
  - exact I.
  - right. right. left. eexists. reflexivity.
Defined.
